(** * Diamond Mind: the agent runtime and its broker contract

    A shallow embedding of [shared/schemas.py], [shared/messaging.py] and
    [shared/base_agent.py] of the [diamond_mind] package: the message
    schemas, the Redis-backed [MessageQueue] and the [BaseAgent] life cycle
    (start, main loop, task execution, heartbeat loop).

    Conventions.
    - Python exceptions are explicit: every operation runs in a state and
      exception monad, [try ... except Exception] is [try_except].
    - The Redis server is a typed key space (lists and hashes); every
      command may fail with a transport error chosen by a fault schedule.
    - [datetime.now()] reads an explicit wall clock; a [float] number of
      seconds is an exact rational. *)

From Stdlib Require Import ZArith QArith String Bool Lia.
From stdpp Require Import base option gmap strings pretty list fin_maps.
Close Scope Q_scope.
Open Scope Z_scope.
Open Scope string_scope.
Open Scope list_scope.
Set Warnings "-register-all".

(** ** Scalars *)

(** A naive [datetime]: microseconds on the local wall clock. *)
Definition datetime := Z.

(** [(b - a).total_seconds()] *)
Definition total_seconds (b a : datetime) : Q := Qmake (b - a) 1000000.

(** ** JSON documents

    A JSON string that holds the ISO-8601 text of an instant is kept
    symbolic as [JTime]; every other string is a [JStr]. *)
Inductive json :=
| JNull
| JBool (b : bool)
| JInt (z : Z)
| JFloat (q : Q)
| JStr (s : string)
| JTime (t : datetime)
| JArr (l : list json)
| JObj (o : gmap string json).

(** The text held by a Redis string, seen through [json.loads]: text that
    is no JSON document, the [isoformat()] of an instant (no JSON document
    either), or the text of a document. *)
Inductive text :=
| NotJson (s : string)
| IsoTime (t : datetime)
| Doc (j : json).

(** [json.loads]: [None] stands for [JSONDecodeError]. *)
Definition json_loads (s : text) : option json :=
  match s with
  | Doc j => Some j
  | NotJson _ | IsoTime _ => None
  end.

(** Truth value of a [str]: the empty text is falsy. *)
Definition text_truthy (s : text) : bool :=
  match s with
  | NotJson "" => false
  | _ => true
  end.

(** ** Enums of [schemas.py] *)

Module AgentType.
Inductive t := ORCHESTRATOR | DATA_QUALITY | MODEL_MONITOR | FEATURE_ENGINEER | EXPLAINER.

Definition value (a : t) : string :=
  match a with
  | ORCHESTRATOR => "orchestrator"
  | DATA_QUALITY => "data_quality"
  | MODEL_MONITOR => "model_monitor"
  | FEATURE_ENGINEER => "feature_engineer"
  | EXPLAINER => "explainer"
  end.

Definition members : list t :=
  [ORCHESTRATOR; DATA_QUALITY; MODEL_MONITOR; FEATURE_ENGINEER; EXPLAINER].

Definition of_value (s : string) : option t :=
  List.find (fun a => String.eqb (value a) s) members.
End AgentType.

Module TaskStatus.
Inductive t := PENDING | RUNNING | COMPLETED | FAILED | CANCELLED.

Definition value (a : t) : string :=
  match a with
  | PENDING => "pending"
  | RUNNING => "running"
  | COMPLETED => "completed"
  | FAILED => "failed"
  | CANCELLED => "cancelled"
  end.

Definition members : list t := [PENDING; RUNNING; COMPLETED; FAILED; CANCELLED].

Definition of_value (s : string) : option t :=
  List.find (fun a => String.eqb (value a) s) members.
End TaskStatus.

Module TaskPriority.
Inductive t := LOW | MEDIUM | HIGH | CRITICAL.

Definition value (a : t) : string :=
  match a with
  | LOW => "low"
  | MEDIUM => "medium"
  | HIGH => "high"
  | CRITICAL => "critical"
  end.

Definition members : list t := [LOW; MEDIUM; HIGH; CRITICAL].

Definition of_value (s : string) : option t :=
  List.find (fun a => String.eqb (value a) s) members.
End TaskPriority.

Module AlertSeverity.
Inductive t := INFO | WARNING | ERROR | CRITICAL.

Definition value (a : t) : string :=
  match a with
  | INFO => "info"
  | WARNING => "warning"
  | ERROR => "error"
  | CRITICAL => "critical"
  end.
End AlertSeverity.

#[global] Instance AgentType_eq_dec : EqDecision AgentType.t.
Proof. solve_decision. Defined.
#[global] Instance TaskStatus_eq_dec : EqDecision TaskStatus.t.
Proof. solve_decision. Defined.
#[global] Instance TaskPriority_eq_dec : EqDecision TaskPriority.t.
Proof. solve_decision. Defined.
#[global] Instance AlertSeverity_eq_dec : EqDecision AlertSeverity.t.
Proof. solve_decision. Defined.

(** ** Messages of [schemas.py] *)

Module AgentTask.
Record t := mk {
  task_id : string;
  agent_id : AgentType.t;
  task_type : string;
  priority : TaskPriority.t;
  parameters : gmap string json;
  created_at : datetime;
  timeout_seconds : option Z;
  retry_count : Z;
  max_retries : Z
}.

(** [model_dump_json()] *)
Definition model_dump_json (x : t) : json :=
  JObj (list_to_map
    [("task_id", JStr (task_id x));
     ("agent_id", JStr (AgentType.value (agent_id x)));
     ("task_type", JStr (task_type x));
     ("priority", JStr (TaskPriority.value (priority x)));
     ("parameters", JObj (parameters x));
     ("created_at", JTime (created_at x));
     ("timeout_seconds", from_option JInt JNull (timeout_seconds x));
     ("retry_count", JInt (retry_count x));
     ("max_retries", JInt (max_retries x))]).
End AgentTask.

Module AgentResult.
Record t := mk {
  task_id : string;
  agent_id : AgentType.t;
  status : TaskStatus.t;
  result_data : option (gmap string json);
  metrics : gmap string Q;
  artifacts : list string;
  duration_seconds : Q;
  completed_at : datetime;
  error_message : option string
}.

(** [result.duration_seconds = d]: plain attribute assignment, the model
    does not validate on assignment. *)
Definition set_duration_seconds (d : Q) (x : t) : t :=
  mk (task_id x) (agent_id x) (status x) (result_data x) (metrics x)
     (artifacts x) d (completed_at x) (error_message x).

(** The one field constraint of the schema: [duration_seconds >= 0]. *)
Definition schema_ok (x : t) : bool := Qle_bool 0 (duration_seconds x).

(** [model_dump_json()] *)
Definition model_dump_json (x : t) : json :=
  JObj (list_to_map
    [("task_id", JStr (task_id x));
     ("agent_id", JStr (AgentType.value (agent_id x)));
     ("status", JStr (TaskStatus.value (status x)));
     ("result_data", from_option JObj JNull (result_data x));
     ("metrics", JObj (JFloat <$> metrics x));
     ("artifacts", JArr (JStr <$> artifacts x));
     ("duration_seconds", JFloat (duration_seconds x));
     ("completed_at", JTime (completed_at x));
     ("error_message", from_option JStr JNull (error_message x))]).
End AgentResult.

Module AgentAlert.
Record t := mk {
  alert_id : string;
  agent_id : AgentType.t;
  severity : AlertSeverity.t;
  message : string;
  details : gmap string json;
  timestamp : datetime;
  requires_action : bool;
  suggested_actions : list string;
  related_task_id : option string
}.

(** [model_dump_json()] *)
Definition model_dump_json (x : t) : json :=
  JObj (list_to_map
    [("alert_id", JStr (alert_id x));
     ("agent_id", JStr (AgentType.value (agent_id x)));
     ("severity", JStr (AlertSeverity.value (severity x)));
     ("message", JStr (message x));
     ("details", JObj (details x));
     ("timestamp", JTime (timestamp x));
     ("requires_action", JBool (requires_action x));
     ("suggested_actions", JArr (JStr <$> suggested_actions x));
     ("related_task_id", from_option JStr JNull (related_task_id x))]).
End AgentAlert.

(** ** Validation of decoded documents

    [AgentTask( **d)] and [AgentResult( **d)] are pydantic's work; the
    message queue relies on them through this interface.  [None] stands
    for the exception the constructor raises ([TypeError] when [d] is no
    dict, [ValidationError] otherwise).  The first argument is the reading
    a [default_factory=datetime.now] field would take.  The one law used
    is that a result satisfying its schema validates from its own dump. *)
Class Pydantic := {
  AgentTask_validate : datetime -> json -> option AgentTask.t;
  AgentResult_validate : datetime -> json -> option AgentResult.t;
  AgentResult_validate_dump : forall now r,
    AgentResult.schema_ok r = true ->
    AgentResult_validate now (AgentResult.model_dump_json r) = Some r
}.

(** *** The schemas read strictly

    Every field must carry the JSON type its declared type dumps to
    (an [int] is also accepted where a [float] is declared); a field with
    a default may be absent; unknown keys are ignored. *)
Module Strict.
Definition required {A} (o : gmap string json) (k : string)
    (conv : json -> option A) : option A :=
  o !! k ≫= conv.

Definition defaulted {A} (o : gmap string json) (k : string) (dflt : A)
    (conv : json -> option A) : option A :=
  match o !! k with
  | None => Some dflt
  | Some v => conv v
  end.

Definition as_str (v : json) : option string :=
  match v with JStr s => Some s | _ => None end.

Definition as_int_ge0 (v : json) : option Z :=
  match v with
  | JInt z => if decide (0 <= z) then Some z else None
  | _ => None
  end.

Definition as_optional_int (v : json) : option (option Z) :=
  match v with
  | JNull => Some None
  | JInt z => Some (Some z)
  | _ => None
  end.

Definition as_optional_str (v : json) : option (option string) :=
  match v with
  | JNull => Some None
  | JStr s => Some (Some s)
  | _ => None
  end.

Definition as_optional_dict (v : json) : option (option (gmap string json)) :=
  match v with
  | JNull => Some None
  | JObj d => Some (Some d)
  | _ => None
  end.

Definition as_dict (v : json) : option (gmap string json) :=
  match v with JObj d => Some d | _ => None end.

Definition as_datetime (v : json) : option datetime :=
  match v with JTime t => Some t | _ => None end.

Definition as_float (v : json) : option Q :=
  match v with
  | JFloat q => Some q
  | JInt z => Some (inject_Z z)
  | _ => None
  end.

Definition as_float_ge0 (v : json) : option Q :=
  q ← as_float v; if Qle_bool 0 q then Some q else None.

Definition as_float_dict (v : json) : option (gmap string Q) :=
  match v with
  | JObj d =>
      if decide (map_Forall (fun _ x => is_Some (as_float x)) d)
      then Some (omap as_float d) else None
  | _ => None
  end.

Definition as_str_list (v : json) : option (list string) :=
  match v with
  | JArr l => mapM as_str l
  | _ => None
  end.

#[local] Arguments as_float_dict : simpl never.
#[local] Arguments as_str_list : simpl never.

(** [AgentTask( **d)] *)
Definition task_validate (now : datetime) (d : json) : option AgentTask.t :=
  match d with
  | JObj o =>
      task_id ← required o "task_id" as_str;
      agent_id ← required o "agent_id" (fun v => as_str v ≫= AgentType.of_value);
      task_type ← required o "task_type" as_str;
      priority ← defaulted o "priority" TaskPriority.MEDIUM
                   (fun v => as_str v ≫= TaskPriority.of_value);
      parameters ← defaulted o "parameters" ∅ as_dict;
      created_at ← defaulted o "created_at" now as_datetime;
      timeout_seconds ← defaulted o "timeout_seconds" None as_optional_int;
      retry_count ← defaulted o "retry_count" 0 as_int_ge0;
      max_retries ← defaulted o "max_retries" 3 as_int_ge0;
      Some (AgentTask.mk task_id agent_id task_type priority parameters
              created_at timeout_seconds retry_count max_retries)
  | _ => None
  end.

(** [AgentResult( **d)] *)
Definition result_validate (now : datetime) (d : json) : option AgentResult.t :=
  match d with
  | JObj o =>
      task_id ← required o "task_id" as_str;
      agent_id ← required o "agent_id" (fun v => as_str v ≫= AgentType.of_value);
      status ← required o "status" (fun v => as_str v ≫= TaskStatus.of_value);
      result_data ← defaulted o "result_data" None as_optional_dict;
      metrics ← defaulted o "metrics" ∅ as_float_dict;
      artifacts ← defaulted o "artifacts" [] as_str_list;
      duration_seconds ← required o "duration_seconds" as_float_ge0;
      completed_at ← defaulted o "completed_at" now as_datetime;
      error_message ← defaulted o "error_message" None as_optional_str;
      Some (AgentResult.mk task_id agent_id status result_data metrics
              artifacts duration_seconds completed_at error_message)
  | _ => None
  end.

Lemma AgentType_of_value_value a : AgentType.of_value (AgentType.value a) = Some a.
Proof. by destruct a. Qed.

Lemma TaskStatus_of_value_value a : TaskStatus.of_value (TaskStatus.value a) = Some a.
Proof. by destruct a. Qed.

Lemma TaskPriority_of_value_value a :
  TaskPriority.of_value (TaskPriority.value a) = Some a.
Proof. by destruct a. Qed.

Lemma as_float_dict_dump (m : gmap string Q) :
  as_float_dict (JObj (JFloat <$> m)) = Some m.
Proof.
  unfold as_float_dict. case_decide as H.
  - f_equal. apply map_eq. intros k.
    rewrite lookup_omap, lookup_fmap. by destruct (m !! k).
  - exfalso. apply H. intros k x. rewrite lookup_fmap.
    destruct (m !! k); intros [= <-]. by eexists.
Qed.

Lemma as_str_list_dump (l : list string) : as_str_list (JArr (JStr <$> l)) = Some l.
Proof.
  unfold as_str_list. induction l as [|s l IH]; [done|].
  rewrite fmap_cons. simpl. by rewrite IH.
Qed.

Lemma result_validate_dump now r :
  AgentResult.schema_ok r = true ->
  result_validate now (AgentResult.model_dump_json r) = Some r.
Proof.
  destruct r as [tid aid st rd ms ars dur cat em].
  unfold AgentResult.schema_ok. simpl. intros Hdur.
  unfold required, defaulted. simplify_map_eq.
  rewrite AgentType_of_value_value, TaskStatus_of_value_value.
  rewrite as_float_dict_dump, as_str_list_dump.
  unfold as_float_ge0. simpl. rewrite Hdur.
  by destruct rd, em.
Qed.

Lemma task_validate_dump now x :
  0 <= AgentTask.retry_count x -> 0 <= AgentTask.max_retries x ->
  task_validate now (AgentTask.model_dump_json x) = Some x.
Proof.
  destruct x as [tid aid ty pr ps cat tmo rc mr]. simpl. intros Hrc Hmr.
  unfold required, defaulted. simplify_map_eq.
  rewrite AgentType_of_value_value, TaskPriority_of_value_value.
  simpl. destruct tmo; simpl; repeat case_decide; done.
Qed.
End Strict.

#[global] Instance strict_pydantic : Pydantic := {|
  AgentTask_validate := Strict.task_validate;
  AgentResult_validate := Strict.result_validate;
  AgentResult_validate_dump := Strict.result_validate_dump
|}.

(** ** Exceptions and the state monad

    Python's exception hierarchy, as far as the [except] clauses of the
    runtime tell classes apart. *)
Inductive exc_class :=
| Exception_          (* [Exception] and its subclasses *)
| CancelledError      (* [asyncio.CancelledError], a [BaseException] *)
| BaseException_.     (* [KeyboardInterrupt], [SystemExit] *)

Record exn := mk_exn { exc_cls : exc_class; exc_str : string }.

#[global] Instance exc_class_eq_dec : EqDecision exc_class.
Proof. solve_decision. Defined.

(** [isinstance(e, Exception)] *)
Definition is_Exception (e : exn) : bool := bool_decide (exc_cls e = Exception_).

(** [isinstance(e, asyncio.CancelledError)] *)
Definition is_CancelledError (e : exn) : bool := bool_decide (exc_cls e = CancelledError).

Inductive outcome (A : Type) :=
| Return (a : A)
| Raise (e : exn).
Arguments Return {A} a.
Arguments Raise {A} e.

(** A computation over a state [S]: it ends by returning or by raising,
    and the state it leaves is kept in both cases. *)
Definition M (S A : Type) : Type := S -> outcome A * S.

Definition ret {S A} (a : A) : M S A := fun s => (Return a, s).

Definition bind {S A B} (m : M S A) (k : A -> M S B) : M S B :=
  fun s =>
    match m s with
    | (Return a, s') => k a s'
    | (Raise e, s') => (Raise e, s')
    end.

Definition raise {S A} (e : exn) : M S A := fun s => (Raise e, s).

Definition gets {S A} (f : S -> A) : M S A := fun s => (Return (f s), s).

Definition modify {S} (f : S -> S) : M S unit := fun s => (Return tt, f s).

(** [try: body except <classes> as e: handler e].  The handler starts from
    the state the body left when it raised; an exception of another class,
    or one raised by the handler, propagates. *)
Definition try_except {S A} (body : M S A) (catches : exn -> bool)
    (handler : exn -> M S A) : M S A :=
  fun s =>
    match body s with
    | (Return a, s') => (Return a, s')
    | (Raise e, s') => if catches e then handler e s' else (Raise e, s')
    end.

(** [try: body except C1: h1 except C2 as e: h2 e]: the first clause that
    matches handles the exception; what a handler raises propagates. *)
Definition try_except2 {S A} (body : M S A)
    (catches1 : exn -> bool) (handler1 : exn -> M S A)
    (catches2 : exn -> bool) (handler2 : exn -> M S A) : M S A :=
  fun s =>
    match body s with
    | (Return a, s') => (Return a, s')
    | (Raise e, s') =>
        if catches1 e then handler1 e s'
        else if catches2 e then handler2 e s'
        else (Raise e, s')
    end.

#[global] Instance M_ret {S} : MRet (M S) := fun A => @ret S A.
#[global] Instance M_bind {S} : MBind (M S) := fun A B k m => @bind S A B m k.

(** ** The world outside the agent object *)

Inductive levelname := LOG_INFO | LOG_WARNING | LOG_ERROR.

(** A piece of a formatted log message: literal text, or a float printed
    with [:.2f]. *)
Inductive frag :=
| Str (s : string)
| Fixed2 (q : Q).

Record log_record := mk_log {
  logger_name : string;
  level : levelname;
  msg : list frag
}.

(** A Redis value: a list (head to the left) or a hash. *)
Inductive rvalue :=
| RList (l : list text)
| RHash (h : gmap string text).

Record World := mk_world {
  connected : bool;                 (* [message_queue.redis_client is not None] *)
  db : gmap string rvalue;          (* the key space of the Redis server *)
  channels : list (string * text);  (* pub/sub messages, oldest first *)
  faults : list (option string);    (* per command to come: the transport error it meets *)
  clock : nat -> datetime;          (* successive readings of the wall clock *)
  ticks : nat;                      (* readings taken so far *)
  uuids : nat -> string;            (* successive values of [uuid.uuid4()] *)
  drawn : nat;                      (* uuids drawn so far *)
  log : list log_record             (* records emitted, oldest first *)
}.

Definition set_db (d : gmap string rvalue) (w : World) : World :=
  mk_world (connected w) d (channels w) (faults w) (clock w) (ticks w)
    (uuids w) (drawn w) (log w).

Definition set_channels (c : list (string * text)) (w : World) : World :=
  mk_world (connected w) (db w) c (faults w) (clock w) (ticks w)
    (uuids w) (drawn w) (log w).

Definition set_faults (f : list (option string)) (w : World) : World :=
  mk_world (connected w) (db w) (channels w) f (clock w) (ticks w)
    (uuids w) (drawn w) (log w).

Definition set_ticks (n : nat) (w : World) : World :=
  mk_world (connected w) (db w) (channels w) (faults w) (clock w) n
    (uuids w) (drawn w) (log w).

Definition set_drawn (n : nat) (w : World) : World :=
  mk_world (connected w) (db w) (channels w) (faults w) (clock w) (ticks w)
    (uuids w) n (log w).

Definition set_log (l : list log_record) (w : World) : World :=
  mk_world (connected w) (db w) (channels w) (faults w) (clock w) (ticks w)
    (uuids w) (drawn w) l.

(** The reading [datetime.now()] would give, without taking it. *)
Definition current_time (w : World) : datetime := clock w (ticks w).

(** [datetime.now()] *)
Definition datetime_now : M World datetime :=
  fun w => (Return (current_time w), set_ticks (S (ticks w)) w).

(** [str(uuid.uuid4())] *)
Definition uuid4 : M World string :=
  fun w => (Return (uuids w (drawn w)), set_drawn (S (drawn w)) w).

(** [logging.Logger.info / warning / error] of the logger called [name] *)
Definition logger_log (name : string) (lv : levelname) (m : list frag) : M World unit :=
  modify (fun w => set_log (log w ++ [mk_log name lv m]) w).

(** ** Redis commands

    A command maps the key space to a reply and a new key space, or to
    the error text of the server's reply. *)
Definition command (A : Type) : Type :=
  gmap string rvalue -> string + A * gmap string rvalue.

Definition WRONGTYPE : string :=
  "WRONGTYPE Operation against a key holding the wrong kind of value".

(** Splits a non-empty list into its front and its last element. *)
Fixpoint unsnoc {A} (l : list A) : option (list A * A) :=
  match l with
  | [] => None
  | x :: l' =>
      match unsnoc l' with
      | None => Some ([], x)
      | Some (front, y) => Some (x :: front, y)
      end
  end.

(** [LPUSH key v]: the reply is the new length. *)
Definition LPUSH (key : string) (v : text) : command Z :=
  fun d =>
    match d !! key with
    | None => inr (1, <[key := RList [v]]> d)
    | Some (RList l) => inr (Z.of_nat (S (length l)), <[key := RList (v :: l)]> d)
    | Some (RHash _) => inl WRONGTYPE
    end.

(** [BRPOP key timeout] once the wait is over: the tail element with the
    key, or nil when the list stayed empty.  A list that becomes empty is
    removed from the key space. *)
Definition BRPOP (key : string) (timeout : Z) : command (option (string * text)) :=
  fun d =>
    match d !! key with
    | None => inr (None, d)
    | Some (RList l) =>
        match unsnoc l with
        | None => inr (None, d)
        | Some ([], x) => inr (Some (key, x), delete key d)
        | Some (front, x) => inr (Some (key, x), <[key := RList front]> d)
        end
    | Some (RHash _) => inl WRONGTYPE
    end.

(** [HSET key field value ...]: the fields given are set, the others kept;
    the reply is the number of fields added. *)
Definition HSET (key : string) (mapping : gmap string text) : command Z :=
  fun d =>
    match d !! key with
    | None => inr (Z.of_nat (size mapping), <[key := RHash mapping]> d)
    | Some (RHash h) =>
        inr (Z.of_nat (size (mapping ∖ h)), <[key := RHash (mapping ∪ h)]> d)
    | Some (RList _) => inl WRONGTYPE
    end.

(** [HGET key field] *)
Definition HGET (key field : string) : command (option text) :=
  fun d =>
    match d !! key with
    | None => inr (None, d)
    | Some (RHash h) => inr (h !! field, d)
    | Some (RList _) => inl WRONGTYPE
    end.

(** One command sent through [self.redis_client].  Without a client the
    attribute access raises [AttributeError]; otherwise the next entry of
    the fault schedule says whether the transport fails before the command
    reaches the server; an error reply is raised as [ResponseError]. *)
Definition redis_call {A} (cmd : command A) : M World A :=
  fun w =>
    if connected w then
      match faults w with
      | Some err :: rest => (Raise (mk_exn Exception_ err), set_faults rest w)
      | _ =>
          let w' := set_faults (tail (faults w)) w in
          match cmd (db w') with
          | inl err => (Raise (mk_exn Exception_ err), w')
          | inr (a, d') => (Return a, set_db d' w')
          end
      end
    else (Raise (mk_exn Exception_ "'NoneType' object has no attribute"), w).

(** [PUBLISH channel message]: no key is touched; the message reaches the
    subscribers of the channel. *)
Definition redis_publish (channel : string) (m : text) : M World unit :=
  redis_call (fun d => inr (tt, d)) ;;
  modify (fun w => set_channels (channels w ++ [(channel, m)]) w).

(** ** [shared/config.py]: the settings the runtime reads *)
Record Settings := mk_settings {
  task_queue_name : string;
  result_queue_name : string;
  alert_queue_name : string;
  heartbeat_interval_seconds : Z
}.

Definition default_settings : Settings :=
  mk_settings "diamond_mind:tasks" "diamond_mind:results" "diamond_mind:alerts" 60.

(** ** [shared/messaging.py]: class [MessageQueue] *)
Section MessageQueue.
Context {pydantic : Pydantic} (settings : Settings).

(** The module's logger, [get_agent_logger("messaging")]. *)
Definition logger : levelname -> list frag -> M World unit := logger_log "messaging".

(** [json.loads(s)], raising [JSONDecodeError] *)
Definition loads (s : text) : M World json :=
  match json_loads s with
  | Some j => mret j
  | None => raise (mk_exn Exception_ "JSONDecodeError")
  end.

(** [AgentTask( **d)], raising [TypeError] or [ValidationError] *)
Definition AgentTask_init (d : json) : M World AgentTask.t :=
  fun w =>
    match AgentTask_validate (current_time w) d with
    | Some t => (Return t, w)
    | None => (Raise (mk_exn Exception_ "ValidationError"), w)
    end.

(** [AgentResult( **d)], raising [TypeError] or [ValidationError] *)
Definition AgentResult_init (d : json) : M World AgentResult.t :=
  fun w =>
    match AgentResult_validate (current_time w) d with
    | Some r => (Return r, w)
    | None => (Raise (mk_exn Exception_ "ValidationError"), w)
    end.

Definition publish_task (task : AgentTask.t) : M World bool :=
  try_except
    (let task_json := Doc (AgentTask.model_dump_json task) in
     redis_call (LPUSH (task_queue_name settings) task_json) ;;
     logger LOG_INFO [Str "Published task "; Str (AgentTask.task_id task);
                      Str " for agent ";
                      Str (AgentType.value (AgentTask.agent_id task))] ;;
     mret true)
    is_Exception
    (fun e =>
       logger LOG_ERROR [Str "Failed to publish task: "; Str (exc_str e)] ;;
       mret false).

Definition consume_task (timeout : Z) : M World (option AgentTask.t) :=
  try_except
    (result ← redis_call (BRPOP (task_queue_name settings) timeout);
     match result with
     | Some (_, task_json) =>
         task_dict ← loads task_json;
         task ← AgentTask_init task_dict;
         mret (Some task)
     | None => mret None
     end)
    is_Exception
    (fun e =>
       logger LOG_ERROR [Str "Failed to consume task: "; Str (exc_str e)] ;;
       mret None).

(** The key of the hash that stores the latest result of a task. *)
Definition result_key (task_id : string) : string := "results:" +:+ task_id.

Definition publish_result (result : AgentResult.t) : M World bool :=
  try_except
    (let result_json := Doc (AgentResult.model_dump_json result) in
     redis_call (LPUSH (result_queue_name settings) result_json) ;;
     now ← datetime_now;
     redis_call (HSET (result_key (AgentResult.task_id result))
                   (<["data" := result_json]> {["timestamp" := IsoTime now]})) ;;
     logger LOG_INFO [Str "Published result for task ";
                      Str (AgentResult.task_id result)] ;;
     mret true)
    is_Exception
    (fun e =>
       logger LOG_ERROR [Str "Failed to publish result: "; Str (exc_str e)] ;;
       mret false).

Definition get_result (task_id : string) : M World (option AgentResult.t) :=
  try_except
    (result_data ← redis_call (HGET (result_key task_id) "data");
     match result_data with
     | Some s =>
         if text_truthy s then
           result_dict ← loads s;
           r ← AgentResult_init result_dict;
           mret (Some r)
         else mret None
     | None => mret None
     end)
    is_Exception
    (fun e =>
       logger LOG_ERROR [Str "Failed to get result: "; Str (exc_str e)] ;;
       mret None).

Definition publish_alert (alert : AgentAlert.t) : M World bool :=
  try_except
    (let alert_json := Doc (AgentAlert.model_dump_json alert) in
     redis_call (LPUSH (alert_queue_name settings) alert_json) ;;
     redis_publish "alerts" alert_json ;;
     logger LOG_WARNING [Str "Published alert "; Str (AgentAlert.alert_id alert);
                         Str " from ";
                         Str (AgentType.value (AgentAlert.agent_id alert));
                         Str ": "; Str (AgentAlert.message alert)] ;;
     mret true)
    is_Exception
    (fun e =>
       logger LOG_ERROR [Str "Failed to publish alert: "; Str (exc_str e)] ;;
       mret false).

(** No [try] here: an error of the command propagates to the caller. *)
Definition update_agent_heartbeat (agent_id : string) : M World unit :=
  now ← datetime_now;
  redis_call (HSET "agent_heartbeats" {[agent_id := IsoTime now]}) ;;
  mret tt.

Definition get_agent_heartbeat (agent_id : string) : M World (option datetime) :=
  heartbeat_str ← redis_call (HGET "agent_heartbeats" agent_id);
  match heartbeat_str with
  | Some (IsoTime t) => mret (Some t)
  | Some (NotJson "") | None => mret None
  | Some _ => raise (mk_exn Exception_ "ValueError")
  end.
End MessageQueue.

(** ** Keyword constructors used by the runtime *)

(** [AgentResult(task_id=.., agent_id=.., status=.., result_data=..,
    error_message=.., duration_seconds=..)]: the other fields take their
    defaults, and the constructor raises [ValidationError] on a negative
    duration. *)
Definition AgentResult_new (task_id : string) (agent_id : AgentType.t)
    (status : TaskStatus.t) (result_data : option (gmap string json))
    (error_message : option string) (duration_seconds : Q) : M World AgentResult.t :=
  completed_at ← datetime_now;
  let r := AgentResult.mk task_id agent_id status result_data ∅ []
             duration_seconds completed_at error_message in
  if AgentResult.schema_ok r then mret r
  else raise (mk_exn Exception_ "ValidationError").

(** [AgentAlert(alert_id=.., ..)]: [timestamp] takes its default. *)
Definition AgentAlert_new (alert_id : string) (agent_id : AgentType.t)
    (severity : AlertSeverity.t) (message : string) (details : gmap string json)
    (requires_action : bool) (suggested_actions : list string)
    (related_task_id : option string) : M World AgentAlert.t :=
  timestamp ← datetime_now;
  mret (AgentAlert.mk alert_id agent_id severity message details timestamp
          requires_action suggested_actions related_task_id).

(** ** [shared/base_agent.py]: class [BaseAgent] *)

(** The state of an [asyncio.Task]. *)
Inductive task_state := TaskPending | TaskCancelled | TaskDone.

(** The attributes of the agent object. *)
Record Agent := mk_agent {
  agent_id : AgentType.t;
  is_running : bool;
  start_time : option datetime;
  tasks_completed : Z;
  tasks_failed : Z;
  _heartbeat_task : option task_state
}.

(** [BaseAgent.__init__] *)
Definition BaseAgent_init (agent_id : AgentType.t) : Agent :=
  mk_agent agent_id false None 0 0 None.

Definition set_is_running (b : bool) (a : Agent) : Agent :=
  mk_agent (agent_id a) b (start_time a) (tasks_completed a) (tasks_failed a)
    (_heartbeat_task a).

Definition set_start_time (t : option datetime) (a : Agent) : Agent :=
  mk_agent (agent_id a) (is_running a) t (tasks_completed a) (tasks_failed a)
    (_heartbeat_task a).

Definition set_tasks_completed (n : Z) (a : Agent) : Agent :=
  mk_agent (agent_id a) (is_running a) (start_time a) n (tasks_failed a)
    (_heartbeat_task a).

Definition set_tasks_failed (n : Z) (a : Agent) : Agent :=
  mk_agent (agent_id a) (is_running a) (start_time a) (tasks_completed a) n
    (_heartbeat_task a).

Definition set_heartbeat_task (t : option task_state) (a : Agent) : Agent :=
  mk_agent (agent_id a) (is_running a) (start_time a) (tasks_completed a)
    (tasks_failed a) t.

(** What a coroutine of the agent awaits.  The runtime keeps the list of
    its awaits, in order: this list is not in the source, it is the
    history the properties below speak about. *)
Inductive awaited :=
| Await_initialize
| Await_cleanup
| Await_handle_task (task : AgentTask.t)
| Await_consume_task (timeout : Z)
| Await_publish_result (result : AgentResult.t)
| Await_publish_alert (alert : AgentAlert.t)
| Await_update_agent_heartbeat (agent_id : string)
| Await_sleep (seconds : Q).

Record St := mk_st {
  self : Agent;
  world : World;
  trace : list awaited
}.

Definition lift {A} (m : M World A) : M St A :=
  fun st =>
    let '(r, w) := m (world st) in (r, mk_st (self st) w (trace st)).

Definition modify_self (f : Agent -> Agent) : M St unit :=
  modify (fun st => mk_st (f (self st)) (world st) (trace st)).

Definition record (c : awaited) : M St unit :=
  modify (fun st => mk_st (self st) (world st) (trace st ++ [c])).

(** What the rest of the process does while a coroutine is suspended at an
    await: it may clear [is_running], and it may cancel the coroutine's
    task, in which case [CancelledError] is raised at the await and the
    awaited operation has no effect. *)
Record suspension := mk_suspension {
  clear_running : bool;
  cancel : bool
}.

Definition quiet : suspension := mk_suspension false false.

(** [stop()] run by another coroutine up to its [cancel()]. *)
Definition stopping : suspension := mk_suspension true true.

Definition await_in {A} (s : suspension) (c : awaited) (m : M World A) : M St A :=
  record c ;;
  (if clear_running s then modify_self (set_is_running false) else mret tt) ;;
  if cancel s then raise (mk_exn CancelledError "")
  else lift m.

(** An await during which nothing interferes. *)
Definition await {A} (c : awaited) (m : M World A) : M St A := await_in quiet c m.

(** [asyncio.sleep(seconds)] *)
Definition sleep_in (s : suspension) (seconds : Q) : M St unit :=
  await_in s (Await_sleep seconds) (mret tt).

Definition sleep (seconds : Q) : M St unit := sleep_in quiet seconds.

(** The abstract methods a concrete agent supplies.  They act on the
    world, not on the counters and flags of the runtime. *)
Class TaskHandler := {
  initialize : M World unit;
  cleanup : M World unit;
  handle_task : AgentTask.t -> M World AgentResult.t
}.

(** How far a loop got: still iterating when the simulation stopped, or
    left. *)
Inductive loop_status := Looping | Exited.

(** What one pass through the body of a loop asks for. *)
Inductive flow := Continue | Break.

Section BaseAgent.
Context {pydantic : Pydantic} (settings : Settings) {handler : TaskHandler}.

(** [self.logger], named after the agent. *)
Definition self_logger (lv : levelname) (m : list frag) : M St unit :=
  fun st => lift (logger_log (AgentType.value (agent_id (self st))) lv m) st.

(** [BaseAgent.publish_alert] with the arguments the runtime passes:
    [details], [requires_action] and [suggested_actions] at their
    defaults. *)
Definition BaseAgent_publish_alert (severity : AlertSeverity.t)
    (message : string) (related_task_id : option string) : M St unit :=
  alert_id ← lift uuid4;
  me ← gets (fun st => agent_id (self st));
  alert ← lift (AgentAlert_new alert_id me severity message ∅ false []
                  related_task_id);
  await (Await_publish_alert alert) (publish_alert settings alert) ;;
  mret tt.

Definition _execute_task (task : AgentTask.t) : M St unit :=
  let task_id := AgentTask.task_id task in
  start_time ← lift datetime_now;
  self_logger LOG_INFO [Str "Executing task "; Str task_id; Str ": ";
                        Str (AgentTask.task_type task)] ;;
  try_except
    (result ← await (Await_handle_task task) (handle_task task);
     now ← lift datetime_now;
     let duration := total_seconds now start_time in
     let result := AgentResult.set_duration_seconds duration result in
     await (Await_publish_result result) (publish_result settings result) ;;
     modify_self (fun a => set_tasks_completed (tasks_completed a + 1) a) ;;
     self_logger LOG_INFO [Str "Task "; Str task_id;
                           Str " completed successfully in ";
                           Fixed2 duration; Str "s"])
    is_Exception
    (fun e =>
       modify_self (fun a => set_tasks_failed (tasks_failed a + 1) a) ;;
       self_logger LOG_ERROR [Str "Task "; Str task_id; Str " failed: ";
                              Str (exc_str e)] ;;
       now ← lift datetime_now;
       let duration := total_seconds now start_time in
       me ← gets (fun st => agent_id (self st));
       result ← lift (AgentResult_new task_id me TaskStatus.FAILED None
                        (Some (exc_str e)) duration);
       await (Await_publish_result result) (publish_result settings result) ;;
       if decide (AgentTask.priority task = TaskPriority.CRITICAL) then
         BaseAgent_publish_alert AlertSeverity.CRITICAL
           ("Critical task " +:+ task_id +:+ " failed: " +:+ exc_str e)
           (Some task_id)
       else mret tt).

(** One pass through the body of [while self.is_running] in [_run_loop]. *)
Definition run_loop_body : M St unit :=
  try_except
    (task ← await (Await_consume_task 5) (consume_task settings 5);
     me ← gets (fun st => agent_id (self st));
     match task with
     | Some t =>
         if decide (AgentTask.agent_id t = me) then _execute_task t
         else mret tt
     | None => mret tt
     end ;;
     sleep (1 # 10))
    is_Exception
    (fun e =>
       self_logger LOG_ERROR [Str "Error in main loop: "; Str (exc_str e)] ;;
       sleep 1).

(** [while self.is_running: ...], followed for at most [fuel] passes. *)
Fixpoint run_loop_while (fuel : nat) : M St loop_status :=
  gets (fun st => is_running (self st)) ≫= fun running : bool =>
  if running then
    match fuel with
    | O => mret Looping
    | S fuel' => run_loop_body ;; run_loop_while fuel'
    end
  else mret Exited.

Definition _run_loop (fuel : nat) : M St loop_status :=
  me ← gets (fun st => agent_id (self st));
  self_logger LOG_INFO [Str "Agent "; Str (AgentType.value me);
                        Str " entering main loop"] ;;
  run_loop_while fuel.

(** [start()].  [asyncio.create_task] only schedules the heartbeat
    coroutine: the task is pending when [initialize] is awaited. *)
Definition start (fuel : nat) : M St loop_status :=
  me ← gets (fun st => agent_id (self st));
  self_logger LOG_INFO [Str "Starting agent: "; Str (AgentType.value me)] ;;
  modify_self (set_is_running true) ;;
  now ← lift datetime_now;
  modify_self (set_start_time (Some now)) ;;
  modify_self (set_heartbeat_task (Some TaskPending)) ;;
  await Await_initialize initialize ;;
  _run_loop fuel.

(** [stop()]: a pending heartbeat task is cancelled and awaited, the
    [CancelledError] this await raises is swallowed. *)
Definition stop : M St unit :=
  me ← gets (fun st => agent_id (self st));
  self_logger LOG_INFO [Str "Stopping agent: "; Str (AgentType.value me)] ;;
  modify_self (set_is_running false) ;;
  hb ← gets (fun st => _heartbeat_task (self st));
  match hb with
  | Some TaskPending => modify_self (set_heartbeat_task (Some TaskCancelled))
  | _ => mret tt
  end ;;
  await Await_cleanup cleanup.

(** One pass through the body of [while self.is_running] in
    [_heartbeat_loop]; [s1] is what happens while the write is awaited,
    [s2] while the loop sleeps. *)
Definition heartbeat_body (s1 s2 : suspension) : M St flow :=
  let interval := inject_Z (heartbeat_interval_seconds settings) in
  try_except2
    (me ← gets (fun st => agent_id (self st));
     await_in s1 (Await_update_agent_heartbeat (AgentType.value me))
       (update_agent_heartbeat (AgentType.value me)) ;;
     sleep_in s2 interval ;;
     mret Continue)
    is_CancelledError
    (fun _ => mret Break)
    is_Exception
    (fun e =>
       self_logger LOG_ERROR [Str "Heartbeat error: "; Str (exc_str e)] ;;
       sleep_in s2 interval ;;
       mret Continue).

(** [_heartbeat_loop], followed along a schedule of suspensions. *)
Fixpoint _heartbeat_loop (schedule : list (suspension * suspension)) : M St loop_status :=
  gets (fun st => is_running (self st)) ≫= fun running : bool =>
  if running then
    match schedule with
    | [] => mret Looping
    | (s1, s2) :: schedule' =>
        next ← heartbeat_body s1 s2;
        match next with
        | Continue => _heartbeat_loop schedule'
        | Break => mret Exited
        end
    end
  else mret Exited.

(** [get_error_rate()] *)
Definition get_error_rate (a : Agent) : Q :=
  let total_tasks := tasks_completed a + tasks_failed a in
  if decide (total_tasks = 0) then 0%Q
  else Qmake (tasks_failed a) 1 / Qmake total_tasks 1.
End BaseAgent.

(** ** [agents/data_quality/agent.py]: a concrete handler *)
Module DataQualityAgent.
Definition agent_id : AgentType.t := AgentType.DATA_QUALITY.

Definition logger : levelname -> list frag -> M World unit :=
  logger_log (AgentType.value agent_id).

Definition initialize : M World unit :=
  logger LOG_INFO [Str "Initializing Data Quality Agent"].

Definition cleanup : M World unit :=
  logger LOG_INFO [Str "Cleaning up Data Quality Agent"].

Definition _check_data_quality (task : AgentTask.t) : M World AgentResult.t :=
  logger LOG_INFO [Str "Checking data quality - TODO: Implement"] ;;
  AgentResult_new (AgentTask.task_id task) agent_id TaskStatus.COMPLETED
    (Some {["message" := JStr "Not implemented yet"]}) None 0%Q.

Definition _detect_anomalies (task : AgentTask.t) : M World AgentResult.t :=
  logger LOG_INFO [Str "Detecting anomalies - TODO: Implement"] ;;
  AgentResult_new (AgentTask.task_id task) agent_id TaskStatus.COMPLETED
    None None 0%Q.

Definition _validate_schema (task : AgentTask.t) : M World AgentResult.t :=
  logger LOG_INFO [Str "Validating schema - TODO: Implement"] ;;
  AgentResult_new (AgentTask.task_id task) agent_id TaskStatus.COMPLETED
    None None 0%Q.

Definition _repair_data (task : AgentTask.t) : M World AgentResult.t :=
  logger LOG_INFO [Str "Repairing data - TODO: Implement"] ;;
  AgentResult_new (AgentTask.task_id task) agent_id TaskStatus.COMPLETED
    None None 0%Q.

Definition handle_task (task : AgentTask.t) : M World AgentResult.t :=
  let task_type := AgentTask.task_type task in
  if String.eqb task_type "check_data_quality" then _check_data_quality task
  else if String.eqb task_type "detect_anomalies" then _detect_anomalies task
  else if String.eqb task_type "validate_schema" then _validate_schema task
  else if String.eqb task_type "repair_data" then _repair_data task
  else raise (mk_exn Exception_ ("Unknown task type: " +:+ task_type)).

Definition handler : TaskHandler := Build_TaskHandler initialize cleanup handle_task.
End DataQualityAgent.

(** Handlers with a scripted behaviour, as a test double would have. *)
Definition failing_handler (e : exn) : TaskHandler :=
  Build_TaskHandler (mret tt) (mret tt) (fun _ => raise e).

Definition returning_handler (r : AgentResult.t) : TaskHandler :=
  Build_TaskHandler (mret tt) (mret tt) (fun _ => mret r).

Definition failing_initialize (e : exn) : TaskHandler :=
  Build_TaskHandler (raise e) (mret tt) DataQualityAgent.handle_task.

(** ** A concrete world to run examples in *)

(** A wall clock that advances by one second per reading, from [t0]. *)
Definition steady_clock (t0 : datetime) : nat -> datetime :=
  fun n => t0 + 1000000 * Z.of_nat n.

Definition numbered_uuids : nat -> string :=
  fun n => "uuid-" +:+ pretty n.

Definition fresh_world (faults : list (option string)) : World :=
  mk_world true ∅ [] faults (steady_clock 0) 0 numbered_uuids 0 [].

Definition fresh_st (agent_id : AgentType.t) (w : World) : St :=
  mk_st (BaseAgent_init agent_id) w [].

(** What the key [key] holds, read as a list. *)
Definition queue (key : string) (w : World) : list text :=
  match db w !! key with
  | Some (RList l) => l
  | _ => []
  end.

Definition example_task (id : string) (target : AgentType.t) (type : string)
    (priority : TaskPriority.t) : AgentTask.t :=
  AgentTask.mk id target type priority ∅ 0 None 0 3.

(** The world in which the handler is entered when [_execute_task task]
    runs from [st]: the start time has been read and the record
    "Executing task ..." logged. *)
Definition entry_world (task : AgentTask.t) (st : St) : World :=
  let w := world st in
  set_log
    (log w ++ [mk_log (AgentType.value (agent_id (self st))) LOG_INFO
                 [Str "Executing task "; Str (AgentTask.task_id task);
                  Str ": "; Str (AgentTask.task_type task)]])
    (set_ticks (S (ticks w)) w).

(** The result [_execute_task] builds when the handler, entered from [st],
    raised [e] and left the world [w1]. *)
Definition failure_result (task : AgentTask.t) (st : St) (e : exn) (w1 : World) : AgentResult.t :=
  AgentResult.mk (AgentTask.task_id task) (agent_id (self st))
    TaskStatus.FAILED None ∅ []
    (total_seconds (current_time w1) (current_time (world st)))
    (clock w1 (S (ticks w1))) (Some (exc_str e)).

Definition is_handle_task (c : awaited) : bool :=
  match c with Await_handle_task _ => true | _ => false end.

(** The number of handler invocations in a history. *)
Definition executed (tr : list awaited) : Z :=
  Z.of_nat (length (List.filter is_handle_task tr)).

(** A computation is [total] when it always returns, and [soft] when
    whatever it raises is an [Exception]. *)
Definition total {S A} (m : M S A) : Prop :=
  forall s, exists a s', m s = (Return a, s').

Definition soft {S A} (m : M S A) : Prop :=
  forall s e s', m s = (Raise e, s') -> is_Exception e = true.

(** No transport error awaits the next command. *)
Definition next_command_passes (w : World) : Prop :=
  forall err rest, faults w <> Some err :: rest.

(** The two counters together, less the handler invocations of the
    history: the quantity the main loop keeps constant. *)
Definition balance (st : St) : Z :=
  tasks_completed (self st) + tasks_failed (self st) - executed (trace st).

(** The document [publish_result] sends for a result. *)
Definition result_json (r : AgentResult.t) : text := Doc (AgentResult.model_dump_json r).

Definition example_result : AgentResult.t :=
  AgentResult.mk "T1" AgentType.DATA_QUALITY TaskStatus.COMPLETED None ∅ [] 0%Q 0 None.

(** The world in which [initialize] is entered when [start] runs from
    [st]: "Starting agent" has been logged and the start time read. *)
Definition start_world (st : St) : World :=
  let w := world st in
  set_ticks (S (ticks w))
    (set_log
       (log w ++ [mk_log (AgentType.value (agent_id (self st))) LOG_INFO
                    [Str "Starting agent: ";
                     Str (AgentType.value (agent_id (self st)))]])
       w).

(** The agent object as [start] has set it up when it awaits
    [initialize]. *)
Definition started (st : St) : Agent :=
  set_heartbeat_task (Some TaskPending)
    (set_start_time (Some (current_time (world st)))
       (set_is_running true (self st))).

(** Something interferes during the suspension. *)
Definition interferes (s : suspension) : bool := clear_running s || cancel s.

Definition pass_interfered (p : suspension * suspension) : bool :=
  interferes (fst p) || interferes (snd p).

(** The awaits of [n] undisturbed passes of the heartbeat loop. *)
Fixpoint heartbeat_awaits (id : string) (interval : Q) (n : nat) : list awaited :=
  match n with
  | O => []
  | S n' => Await_update_agent_heartbeat id :: Await_sleep interval ::
            heartbeat_awaits id interval n'
  end.

(** ** Concrete states and tasks for the examples *)

Definition task_json (t : AgentTask.t) : text := Doc (AgentTask.model_dump_json t).

(** The world [w] with the given entries on the default task queue. *)
Definition with_tasks (entries : list text) (w : World) : World :=
  set_db (<["diamond_mind:tasks" := RList entries]> (db w)) w.

Definition dq_idle : St := fresh_st AgentType.DATA_QUALITY (fresh_world []).

Definition dq_running (w : World) : St :=
  mk_st (set_is_running true (BaseAgent_init AgentType.DATA_QUALITY)) w [].

Definition unknown_task : AgentTask.t :=
  example_task "T1" AgentType.DATA_QUALITY "nope" TaskPriority.CRITICAL.

Definition check_task : AgentTask.t :=
  example_task "T2" AgentType.DATA_QUALITY "check_data_quality" TaskPriority.HIGH.

Definition monitor_task : AgentTask.t :=
  example_task "T3" AgentType.MODEL_MONITOR "check_drift" TaskPriority.HIGH.

Definition unknown_task_error : exn := mk_exn Exception_ "Unknown task type: nope".

Definition missing_model : exn := mk_exn Exception_ "model file missing".

(** [ValueError()], whose [str] is empty. *)
Definition bare_error : exn := mk_exn Exception_ "".

(** A result a handler may return: completed, yet with an error message. *)
Definition odd_result : AgentResult.t :=
  AgentResult.mk "T1" AgentType.DATA_QUALITY TaskStatus.COMPLETED None ∅ [] 0%Q 0
    (Some "partial data").

(** The result [DataQualityAgent._check_data_quality] builds for
    [check_task] when entered from [dq_idle]. *)
Definition check_task_result : AgentResult.t :=
  AgentResult.mk "T2" AgentType.DATA_QUALITY TaskStatus.COMPLETED
    (Some {["message" := JStr "Not implemented yet"]}) ∅ [] 0%Q 1000000 None.

(** Two tasks on the queue, one the handler completes and one it rejects,
    and a transport that fails on every [LPUSH] of a result: both counters
    have moved although no result was delivered. *)
Definition lossy_world : World :=
  with_tasks [task_json unknown_task; task_json check_task]
    (fresh_world [None; Some "Connection refused"; None; Some "Connection refused";
                  Some "Connection refused"]).

(** ** The rest of [shared/messaging.py] *)

(** [LLEN key] *)
Definition LLEN (key : string) : command Z :=
  fun d =>
    match d !! key with
    | None => inr (0, d)
    | Some (RList l) => inr (Z.of_nat (length l), d)
    | Some (RHash _) => inl WRONGTYPE
    end.

(** [DEL key]: the reply is the number of keys removed. *)
Definition DEL (key : string) : command Z :=
  fun d => inr (match d !! key with Some _ => 1 | None => 0 end, delete key d).

(** [PING], and [SUBSCRIBE channel] sent through a pub/sub object: no key
    is touched. *)
Definition PING : command unit := fun d => inr (tt, d).

Definition SUBSCRIBE (channel : string) : command unit := fun d => inr (tt, d).

(** [connect()]: [redis.from_url] builds the client without talking to the
    server, the [ping] is the first command; an error is logged and raised
    again. *)
Definition connect : M World unit :=
  try_except
    (modify (fun w => mk_world true (db w) (channels w) (faults w) (clock w)
                        (ticks w) (uuids w) (drawn w) (log w)) ;;
     redis_call PING ;;
     logger LOG_INFO [Str "Connected to Redis"])
    is_Exception
    (fun e =>
       logger LOG_ERROR [Str "Failed to connect to Redis: "; Str (exc_str e)] ;;
       raise e).

(** [get_task_by_id]: its body is [pass]. *)
Definition get_task_by_id (task_id : string) : M World (option AgentTask.t) :=
  mret None.

(** No [try] in the next two: an error of the command propagates. *)
Definition get_queue_depth (queue_name : string) : M World Z :=
  redis_call (LLEN queue_name).

Definition clear_queue (queue_name : string) : M World unit :=
  redis_call (DEL queue_name) ;; mret tt.

(** [publish_message]: [json.dumps] of the dict, then [PUBLISH]. *)
Definition publish_message (channel : string) (message : gmap string json) : M World bool :=
  try_except
    (let message_json := Doc (JObj message) in
     redis_publish channel message_json ;;
     mret true)
    is_Exception
    (fun e =>
       logger LOG_ERROR [Str "Failed to publish message: "; Str (exc_str e)] ;;
       mret false).

(** What [pubsub.listen()] yields: the kind of the message ("subscribe"
    for the confirmation, "message" for a published message) and its
    data. *)
Record pubsub_message := mk_message {
  message_type : string;
  message_data : text
}.

(** The messages a subscriber of [channel] receives for what was published
    after it subscribed. *)
Definition delivered_to (channel : string) (published : list (string * text)) : list pubsub_message :=
  mk_message "message" <$>
    (snd <$> List.filter (fun p => String.eqb (fst p) channel) published).

(** [async for message in pubsub.listen(): body message], followed along
    the messages that have arrived: still listening when they are used up. *)
Fixpoint listen (body : pubsub_message -> M World unit) (incoming : list pubsub_message) : M World loop_status :=
  match incoming with
  | [] => mret Looping
  | message :: incoming' => body message ;; listen body incoming'
  end.

(** [subscribe(channel, callback)]: any exception, of the subscription, of
    the decoding or of the callback, ends the listening and is logged. *)
Definition subscribe (channel : string) (callback : json -> M World unit)
    (incoming : list pubsub_message) : M World loop_status :=
  try_except
    (redis_call (SUBSCRIBE channel) ;;
     listen (fun message =>
               if String.eqb (message_type message) "message" then
                 message_dict ← loads (message_data message);
                 callback message_dict
               else mret tt)
       incoming)
    is_Exception
    (fun e =>
       logger LOG_ERROR [Str "Error subscribing to "; Str channel; Str ": ";
                         Str (exc_str e)] ;;
       mret Exited).

Definition AlertSeverity_members : list AlertSeverity.t :=
  [AlertSeverity.INFO; AlertSeverity.WARNING; AlertSeverity.ERROR; AlertSeverity.CRITICAL].

Definition AlertSeverity_of_value (s : string) : option AlertSeverity.t :=
  List.find (fun a => String.eqb (AlertSeverity.value a) s) AlertSeverity_members.

(** [AgentAlert( **d)] with the schema read strictly, as in [Strict]. *)
Definition alert_validate (now : datetime) (d : json) : option AgentAlert.t :=
  match d with
  | JObj o =>
      alert_id ← Strict.required o "alert_id" Strict.as_str;
      agent_id ← Strict.required o "agent_id"
                   (fun v => Strict.as_str v ≫= AgentType.of_value);
      severity ← Strict.required o "severity"
                   (fun v => Strict.as_str v ≫= AlertSeverity_of_value);
      message ← Strict.required o "message" Strict.as_str;
      details ← Strict.defaulted o "details" ∅ Strict.as_dict;
      timestamp ← Strict.defaulted o "timestamp" now Strict.as_datetime;
      requires_action ← Strict.defaulted o "requires_action" false
                          (fun v => match v with JBool b => Some b | _ => None end);
      suggested_actions ← Strict.defaulted o "suggested_actions" [] Strict.as_str_list;
      related_task_id ← Strict.defaulted o "related_task_id" None Strict.as_optional_str;
      Some (AgentAlert.mk alert_id agent_id severity message details timestamp
              requires_action suggested_actions related_task_id)
  | _ => None
  end.

Section ConsumeAlerts.
(** The validation [AgentAlert( **d)] relies on, as in [Pydantic]. *)
Variable AgentAlert_validate : datetime -> json -> option AgentAlert.t.

Definition AgentAlert_init (d : json) : M World AgentAlert.t :=
  fun w =>
    match AgentAlert_validate (current_time w) d with
    | Some a => (Return a, w)
    | None => (Raise (mk_exn Exception_ "ValidationError"), w)
    end.

(** [consume_alerts(callback)] *)
Definition consume_alerts (callback : AgentAlert.t -> M World unit)
    (incoming : list pubsub_message) : M World loop_status :=
  try_except
    (redis_call (SUBSCRIBE "alerts") ;;
     listen (fun message =>
               if String.eqb (message_type message) "message" then
                 alert_dict ← loads (message_data message);
                 alert ← AgentAlert_init alert_dict;
                 callback alert
               else mret tt)
       incoming)
    is_Exception
    (fun e =>
       logger LOG_ERROR [Str "Error consuming alerts: "; Str (exc_str e)] ;;
       mret Exited).
End ConsumeAlerts.

(** ** The rest of [shared/base_agent.py] *)

(** [AgentTask(task_id=.., agent_id=.., task_type=.., priority=..,
    parameters=..)]: the other fields take their defaults. *)
Definition AgentTask_new (task_id : string) (agent_id : AgentType.t)
    (task_type : string) (priority : TaskPriority.t)
    (parameters : gmap string json) : M World AgentTask.t :=
  created_at ← datetime_now;
  mret (AgentTask.mk task_id agent_id task_type priority parameters created_at
          None 0 3).

(** [BaseAgent.publish_task]: it reads and writes no attribute of the
    agent; what [message_queue.publish_task] returns is dropped. *)
Definition BaseAgent_publish_task (settings : Settings) (target_agent : AgentType.t)
    (task_type : string) (parameters : gmap string json)
    (priority : TaskPriority.t) : M World string :=
  task_id ← uuid4;
  task ← AgentTask_new task_id target_agent task_type priority parameters;
  publish_task settings task ;;
  mret (AgentTask.task_id task).

(** [get_uptime_seconds()] *)
Definition get_uptime_seconds (a : Agent) : M World Q :=
  match start_time a with
  | Some t => now ← datetime_now; mret (total_seconds now t)
  | None => mret 0%Q
  end.

(** [try: body finally: final] *)
Definition try_finally {S A} (body : M S A) (final : M S unit) : M S A :=
  fun s =>
    match body s with
    | (o, s') =>
        match final s' with
        | (Return _, s'') => (o, s'')
        | (Raise e, s'') => (Raise e, s'')
        end
    end.

(** [async with self.task_context(task_id): body] *)
Definition task_context {A} (a : Agent) (task_id : string) (body : M World A) : M World A :=
  let self_logger := logger_log (AgentType.value (agent_id a)) in
  self_logger LOG_INFO [Str "Starting task "; Str task_id] ;;
  start_time ← datetime_now;
  try_finally body
    (now ← datetime_now;
     let duration := total_seconds now start_time in
     self_logger LOG_INFO [Str "Task "; Str task_id; Str " completed in ";
                           Fixed2 duration; Str "s"]).

(** ** The other agents of [agents/] *)

Module ModelMonitorAgent.
Definition agent_id : AgentType.t := AgentType.MODEL_MONITOR.

Definition logger : levelname -> list frag -> M World unit :=
  logger_log (AgentType.value agent_id).

Definition initialize : M World unit :=
  logger LOG_INFO [Str "Initializing Model Monitor Agent"].

Definition cleanup : M World unit :=
  logger LOG_INFO [Str "Cleaning up Model Monitor Agent"].

Definition _check_drift (task : AgentTask.t) : M World AgentResult.t :=
  logger LOG_INFO [Str "Checking for drift - TODO: Implement"] ;;
  AgentResult_new (AgentTask.task_id task) agent_id TaskStatus.COMPLETED
    (Some (<["drift_detected" := JBool false]>
             {["message" := JStr "Not implemented yet"]})) None 0%Q.

Definition _evaluate_performance (task : AgentTask.t) : M World AgentResult.t :=
  logger LOG_INFO [Str "Evaluating performance - TODO: Implement"] ;;
  AgentResult_new (AgentTask.task_id task) agent_id TaskStatus.COMPLETED
    None None 0%Q.

Definition _trigger_retraining (task : AgentTask.t) : M World AgentResult.t :=
  logger LOG_INFO [Str "Triggering retraining - TODO: Implement"] ;;
  AgentResult_new (AgentTask.task_id task) agent_id TaskStatus.COMPLETED
    None None 0%Q.

Definition handle_task (task : AgentTask.t) : M World AgentResult.t :=
  let task_type := AgentTask.task_type task in
  if String.eqb task_type "check_drift" then _check_drift task
  else if String.eqb task_type "evaluate_performance" then _evaluate_performance task
  else if String.eqb task_type "trigger_retraining" then _trigger_retraining task
  else raise (mk_exn Exception_ ("Unknown task type: " +:+ task_type)).

Definition handler : TaskHandler := Build_TaskHandler initialize cleanup handle_task.
End ModelMonitorAgent.

(** The orchestrator, the feature engineer and the explainer are the same
    stub up to their identity and the message of their result. *)
Definition stub_handle_task (agent_id : AgentType.t) (message : string)
    (task : AgentTask.t) : M World AgentResult.t :=
  AgentResult_new (AgentTask.task_id task) agent_id TaskStatus.COMPLETED
    (Some {["message" := JStr message]}) None 0%Q.

Module OrchestratorAgent.
Definition agent_id : AgentType.t := AgentType.ORCHESTRATOR.
Definition initialize : M World unit :=
  logger_log (AgentType.value agent_id) LOG_INFO
    [Str "Initializing Orchestrator Agent - STUB"].
Definition cleanup : M World unit := mret tt.
Definition handle_task : AgentTask.t -> M World AgentResult.t :=
  stub_handle_task agent_id "Orchestrator - Not implemented".
Definition handler : TaskHandler := Build_TaskHandler initialize cleanup handle_task.
End OrchestratorAgent.

Module FeatureEngineerAgent.
Definition agent_id : AgentType.t := AgentType.FEATURE_ENGINEER.
Definition initialize : M World unit :=
  logger_log (AgentType.value agent_id) LOG_INFO
    [Str "Initializing Feature Engineer Agent - STUB"].
Definition cleanup : M World unit := mret tt.
Definition handle_task : AgentTask.t -> M World AgentResult.t :=
  stub_handle_task agent_id "Feature Engineer - Not implemented".
Definition handler : TaskHandler := Build_TaskHandler initialize cleanup handle_task.
End FeatureEngineerAgent.

Module ExplainerAgent.
Definition agent_id : AgentType.t := AgentType.EXPLAINER.
Definition initialize : M World unit :=
  logger_log (AgentType.value agent_id) LOG_INFO
    [Str "Initializing Explainer Agent - STUB"].
Definition cleanup : M World unit := mret tt.
Definition handle_task : AgentTask.t -> M World AgentResult.t :=
  stub_handle_task agent_id "Explainer - Not implemented".
Definition handler : TaskHandler := Build_TaskHandler initialize cleanup handle_task.
End ExplainerAgent.

(** The five agents of the package, each with the identity its
    constructor binds. *)
Definition shipped_agents : list (AgentType.t * TaskHandler) :=
  [(DataQualityAgent.agent_id, DataQualityAgent.handler);
   (ModelMonitorAgent.agent_id, ModelMonitorAgent.handler);
   (OrchestratorAgent.agent_id, OrchestratorAgent.handler);
   (FeatureEngineerAgent.agent_id, FeatureEngineerAgent.handler);
   (ExplainerAgent.agent_id, ExplainerAgent.handler)].

(** The document [publish_alert] sends for an alert. *)
Definition alert_json (a : AgentAlert.t) : text := Doc (AgentAlert.model_dump_json a).

(** The transport lets the next two commands through. *)
Definition two_commands_pass (w : World) : Prop :=
  next_command_passes w /\ forall o err rest, faults w <> o :: Some err :: rest.

(** The calls [callback x] for the [x] of a list, in order. *)
Fixpoint for_each {A} (callback : A -> M World unit) (l : list A) : M World unit :=
  match l with
  | [] => mret tt
  | x :: l' => callback x ;; for_each callback l'
  end.

(** The message a subscriber receives for a published text. *)
Definition as_message (data : text) : pubsub_message := mk_message "message" data.

(** The world once the transport has let through a command that changes
    no key. *)
Definition let_through (w : World) : World :=
  set_db (db w) (set_faults (tail (faults w)) w).

(** The agent object [a'] is [a] with counters that have not gone
    down. *)
Definition grown (a a' : Agent) : Prop :=
  agent_id a' = agent_id a /\
  is_running a' = is_running a /\
  start_time a' = start_time a /\
  _heartbeat_task a' = _heartbeat_task a /\
  tasks_completed a <= tasks_completed a' /\
  tasks_failed a <= tasks_failed a'.

(** The world in which [cleanup] is entered when [stop] runs from [st]:
    "Stopping agent" has been logged. *)
Definition stop_world (st : St) : World :=
  let w := world st in
  set_log
    (log w ++ [mk_log (AgentType.value (agent_id (self st))) LOG_INFO
                 [Str "Stopping agent: ";
                  Str (AgentType.value (agent_id (self st)))]])
    w.

(** The agent object as [stop] has set it when it awaits [cleanup]. *)
Definition stopped (a : Agent) : Agent :=
  match _heartbeat_task a with
  | Some TaskPending => set_heartbeat_task (Some TaskCancelled) (set_is_running false a)
  | _ => set_is_running false a
  end.

(** The world in which the body of [task_context] is entered from [w]. *)
Definition context_world (a : Agent) (task_id : string) (w : World) : World :=
  set_ticks (S (ticks w))
    (set_log (log w ++ [mk_log (AgentType.value (agent_id a)) LOG_INFO
                          [Str "Starting task "; Str task_id]]) w).

(** What a handler bound to the identity [id] does with a task, when it
    behaves as the stubs of the package do: it returns a completed result
    for that task under its own identity, the broker untouched, or it
    rejects the task type with an [Exception], the world untouched. *)
Definition answers_as (id : AgentType.t) (h : TaskHandler) : Prop :=
  forall task w,
    match @handle_task h task w with
    | (Return r, w') =>
        AgentResult.task_id r = AgentTask.task_id task /\
        AgentResult.agent_id r = id /\
        AgentResult.status r = TaskStatus.COMPLETED /\
        AgentResult.error_message r = None /\
        AgentResult.schema_ok r = true /\
        db w' = db w /\ channels w' = channels w /\ faults w' = faults w
    | (Raise e, w') =>
        is_Exception e = true /\
        exc_str e = "Unknown task type: " +:+ AgentTask.task_type task /\
        w' = w
    end.

(** The task types the data quality agent and the model monitor know. *)
Definition data_quality_task_types : list string :=
  ["check_data_quality"; "detect_anomalies"; "validate_schema"; "repair_data"].

Definition model_monitor_task_types : list string :=
  ["check_drift"; "evaluate_performance"; "trigger_retraining"].

(** The world [w'] comes after [w] with the client as it was, a fault
    schedule that is still empty if it was, every hash of the key space
    in place, and no key changed but [key]. *)
Definition keeps_store (key : string) (w w' : World) : Prop :=
  connected w' = connected w /\
  (faults w = [] -> faults w' = []) /\
  (forall k h, db w !! k = Some (RHash h) -> db w' !! k = Some (RHash h)) /\
  (forall k, k <> key -> db w' !! k = db w !! k).

(** A handler that leaves the broker alone: it may log and read the clock,
    and fails with [Exception]s only. *)
Definition leaves_broker_alone (h : TaskHandler) : Prop :=
  forall task w o w',
    @handle_task h task w = (o, w') ->
    connected w' = connected w /\ faults w' = faults w /\ db w' = db w /\
    clock w' = clock w /\ (ticks w <= ticks w')%nat /\
    (forall e, o = Raise e -> is_Exception e = true).

(** The wall clock of [w] never steps back. *)
Definition clock_monotone (w : World) : Prop :=
  forall n m, (n <= m)%nat -> clock w n <= clock w m.

(** ** More examples *)

Definition example_alert : AgentAlert.t :=
  AgentAlert.mk "A1" AgentType.DATA_QUALITY AlertSeverity.CRITICAL
    "Critical task T1 failed" ∅ 0 false [] (Some "T1").

(** A world in which [connect] was never called. *)
Definition offline_world : World :=
  mk_world false ∅ [] [] (steady_clock 0) 0 numbered_uuids 0 [].

(** A result as the success path leaves it when the clock stepped back by
    a second. *)
Definition negative_result : AgentResult.t :=
  AgentResult.set_duration_seconds (-1 # 1) example_result.

(** The smallest document that is a task. *)
Definition minimal_task_entry : text :=
  Doc (JObj (<["task_id" := JStr "T4"]>
               (<["agent_id" := JStr (AgentType.value AgentType.EXPLAINER)]>
                  {["task_type" := JStr "explain"]}))).

(** A message that is no JSON document. *)
Definition undecodable_message : pubsub_message := mk_message "message" (NotJson "ping").

(** * Properties *)

(** ** The monad *)
Section MonadFacts.
Context {S : Type}.
Implicit Types s : S.

Lemma bind_unfold {A B} (m : M S A) (k : A -> M S B) s :
  (m ≫= k) s =
  match m s with
  | (Return a, s') => k a s'
  | (Raise e, s') => (Raise e, s')
  end.
Proof. reflexivity. Qed.

Lemma total_soft {A} (m : M S A) : total m -> soft m.
Proof. intros Hm s e s' He. destruct (Hm s) as (a & s1 & Ha). congruence. Qed.

Lemma total_ret {A} (a : A) : total (mret a : M S A).
Proof. intros s. by exists a, s. Qed.

Lemma total_gets {A} (f : S -> A) : total (gets f).
Proof. intros s. by exists (f s), s. Qed.

Lemma total_modify (f : S -> S) : total (modify f).
Proof. intros s. by exists tt, (f s). Qed.

Lemma total_bind {A B} (m : M S A) (k : A -> M S B) :
  total m -> (forall a, total (k a)) -> total (m ≫= k).
Proof.
  intros Hm Hk s. rewrite bind_unfold.
  destruct (Hm s) as (a & s1 & ->). apply Hk.
Qed.

Lemma soft_bind {A B} (m : M S A) (k : A -> M S B) :
  soft m -> (forall a, soft (k a)) -> soft (m ≫= k).
Proof.
  intros Hm Hk s e s'. rewrite bind_unfold.
  destruct (m s) as [[a|e0] s1] eqn:E.
  - apply Hk.
  - intros [= <- <-]. by eapply Hm.
Qed.

Lemma soft_raise {A} (e : exn) : is_Exception e = true -> soft (raise e : M S A).
Proof. intros He s e' s' [= <- <-]. done. Qed.

(** A [try] whose body is soft and whose [except Exception] handler
    always returns, always returns. *)
Lemma total_try_except {A} (body : M S A) (handler : exn -> M S A) :
  soft body -> (forall e, total (handler e)) ->
  total (try_except body is_Exception handler).
Proof.
  intros Hb Hh s. unfold try_except.
  destruct (body s) as [[a|e] s1] eqn:E.
  - by exists a, s1.
  - rewrite (Hb _ _ _ E). apply Hh.
Qed.

Lemma soft_try_except {A} (body : M S A) c (handler : exn -> M S A) :
  soft body -> (forall e, soft (handler e)) -> soft (try_except body c handler).
Proof.
  intros Hb Hh s e s'. unfold try_except.
  destruct (body s) as [[a|e0] s1] eqn:E; [done|].
  destruct (c e0).
  - apply Hh.
  - intros [= <- <-]. by eapply Hb.
Qed.
End MonadFacts.

Create HintDb monad.
#[export] Hint Resolve total_ret total_gets total_modify total_bind soft_bind
  soft_raise total_try_except soft_try_except : monad.

(** ** The world and the Redis commands *)

Lemma total_datetime_now : total datetime_now.
Proof. intros w. by eexists _, _. Qed.

Lemma total_uuid4 : total uuid4.
Proof. intros w. by eexists _, _. Qed.

Lemma total_logger_log name lv m : total (logger_log name lv m).
Proof. apply total_modify. Qed.

Lemma soft_redis_call {A} (cmd : command A) : soft (redis_call cmd).
Proof.
  intros w e w'. unfold redis_call.
  destruct (connected w); [|by intros [= <- <-]].
  destruct (faults w) as [|[err|] rest].
  - destruct (cmd _) as [err|[a d]]; by intros [= <- <-].
  - by intros [= <- <-].
  - destruct (cmd _) as [err|[a d]]; by intros [= <- <-].
Qed.

Lemma soft_redis_publish channel m : soft (redis_publish channel m).
Proof.
  apply soft_bind; [apply soft_redis_call|].
  intros _. apply total_soft, total_modify.
Qed.

#[export] Hint Resolve total_datetime_now total_uuid4 total_logger_log
  soft_redis_call soft_redis_publish : monad.

Lemma unsnoc_snoc {A} (l : list A) (x : A) : unsnoc (l ++ [x]) = Some (l, x).
Proof.
  induction l as [|y l IH]; [done|].
  simpl. by rewrite IH.
Qed.

(** ** The message queue never raises *)
Section MessageQueueFacts.
Context {pydantic : Pydantic} (settings : Settings).

Lemma soft_loads s : soft (loads s).
Proof.
  unfold loads. destruct (json_loads s).
  - apply total_soft, total_ret.
  - by apply soft_raise.
Qed.

Lemma soft_AgentTask_init d : soft (AgentTask_init d).
Proof.
  intros w e w'. unfold AgentTask_init.
  destruct (AgentTask_validate _ _); by intros [= <- <-].
Qed.

Lemma soft_AgentResult_init d : soft (AgentResult_init d).
Proof.
  intros w e w'. unfold AgentResult_init.
  destruct (AgentResult_validate _ _); by intros [= <- <-].
Qed.

Hint Resolve soft_loads soft_AgentTask_init soft_AgentResult_init total_soft : monad.

Lemma total_logger lv m : total (logger lv m).
Proof. apply total_logger_log. Qed.

Hint Resolve total_logger : monad.

Lemma total_publish_task task : total (publish_task settings task).
Proof. unfold publish_task. auto 10 with monad. Qed.

Lemma total_consume_task timeout : total (consume_task settings timeout).
Proof.
  unfold consume_task. apply total_try_except; [|auto 10 with monad].
  apply soft_bind; [auto with monad|].
  intros [[k s]|]; auto 10 with monad.
Qed.

Lemma total_publish_result result : total (publish_result settings result).
Proof. unfold publish_result. auto 15 with monad. Qed.

Lemma total_get_result task_id : total (get_result task_id).
Proof.
  unfold get_result. apply total_try_except; [|auto 10 with monad].
  apply soft_bind; [auto with monad|].
  intros [s|]; [destruct (text_truthy s)|]; auto 10 with monad.
Qed.

Lemma total_publish_alert alert : total (publish_alert settings alert).
Proof. unfold publish_alert. auto 15 with monad. Qed.

Lemma soft_update_agent_heartbeat id : soft (update_agent_heartbeat id).
Proof. unfold update_agent_heartbeat. auto 10 with monad. Qed.
End MessageQueueFacts.

(** ** What the commands do when the transport lets them through *)

Lemma redis_call_passes {A} (cmd : command A) w :
  connected w = true -> next_command_passes w ->
  redis_call cmd w =
  let w' := set_faults (tail (faults w)) w in
  match cmd (db w) with
  | inl err => (Raise (mk_exn Exception_ err), w')
  | inr (a, d') => (Return a, set_db d' w')
  end.
Proof.
  intros Hc Hf. unfold redis_call. rewrite Hc.
  destruct (faults w) as [|[err|] rest] eqn:E; try done.
  by destruct (Hf err rest).
Qed.

Lemma redis_call_fault {A} (cmd : command A) w err rest :
  connected w = true -> faults w = Some err :: rest ->
  redis_call cmd w = (Raise (mk_exn Exception_ err), set_faults rest w).
Proof. intros Hc Hf. unfold redis_call. by rewrite Hc, Hf. Qed.

Lemma BRPOP_snoc key timeout d front entry :
  d !! key = Some (RList (front ++ [entry])) ->
  exists d', BRPOP key timeout d = inr (Some (key, entry), d') /\
    (forall k, k <> key -> d' !! k = d !! k) /\
    match d' !! key with Some (RList l) => l | _ => [] end = front.
Proof.
  intros Hk. unfold BRPOP. rewrite Hk, unsnoc_snoc.
  destruct front as [|x front].
  - exists (delete key d). split; [done|]. split.
    + intros k Hne. by rewrite lookup_delete_ne.
    + by rewrite lookup_delete_eq.
  - exists (<[key := RList (x :: front)]> d). split; [done|]. split.
    + intros k Hne. by rewrite lookup_insert_ne.
    + by rewrite lookup_insert_eq.
Qed.

Section ConsumeTask.
Context {pydantic : Pydantic} (settings : Settings).

(** C9.  [consume_task] never raises, whatever the queue holds; and when
    the entry at the tail of the task queue is no JSON document, or a
    document that the [AgentTask] schema rejects, [consume_task] returns
    [None] and the entry is gone from the queue: the queue is left with
    the entries that were in front of it, and no other key changes. *)
Theorem consume_task_malformed_entry timeout w front entry :
  connected w = true ->
  next_command_passes w ->
  db w !! task_queue_name settings = Some (RList (front ++ [entry])) ->
  (forall d, json_loads entry = Some d ->
             AgentTask_validate (current_time w) d = None) ->
  total (consume_task settings timeout) /\
  exists w',
    consume_task settings timeout w = (Return None, w') /\
    queue (task_queue_name settings) w' = front /\
    (forall k, k <> task_queue_name settings -> db w' !! k = db w !! k).
Proof.
  intros Hc Hf Hq Hbad. split; [apply total_consume_task|].
  destruct (BRPOP_snoc _ timeout _ _ _ Hq) as (d' & Hpop & Hother & Hfront).
  unfold consume_task, try_except. rewrite bind_unfold.
  rewrite (redis_call_passes _ _ Hc Hf). simpl. rewrite Hpop.
  rewrite bind_unfold. unfold loads.
  destruct (json_loads entry) as [d|] eqn:Hd.
  - simpl. rewrite bind_unfold. unfold AgentTask_init.
    change (current_time _) with (current_time w). rewrite (Hbad d eq_refl).
    simpl. eexists. split; [reflexivity|]. split; [|done]. exact Hfront.
  - simpl. eexists. split; [reflexivity|]. split; [|done]. exact Hfront.
Qed.
End ConsumeTask.

Lemma redis_call_Return {A} (cmd : command A) w a w' :
  redis_call cmd w = (Return a, w') ->
  connected w = true /\ next_command_passes w /\
  exists d', cmd (db w) = inr (a, d') /\
             w' = set_db d' (set_faults (tail (faults w)) w).
Proof.
  unfold redis_call. destruct (connected w) eqn:Hc; [|done].
  destruct (faults w) as [|[err|] rest] eqn:Hf; [|done|]; simpl;
    destruct (cmd (db w)) as [err|[a' d']] eqn:Hcmd; intros [= <- <-];
    (split; [done|]); (split; [|by exists d']);
    intros err' rest'; unfold next_command_passes; by rewrite Hf.
Qed.

Lemma LPUSH_ok key v d n d' :
  LPUSH key v d = inr (n, d') ->
  d' = <[key := RList (v :: match d !! key with Some (RList l) => l | _ => [] end)]> d.
Proof.
  unfold LPUSH. destruct (d !! key) as [[l|h]|]; by intros [= <- <-].
Qed.

Lemma HSET_ok key mapping d n d' :
  HSET key mapping d = inr (n, d') ->
  (forall l, d !! key <> Some (RList l)) /\
  exists h, d' = <[key := RHash (mapping ∪ h)]> d.
Proof.
  unfold HSET. destruct (d !! key) as [[l|h]|] eqn:Hk; intros [= <- <-].
  - split; [done|]. by exists h.
  - split; [done|]. exists ∅. by rewrite (right_id_L ∅ (∪)).
Qed.

Section PublishResult.
Context {pydantic : Pydantic} (settings : Settings).


(** What a [publish_result] that returned [True] has done. *)
Lemma publish_result_true r w w' :
  publish_result settings r w = (Return true, w') ->
  connected w' = true /\
  faults w' = tail (tail (faults w)) /\
  current_time w' = clock w (S (ticks w)) /\
  result_key (AgentResult.task_id r) <> result_queue_name settings /\
  exists h,
    db w' = <[result_key (AgentResult.task_id r) :=
                RHash (<["data" := result_json r]>
                         {["timestamp" := IsoTime (current_time w)]} ∪ h)]>
              (<[result_queue_name settings :=
                   RList (result_json r :: queue (result_queue_name settings) w)]>
                 (db w)).
Proof.
  unfold publish_result, try_except. rewrite bind_unfold.
  destruct (redis_call _ w) as [[n1|e1] w1] eqn:E1.
  2:{ rewrite (soft_redis_call _ _ _ _ E1). done. }
  apply redis_call_Return in E1 as (Hc & Hf & d1 & Hpush & ->).
  apply LPUSH_ok in Hpush as ->.
  rewrite !bind_unfold. simpl. rewrite bind_unfold.
  match goal with |- context [redis_call ?c ?x] =>
    destruct (redis_call c x) as [[n2|e2] w2] eqn:E2 end.
  2:{ rewrite (soft_redis_call _ _ _ _ E2). done. }
  apply redis_call_Return in E2 as (_ & _ & d2 & Hset & ->).
  simpl in Hset |- *. apply HSET_ok in Hset as (Hnot & h & ->).
  intros [= <-]. simpl. repeat split; try done.
  - intros Heq. apply (Hnot (result_json r :: queue (result_queue_name settings) w)).
    rewrite Heq. unfold queue. by rewrite lookup_insert_eq.
  - by exists h.
Qed.
End PublishResult.

Section ResultStore.
Context {pydantic : Pydantic} (settings : Settings).

Lemma get_result_stored r w h :
  AgentResult.schema_ok r = true ->
  connected w = true ->
  next_command_passes w ->
  db w !! result_key (AgentResult.task_id r) = Some (RHash h) ->
  h !! "data" = Some (result_json r) ->
  exists w', get_result (AgentResult.task_id r) w = (Return (Some r), w').
Proof.
  intros Hok Hc Hf Hk Hdata.
  unfold get_result, try_except. rewrite bind_unfold.
  rewrite (redis_call_passes _ _ Hc Hf). simpl. unfold HGET.
  rewrite Hk, Hdata. simpl. rewrite bind_unfold. simpl.
  rewrite bind_unfold. unfold AgentResult_init.
  rewrite (AgentResult_validate_dump _ r Hok). simpl. by eexists.
Qed.

(** C6.  A [publish_result r] that returned [True] has put [r] at the
    head of the result queue and has stored it as the [data] field of
    the hash [results:<task_id>]; a [get_result] of that task id that
    follows, if the transport lets its command through, returns [r].
    This holds whatever the store held before: when an earlier result of
    the same task id was published just before, the queue keeps both and
    [get_result] returns the later one. *)
Theorem publish_result_then_get_result r w w' :
  AgentResult.schema_ok r = true ->
  publish_result settings r w = (Return true, w') ->
  queue (result_queue_name settings) w' =
    result_json r :: queue (result_queue_name settings) w /\
  (exists h, db w' !! result_key (AgentResult.task_id r) = Some (RHash h) /\
             h !! "data" = Some (result_json r)) /\
  (next_command_passes w' ->
   exists w'', get_result (AgentResult.task_id r) w' = (Return (Some r), w'')) /\
  (forall r_old w_old,
     publish_result settings r_old w_old = (Return true, w) ->
     AgentResult.task_id r_old = AgentResult.task_id r ->
     queue (result_queue_name settings) w' =
       result_json r :: result_json r_old :: queue (result_queue_name settings) w_old /\
     (next_command_passes w' ->
      exists w'', get_result (AgentResult.task_id r_old) w' = (Return (Some r), w''))).
Proof.
  intros Hok Hpub.
  destruct (publish_result_true _ _ _ _ Hpub) as (Hc & Hf & _ & Hne & h & Hdb).
  assert (Hq : queue (result_queue_name settings) w' =
               result_json r :: queue (result_queue_name settings) w).
  { unfold queue at 1. rewrite Hdb, lookup_insert_ne, lookup_insert_eq; done. }
  assert (Hstore : exists h', db w' !! result_key (AgentResult.task_id r) = Some (RHash h') /\
                              h' !! "data" = Some (result_json r)).
  { eexists. rewrite Hdb, lookup_insert_eq. split; [reflexivity|].
    apply lookup_union_Some_l. by rewrite lookup_insert_eq. }
  assert (Hget : next_command_passes w' ->
                 exists w'', get_result (AgentResult.task_id r) w' = (Return (Some r), w'')).
  { intros Hpass. destruct Hstore as (h' & Hk & Hdata).
    by apply (get_result_stored r w' h'). }
  split; [exact Hq|]. split; [exact Hstore|]. split; [exact Hget|].
  intros r_old w_old Hold Hid. split.
  - rewrite Hq. f_equal.
    destruct (publish_result_true _ _ _ _ Hold) as (_ & _ & _ & Hne' & h0 & Hdb0).
    unfold queue at 1. rewrite Hdb0, lookup_insert_ne, lookup_insert_eq; done.
  - rewrite Hid. exact Hget.
Qed.
End ResultStore.


Section TransportErrors.
Context {pydantic : Pydantic} (settings : Settings).

Lemma consume_task_fault timeout w err rest :
  connected w = true -> faults w = Some err :: rest ->
  exists w', consume_task settings timeout w = (Return None, w') /\ db w' = db w.
Proof.
  intros Hc Hf. unfold consume_task, try_except. rewrite bind_unfold.
  rewrite (redis_call_fault _ _ _ _ Hc Hf). simpl. by eexists.
Qed.

Lemma consume_task_empty timeout w :
  connected w = true -> next_command_passes w ->
  db w !! task_queue_name settings = None ->
  exists w', consume_task settings timeout w = (Return None, w') /\ db w' = db w.
Proof.
  intros Hc Hf Hq. unfold consume_task, try_except. rewrite bind_unfold.
  rewrite (redis_call_passes _ _ Hc Hf). simpl. unfold BRPOP. rewrite Hq.
  simpl. by eexists.
Qed.

Lemma publish_result_fault_lpush r w err rest :
  connected w = true -> faults w = Some err :: rest ->
  exists w', publish_result settings r w = (Return false, w') /\ db w' = db w.
Proof.
  intros Hc Hf. unfold publish_result, try_except. rewrite bind_unfold.
  rewrite (redis_call_fault _ _ _ _ Hc Hf). simpl. by eexists.
Qed.

Lemma publish_result_fault_hset r w err rest :
  connected w = true -> faults w = None :: Some err :: rest ->
  (forall h, db w !! result_queue_name settings <> Some (RHash h)) ->
  exists w', publish_result settings r w = (Return false, w') /\
    db w' = <[result_queue_name settings :=
                RList (result_json r :: queue (result_queue_name settings) w)]> (db w).
Proof.
  intros Hc Hf Hq. unfold publish_result, try_except. rewrite bind_unfold.
  rewrite (redis_call_passes _ _ Hc); [|intros e' r'; by rewrite Hf].
  simpl. rewrite Hf. simpl.
  assert (Hpush : exists n, LPUSH (result_queue_name settings) (result_json r) (db w) =
            inr (n, <[result_queue_name settings :=
               RList (result_json r :: queue (result_queue_name settings) w)]> (db w))).
  { unfold LPUSH, queue.
    destruct (db w !! result_queue_name settings) as [[l|h]|] eqn:E;
      [by eexists|by destruct (Hq h)|by eexists]. }
  destruct Hpush as (n & Hpush). unfold result_json in Hpush. rewrite Hpush.
  rewrite !bind_unfold. simpl. rewrite bind_unfold.
  erewrite redis_call_fault; [|exact Hc|reflexivity].
  simpl. by eexists.
Qed.

(** C5, as the code has it.  Neither [consume_task] nor [publish_result]
    ever raises.  When the transport fails on the first command of the
    call, [consume_task] returns [None] and leaves the key space as it
    was, as it does when the task queue is empty, and [publish_result]
    returns [False] and leaves the key space as it was.  When the
    transport lets the [LPUSH] of [publish_result] through and fails on
    the [HSET] that follows, [publish_result] returns [False] as well,
    but the result is on the result queue; no other key has changed. *)
Theorem transport_error_soft_failure r timeout w err rest :
  connected w = true ->
  total (consume_task settings timeout) /\
  total (publish_result settings r) /\
  (faults w = Some err :: rest ->
     (exists w', consume_task settings timeout w = (Return None, w') /\
                 db w' = db w) /\
     (forall w0, connected w0 = true -> next_command_passes w0 ->
                 db w0 !! task_queue_name settings = None ->
                 exists w0', consume_task settings timeout w0 = (Return None, w0') /\
                             db w0' = db w0) /\
     (exists w', publish_result settings r w = (Return false, w') /\
                 db w' = db w)) /\
  (faults w = None :: Some err :: rest ->
   (forall h, db w !! result_queue_name settings <> Some (RHash h)) ->
   exists w', publish_result settings r w = (Return false, w') /\
     queue (result_queue_name settings) w' =
       result_json r :: queue (result_queue_name settings) w /\
     (forall k, k <> result_queue_name settings -> db w' !! k = db w !! k)).
Proof.
  intros Hc. split; [apply total_consume_task|].
  split; [apply total_publish_result|]. split.
  - intros Hf. split; [by eapply consume_task_fault|].
    split; [intros w0; apply consume_task_empty|].
    by eapply publish_result_fault_lpush.
  - intros Hf Hq.
    destruct (publish_result_fault_hset r w err rest Hc Hf Hq) as (w' & Hpub & Hdb).
    exists w'. split; [done|]. split.
    + unfold queue at 1. by rewrite Hdb, lookup_insert_eq.
    + intros k Hk. by rewrite Hdb, lookup_insert_ne.
Qed.
End TransportErrors.

(** C5 as stated fails: the transport lets the [LPUSH] through and fails
    on the [HSET]; [publish_result] returns [False], yet the result has
    been delivered to the result queue. *)
Lemma publish_result_false_yet_delivered :
  let w := fresh_world [None; Some "Connection reset by peer"] in
  let out := publish_result default_settings example_result w in
  fst out = Return false /\
  queue "diamond_mind:results" w = [] /\
  queue "diamond_mind:results" (snd out) = [result_json example_result].
Proof. vm_compute. done. Qed.

(** ** The runtime *)

Lemma total_seconds_ge0 (b a : datetime) :
  Qle_bool 0 (total_seconds b a) = true <-> a <= b.
Proof.
  unfold total_seconds, Qle_bool. simpl. rewrite Z.leb_le. lia.
Qed.

Lemma lift_unfold {A} (m : M World A) st :
  lift m st = (fst (m (world st)), mk_st (self st) (snd (m (world st))) (trace st)).
Proof. unfold lift. by destruct (m (world st)). Qed.

Lemma await_unfold {A} (c : awaited) (m : M World A) st :
  await c m st =
  (fst (m (world st)), mk_st (self st) (snd (m (world st))) (trace st ++ [c])).
Proof.
  unfold await, await_in. rewrite !bind_unfold. simpl.
  rewrite bind_unfold. simpl. by rewrite lift_unfold.
Qed.

Lemma sleep_unfold q st :
  sleep q st = (Return tt, mk_st (self st) (world st) (trace st ++ [Await_sleep q])).
Proof. exact (await_unfold (Await_sleep q) (mret tt) st). Qed.

Lemma total_lift {A} (m : M World A) : total m -> total (lift m).
Proof.
  intros Hm st. rewrite lift_unfold. destruct (Hm (world st)) as (a & w & ->).
  by eexists _, _.
Qed.

Lemma soft_lift {A} (m : M World A) : soft m -> soft (lift m).
Proof.
  intros Hm st e st'. rewrite lift_unfold.
  destruct (m (world st)) as [[a|e0] w] eqn:E; simpl; [done|].
  intros [= <- <-]. by eapply Hm.
Qed.

Lemma total_await {A} c (m : M World A) : total m -> total (await c m).
Proof.
  intros Hm st. rewrite await_unfold. destruct (Hm (world st)) as (a & w & ->).
  by eexists _, _.
Qed.

Lemma soft_await {A} c (m : M World A) : soft m -> soft (await c m).
Proof.
  intros Hm st e st'. rewrite await_unfold.
  destruct (m (world st)) as [[a|e0] w] eqn:E; simpl; [done|].
  intros [= <- <-]. by eapply Hm.
Qed.

Lemma total_modify_self f : total (modify_self f).
Proof. apply total_modify. Qed.

Lemma total_self_logger lv m : total (self_logger lv m).
Proof. intros st. by eexists _, _. Qed.

Lemma total_sleep q : total (sleep q).
Proof. apply total_await, total_ret. Qed.

Lemma soft_AgentResult_new tid aid st rd em d : soft (AgentResult_new tid aid st rd em d).
Proof.
  unfold AgentResult_new. apply soft_bind; [apply total_soft, total_datetime_now|].
  intros t. destruct (AgentResult.schema_ok _); [apply total_soft, total_ret|].
  by apply soft_raise.
Qed.

Lemma total_AgentAlert_new aid me sev m d ra sa rel :
  total (AgentAlert_new aid me sev m d ra sa rel).
Proof.
  unfold AgentAlert_new. apply total_bind; [apply total_datetime_now|].
  intros t. apply total_ret.
Qed.

#[export] Hint Resolve total_lift soft_lift total_await soft_await
  total_modify_self total_self_logger total_sleep soft_AgentResult_new
  total_AgentAlert_new total_publish_result total_publish_alert
  total_consume_task total_soft : monad.

Section BaseAgentFacts.
Context {pydantic : Pydantic} (settings : Settings) {handler : TaskHandler}.

Lemma BaseAgent_publish_alert_spec severity message related st :
  exists a w',
    BaseAgent_publish_alert settings severity message related st =
      (Return tt, mk_st (self st) w' (trace st ++ [Await_publish_alert a])) /\
    AgentAlert.severity a = severity /\
    AgentAlert.message a = message /\
    AgentAlert.related_task_id a = related /\
    AgentAlert.agent_id a = agent_id (self st).
Proof.
  unfold BaseAgent_publish_alert. rewrite bind_unfold, lift_unfold. simpl.
  rewrite bind_unfold. simpl. rewrite bind_unfold, lift_unfold. simpl.
  rewrite bind_unfold, await_unfold. simpl.
  match goal with |- context [publish_alert settings ?a ?w] =>
    destruct (total_publish_alert settings a w) as (b & w' & Hpub); rewrite Hpub;
    exists a, w' end.
  done.
Qed.

(** The handler returned: its result, with the measured duration, is
    published and [tasks_completed] goes up by one. *)
Lemma execute_task_returned task st r w1 :
  handle_task task (entry_world task st) = (Return r, w1) ->
  let r' := AgentResult.set_duration_seconds
              (total_seconds (current_time w1) (current_time (world st))) r in
  exists b w2 w3,
    publish_result settings r' (set_ticks (S (ticks w1)) w1) = (Return b, w2) /\
    db w3 = db w2 /\
    _execute_task settings task st =
      (Return tt,
       mk_st (set_tasks_completed (tasks_completed (self st) + 1) (self st)) w3
         (trace st ++ [Await_handle_task task; Await_publish_result r'])).
Proof.
  intros Hh r'. unfold _execute_task. rewrite bind_unfold, lift_unfold. simpl.
  rewrite bind_unfold. simpl. unfold try_except. rewrite bind_unfold, await_unfold.
  simpl. unfold entry_world in Hh. rewrite Hh. simpl.
  rewrite bind_unfold, lift_unfold. simpl.
  rewrite bind_unfold, await_unfold. simpl. fold r'.
  destruct (total_publish_result settings r' (set_ticks (S (ticks w1)) w1))
    as (b & w2 & Hpub).
  rewrite Hpub. simpl. rewrite <- app_assoc. simpl.
  eexists b, w2, _. split; [done|]. split; [|reflexivity]. done.
Qed.

(** The handler raised an [Exception] and the clock did not run
    backwards: a [FAILED] result is built and published,
    [tasks_failed] goes up by one, and an alert follows the result
    exactly when the task is [CRITICAL]. *)
Lemma execute_task_raised task st e w1 :
  handle_task task (entry_world task st) = (Raise e, w1) ->
  is_Exception e = true ->
  current_time (world st) <= current_time w1 ->
  let r := failure_result task st e w1 in
  exists st',
    _execute_task settings task st = (Return tt, st') /\
    self st' = set_tasks_failed (tasks_failed (self st) + 1) (self st) /\
    if decide (AgentTask.priority task = TaskPriority.CRITICAL) then
      exists a,
        trace st' = trace st ++ [Await_handle_task task; Await_publish_result r;
                                 Await_publish_alert a] /\
        AgentAlert.severity a = AlertSeverity.CRITICAL /\
        AgentAlert.related_task_id a = Some (AgentTask.task_id task) /\
        AgentAlert.agent_id a = agent_id (self st)
    else
      trace st' = trace st ++ [Await_handle_task task; Await_publish_result r].
Proof.
  intros Hh He Hclock r. unfold _execute_task. rewrite bind_unfold, lift_unfold. simpl.
  rewrite bind_unfold. simpl. unfold try_except. rewrite bind_unfold, await_unfold.
  simpl. unfold entry_world in Hh. rewrite Hh. simpl. rewrite He.
  rewrite bind_unfold. simpl. rewrite bind_unfold. simpl.
  rewrite bind_unfold, lift_unfold. simpl. rewrite bind_unfold. simpl.
  rewrite bind_unfold, lift_unfold. unfold AgentResult_new. simpl.
  rewrite bind_unfold. simpl. unfold AgentResult.schema_ok. simpl.
  change (clock w1 (ticks w1)) with (current_time w1).
  rewrite (proj2 (total_seconds_ge0 _ _) Hclock). simpl.
  rewrite bind_unfold, await_unfold. simpl. fold (failure_result task st e w1). fold r.
  match goal with |- context [publish_result settings r ?w] =>
    destruct (total_publish_result settings r w) as (b & w2 & Hpub) end.
  rewrite Hpub. simpl. rewrite <- app_assoc. simpl.
  destruct (decide (AgentTask.priority task = TaskPriority.CRITICAL)) as [Hp|Hp].
  - match goal with |- context [BaseAgent_publish_alert settings ?s ?m ?rel ?x] =>
      destruct (BaseAgent_publish_alert_spec s m rel x)
        as (a & w3 & Hal & Hsev & _ & Hrel & Hid) end.
    rewrite Hal. simpl. eexists. split; [reflexivity|]. simpl. split; [done|].
    exists a. rewrite <- app_assoc. done.
  - simpl. eexists. split; [reflexivity|]. done.
Qed.

(** The handler raised an [Exception]: whatever the clock and the broker
    do, [tasks_failed] goes up by one and [tasks_completed] stays; what
    [_execute_task] may raise in turn is an [Exception]. *)
Lemma execute_task_raised_counters task st e w1 :
  handle_task task (entry_world task st) = (Raise e, w1) ->
  is_Exception e = true ->
  exists o st',
    _execute_task settings task st = (o, st') /\
    (forall e', o = Raise e' -> is_Exception e' = true) /\
    self st' = set_tasks_failed (tasks_failed (self st) + 1) (self st) /\
    executed (trace st') = executed (trace st) + 1.
Proof.
  intros Hh He. unfold _execute_task. rewrite bind_unfold, lift_unfold. simpl.
  rewrite bind_unfold. simpl. unfold try_except. rewrite bind_unfold, await_unfold.
  simpl. unfold entry_world in Hh. rewrite Hh. simpl. rewrite He.
  rewrite bind_unfold. simpl. rewrite bind_unfold. simpl.
  rewrite bind_unfold, lift_unfold. simpl. rewrite bind_unfold. simpl.
  rewrite bind_unfold, lift_unfold. unfold AgentResult_new. simpl.
  rewrite bind_unfold. simpl.
  assert (Hex : forall l, executed (trace st ++ Await_handle_task task :: l) =
                          executed (trace st) + 1 + executed l).
  { intros l. unfold executed. rewrite List.filter_app, length_app. simpl. lia. }
  destruct (AgentResult.schema_ok _) eqn:Hok; simpl.
  2:{ eexists _, _. split; [reflexivity|]. split; [by intros e' [= <-]|].
      split; [done|]. simpl. rewrite (Hex []). unfold executed. simpl. lia. }
  rewrite bind_unfold, await_unfold. simpl.
  match goal with |- context [publish_result settings ?r ?w] =>
    destruct (total_publish_result settings r w) as (b & w2 & Hpub) end.
  rewrite Hpub. simpl. rewrite <- app_assoc. simpl.
  destruct (decide (AgentTask.priority task = TaskPriority.CRITICAL)) as [Hp|Hp].
  - match goal with |- context [BaseAgent_publish_alert settings ?s ?m ?rel ?x] =>
      destruct (BaseAgent_publish_alert_spec s m rel x)
        as (a & w3 & Hal & _) end.
    rewrite Hal. simpl. eexists _, _. split; [reflexivity|]. split; [done|].
    split; [done|]. simpl. rewrite <- app_assoc. simpl. rewrite Hex.
    unfold executed. simpl. lia.
  - simpl. eexists _, _. split; [reflexivity|]. split; [done|].
    split; [done|]. simpl. rewrite Hex. unfold executed. simpl. lia.
Qed.
End BaseAgentFacts.

Lemma unsnoc_Some {A} (l front : list A) (x : A) :
  unsnoc l = Some (front, x) -> l = front ++ [x].
Proof.
  revert front. induction l as [|y l IH]; intros front; [done|].
  simpl. destruct (unsnoc l) as [[front' z]|] eqn:E.
  - intros [= <- <-]. by rewrite (IH front' eq_refl).
  - intros [= <- <-]. destruct l as [|y' l']; [done|].
    simpl in E. by destruct (unsnoc l') as [[? ?]|].
Qed.

Lemma BRPOP_Some key timeout d k x d' :
  BRPOP key timeout d = inr (Some (k, x), d') ->
  exists front,
    d !! key = Some (RList (front ++ [x])) /\
    (forall k', k' <> key -> d' !! k' = d !! k') /\
    match d' !! key with Some (RList l) => l | _ => [] end = front.
Proof.
  unfold BRPOP. destruct (d !! key) as [[l|h]|] eqn:Hk; try done.
  destruct (unsnoc l) as [[front y]|] eqn:Hl; [|done].
  apply unsnoc_Some in Hl as ->. intros Hpop. exists front.
  destruct (BRPOP_snoc key timeout d front y Hk) as (d0 & Hpop' & Hother & Hfront).
  unfold BRPOP in Hpop'. rewrite Hk, unsnoc_snoc in Hpop'.
  rewrite Hpop' in Hpop. injection Hpop as _ <- <-. done.
Qed.

Section ConsumeTaskSome.
Context {pydantic : Pydantic} (settings : Settings).

(** A task that [consume_task] returns was the tail entry of the task
    queue, and is no longer in it; no other key has changed. *)
Lemma consume_task_Some timeout w t w1 :
  consume_task settings timeout w = (Return (Some t), w1) ->
  exists front entry,
    db w !! task_queue_name settings = Some (RList (front ++ [entry])) /\
    queue (task_queue_name settings) w1 = front /\
    (forall k, k <> task_queue_name settings -> db w1 !! k = db w !! k).
Proof.
  unfold consume_task, try_except. rewrite bind_unfold.
  destruct (redis_call _ w) as [[res|e] w0] eqn:E.
  2:{ by rewrite (soft_redis_call _ _ _ _ E). }
  apply redis_call_Return in E as (Hc & Hf & d' & Hpop & ->).
  destruct res as [[k entry]|]; [|done].
  apply BRPOP_Some in Hpop as (front & Hq & Hother & Hfront).
  rewrite bind_unfold.
  match goal with |- context [loads entry ?x] =>
    destruct (loads entry x) as [[d|e] w2] eqn:El end.
  2:{ rewrite (soft_loads _ _ _ _ El). done. }
  unfold loads in El. destruct (json_loads entry); [|done].
  injection El as <- <-. rewrite bind_unfold.
  match goal with |- context [AgentTask_init ?d ?x] =>
    destruct (AgentTask_init d x) as [[t'|e] w3] eqn:Et end.
  2:{ rewrite (soft_AgentTask_init _ _ _ _ Et). done. }
  unfold AgentTask_init in Et. destruct (AgentTask_validate _ _); [|done].
  injection Et as <- <-. simpl. intros [= <- <-].
  exists front, entry. simpl. done.
Qed.
End ConsumeTaskSome.

Section MainLoop.
Context {pydantic : Pydantic} (settings : Settings) {handler : TaskHandler}.

(** C3.  When the task that the loop pops is addressed to another agent,
    the pass of the loop does nothing but pop and sleep: the agent
    object, hence both counters, is unchanged; the history gains the
    [consume_task] and the [sleep] and nothing else, so the handler is
    not invoked and neither a result nor an alert is published; the
    world is left as the pop left it, with the task off the task queue
    and every other key (result queue, alert queue, result store) as it
    was. *)
Theorem mismatched_task_discarded st t w1 :
  consume_task settings 5 (world st) = (Return (Some t), w1) ->
  AgentTask.agent_id t <> agent_id (self st) ->
  run_loop_body settings st =
    (Return tt,
     mk_st (self st) w1 (trace st ++ [Await_consume_task 5; Await_sleep (1 # 10)])) /\
  exists front entry,
    db (world st) !! task_queue_name settings = Some (RList (front ++ [entry])) /\
    queue (task_queue_name settings) w1 = front /\
    (forall k, k <> task_queue_name settings -> db w1 !! k = db (world st) !! k).
Proof.
  intros Hpop Hne. split; [|by eapply consume_task_Some].
  unfold run_loop_body, try_except. rewrite bind_unfold, await_unfold.
  rewrite Hpop. simpl. rewrite bind_unfold. simpl.
  destruct (decide (AgentTask.agent_id t = agent_id (self st))) as [Heq|_]; [done|].
  rewrite bind_unfold. unfold mret, M_ret, ret. rewrite sleep_unfold. simpl.
  by rewrite <- app_assoc.
Qed.
End MainLoop.

Section ExecuteTask.
Context {pydantic : Pydantic} (settings : Settings) {handler : TaskHandler}.

(** C1.  When the handler raises an [Exception] (and the wall clock has
    not run backwards meanwhile), [_execute_task] returns after having
    awaited, after the handler: one [publish_result] of a result whose
    status is [FAILED] and whose task id is the task's, followed, if and
    only if the task's priority is [CRITICAL], by one [publish_alert] of
    an alert of severity [CRITICAL] whose [related_task_id] is the
    task's id; nothing else is awaited. *)
Theorem failed_task_result_then_alert task st e w1 :
  handle_task task (entry_world task st) = (Raise e, w1) ->
  is_Exception e = true ->
  current_time (world st) <= current_time w1 ->
  exists r st',
    _execute_task settings task st = (Return tt, st') /\
    AgentResult.status r = TaskStatus.FAILED /\
    AgentResult.task_id r = AgentTask.task_id task /\
    ((AgentTask.priority task = TaskPriority.CRITICAL /\
      exists a,
        trace st' = trace st ++ [Await_handle_task task; Await_publish_result r;
                                 Await_publish_alert a] /\
        AgentAlert.severity a = AlertSeverity.CRITICAL /\
        AgentAlert.related_task_id a = Some (AgentTask.task_id task)) \/
     (AgentTask.priority task <> TaskPriority.CRITICAL /\
      trace st' = trace st ++ [Await_handle_task task; Await_publish_result r])).
Proof.
  intros Hh He Hclock.
  destruct (execute_task_raised settings task st e w1 Hh He Hclock)
    as (st' & Hrun & _ & Htrace).
  exists (failure_result task st e w1), st'. split; [exact Hrun|].
  split; [reflexivity|]. split; [reflexivity|].
  destruct (decide (AgentTask.priority task = TaskPriority.CRITICAL)) as [Hp|Hp].
  - left. split; [done|]. destruct Htrace as (a & Htr & Hsev & Hrel & _).
    by exists a.
  - right. done.
Qed.

(** C4, as the code has it.  The result published after the handler
    raised has status [FAILED] and its [error_message] is [str(e)],
    which is set but may be the empty text; the result published after
    the handler returned has the status and the [error_message] the
    handler gave it, whatever they are. *)
Theorem published_error_message task st o w1 :
  handle_task task (entry_world task st) = (o, w1) ->
  (forall e, o = Raise e ->
             is_Exception e = true /\ current_time (world st) <= current_time w1) ->
  exists r rest st',
    _execute_task settings task st = (Return tt, st') /\
    trace st' = trace st ++ Await_handle_task task :: Await_publish_result r :: rest /\
    match o with
    | Raise e =>
        AgentResult.status r = TaskStatus.FAILED /\
        AgentResult.error_message r = Some (exc_str e)
    | Return r0 =>
        AgentResult.status r = AgentResult.status r0 /\
        AgentResult.error_message r = AgentResult.error_message r0
    end.
Proof.
  intros Hh Hraise. destruct o as [r0|e].
  - destruct (execute_task_returned settings task st r0 w1 Hh)
      as (b & w2 & w3 & _ & _ & Hrun).
    eexists _, [], _. split; [exact Hrun|]. split; [reflexivity|]. by destruct r0.
  - destruct (Hraise e eq_refl) as [He Hclock].
    destruct (execute_task_raised settings task st e w1 Hh He Hclock)
      as (st' & Hrun & _ & Htrace).
    destruct (decide (AgentTask.priority task = TaskPriority.CRITICAL)) as [Hp|Hp].
    + destruct Htrace as (a & Htr & _).
      exists (failure_result task st e w1), [Await_publish_alert a], st'.
      split; [exact Hrun|]. split; [exact Htr|]. done.
    + exists (failure_result task st e w1), [], st'.
      split; [exact Hrun|]. split; [exact Htrace|]. done.
Qed.

(** C10.  When the handler returns, [_execute_task] publishes the
    handler's result with [duration_seconds] replaced by the time read
    after the handler minus the time read before it, which is not
    negative when the clock has not run backwards; the other eight
    fields are the handler's, unchecked. *)
Theorem success_publishes_handler_result task st r w1 :
  handle_task task (entry_world task st) = (Return r, w1) ->
  exists r' st',
    _execute_task settings task st = (Return tt, st') /\
    trace st' = trace st ++ [Await_handle_task task; Await_publish_result r'] /\
    AgentResult.duration_seconds r' =
      total_seconds (current_time w1) (current_time (world st)) /\
    (current_time (world st) <= current_time w1 ->
     (0 <= AgentResult.duration_seconds r')%Q) /\
    AgentResult.task_id r' = AgentResult.task_id r /\
    AgentResult.agent_id r' = AgentResult.agent_id r /\
    AgentResult.status r' = AgentResult.status r /\
    AgentResult.result_data r' = AgentResult.result_data r /\
    AgentResult.metrics r' = AgentResult.metrics r /\
    AgentResult.artifacts r' = AgentResult.artifacts r /\
    AgentResult.completed_at r' = AgentResult.completed_at r /\
    AgentResult.error_message r' = AgentResult.error_message r.
Proof.
  intros Hh.
  destruct (execute_task_returned settings task st r w1 Hh)
    as (b & w2 & w3 & _ & _ & Hrun).
  eexists _, _. split; [exact Hrun|]. split; [reflexivity|].
  split; [reflexivity|]. split; [|by destruct r].
  intros Hclock. simpl. apply Qle_bool_iff. by apply total_seconds_ge0.
Qed.
End ExecuteTask.


Lemma executed_app tr tr' : executed (tr ++ tr') = executed tr + executed tr'.
Proof. unfold executed. rewrite List.filter_app, length_app. lia. Qed.

Section Counters.
Context {pydantic : Pydantic} (settings : Settings) {handler : TaskHandler}.

(** Every handler failure is an [Exception]. *)
Hypothesis handler_soft : forall task, soft (handle_task task).

Lemma execute_task_balance task st :
  exists o st',
    _execute_task settings task st = (o, st') /\
    (forall e, o = Raise e -> is_Exception e = true) /\
    balance st' = balance st /\
    is_running (self st') = is_running (self st) /\
    agent_id (self st') = agent_id (self st).
Proof.
  destruct (handle_task task (entry_world task st)) as [[r|e] w1] eqn:Hh.
  - destruct (execute_task_returned settings task st r w1 Hh)
      as (b & w2 & w3 & _ & _ & Hrun).
    eexists _, _. split; [exact Hrun|]. split; [done|].
    unfold balance. simpl. rewrite executed_app. unfold executed at 2. simpl.
    split; [lia|done].
  - pose proof (handler_soft task _ _ _ Hh) as He.
    destruct (execute_task_raised_counters settings task st e w1 Hh He)
      as (o & st' & Hrun & Hsoft & Hself & Hex).
    exists o, st'. split; [exact Hrun|]. split; [exact Hsoft|].
    unfold balance. rewrite Hself, Hex. simpl. split; [lia|done].
Qed.

(** One pass of the main loop always returns, and keeps the balance. *)
Lemma run_loop_body_balance st :
  exists st',
    run_loop_body settings st = (Return tt, st') /\
    balance st' = balance st /\
    is_running (self st') = is_running (self st) /\
    agent_id (self st') = agent_id (self st).
Proof.
  unfold run_loop_body, try_except. rewrite bind_unfold, await_unfold.
  destruct (total_consume_task settings 5 (world st)) as (task & w1 & Hpop).
  rewrite Hpop. simpl. rewrite bind_unfold. simpl.
  set (st1 := mk_st (self st) w1 (trace st ++ [Await_consume_task 5])).
  assert (Hb1 : balance st1 = balance st).
  { unfold balance, st1. simpl. rewrite executed_app. unfold executed at 2.
    simpl. lia. }
  assert (Hidle : forall s : St,
            balance s = balance st -> is_running (self s) = is_running (self st) ->
            agent_id (self s) = agent_id (self st) ->
            exists st', sleep (1 # 10) s = (Return tt, st') /\
              balance st' = balance st /\
              is_running (self st') = is_running (self st) /\
              agent_id (self st') = agent_id (self st)).
  { intros s Hs Hr Hi. rewrite sleep_unfold. eexists. split; [reflexivity|].
    unfold balance in *. simpl. rewrite executed_app. unfold executed at 2.
    simpl. split; [lia|done]. }
  destruct task as [t|].
  2:{ rewrite bind_unfold. unfold mret, M_ret, ret.
      destruct (Hidle st1 Hb1 eq_refl eq_refl) as (st' & -> & ?). by exists st'. }
  destruct (decide (AgentTask.agent_id t = agent_id (self st))) as [Heq|Hne].
  2:{ rewrite bind_unfold. unfold mret, M_ret, ret.
      destruct (Hidle st1 Hb1 eq_refl eq_refl) as (st' & -> & ?). by exists st'. }
  rewrite bind_unfold.
  destruct (execute_task_balance t st1) as (o & st2 & Hrun & Hsoft & Hb2 & Hr2 & Hi2).
  fold st1. rewrite Hrun. destruct o as [[]|e].
  - destruct (Hidle st2) as (st' & -> & ?); [lia|done|done|]. by exists st'.
  - rewrite (Hsoft e eq_refl). rewrite bind_unfold. simpl. rewrite sleep_unfold.
    eexists. split; [reflexivity|]. unfold balance in *. simpl.
    rewrite executed_app. unfold executed at 2. simpl. split; [lia|done].
Qed.

Lemma run_loop_while_balance fuel st :
  exists status st',
    run_loop_while settings fuel st = (Return status, st') /\
    balance st' = balance st.
Proof.
  revert st. induction fuel as [|fuel IH]; intros st.
  - simpl. rewrite bind_unfold. simpl. destruct (is_running (self st)); by eexists _, _.
  - simpl. rewrite bind_unfold. simpl. destruct (is_running (self st)).
    + rewrite bind_unfold.
      destruct (run_loop_body_balance st) as (st1 & -> & Hb & _).
      destruct (IH st1) as (status & st' & -> & Hb').
      exists status, st'. split; [done|]. lia.
    + by eexists _, _.
Qed.

(** C8.  Provided the handler fails with [Exception]s only: a task whose
    handler returns adds one to [tasks_completed] and leaves
    [tasks_failed]; a task whose handler raises adds one to [tasks_failed]
    and leaves [tasks_completed]; this holds in every world, so whether or
    not [publish_result] delivered.  Hence the main loop, which always
    returns from the passes it is followed for, has added to the two
    counters together exactly the number of tasks it has executed. *)
Theorem counters_count_executed_tasks :
  (forall task st r w1,
     handle_task task (entry_world task st) = (Return r, w1) ->
     exists st',
       _execute_task settings task st = (Return tt, st') /\
       tasks_completed (self st') = tasks_completed (self st) + 1 /\
       tasks_failed (self st') = tasks_failed (self st)) /\
  (forall task st e w1,
     handle_task task (entry_world task st) = (Raise e, w1) ->
     exists o st',
       _execute_task settings task st = (o, st') /\
       tasks_failed (self st') = tasks_failed (self st) + 1 /\
       tasks_completed (self st') = tasks_completed (self st)) /\
  (forall fuel st,
     exists status st',
       run_loop_while settings fuel st = (Return status, st') /\
       tasks_completed (self st') + tasks_failed (self st') =
         tasks_completed (self st) + tasks_failed (self st) +
         (executed (trace st') - executed (trace st))).
Proof.
  split; [|split].
  - intros task st r w1 Hh.
    destruct (execute_task_returned settings task st r w1 Hh)
      as (b & w2 & w3 & _ & _ & Hrun).
    eexists. split; [exact Hrun|]. done.
  - intros task st e w1 Hh.
    pose proof (handler_soft task _ _ _ Hh) as He.
    destruct (execute_task_raised_counters settings task st e w1 Hh He)
      as (o & st' & Hrun & _ & Hself & _).
    exists o, st'. split; [exact Hrun|]. by rewrite Hself.
  - intros fuel st.
    destruct (run_loop_while_balance fuel st) as (status & st' & Hrun & Hb).
    exists status, st'. split; [exact Hrun|]. unfold balance in Hb. lia.
Qed.
End Counters.


Lemma Exception_not_CancelledError e :
  is_Exception e = true -> is_CancelledError e = false.
Proof.
  unfold is_Exception, is_CancelledError. destruct e as [[] s]; simpl; done.
Qed.

Lemma await_in_unfold {A} (s : suspension) (c : awaited) (m : M World A) st :
  await_in s c m st =
  let a := if clear_running s then set_is_running false (self st) else self st in
  if cancel s then
    (Raise (mk_exn CancelledError ""), mk_st a (world st) (trace st ++ [c]))
  else
    (fst (m (world st)), mk_st a (snd (m (world st))) (trace st ++ [c])).
Proof.
  unfold await_in. rewrite !bind_unfold. simpl.
  destruct (clear_running s); simpl; rewrite bind_unfold; simpl;
    destruct (cancel s); simpl; try done; by rewrite lift_unfold.
Qed.

(** Runs the monadic steps whose outcome is determined. *)
Ltac run_monad :=
  repeat first
    [ rewrite bind_unfold | rewrite await_in_unfold | rewrite lift_unfold
    | progress unfold sleep_in | progress simpl ].

Section Heartbeat.
Context {pydantic : Pydantic} (settings : Settings) {handler : TaskHandler}.

Let interval : Q := inject_Z (heartbeat_interval_seconds settings).

(** An undisturbed pass: whether the write succeeds or raises, the pass
    sleeps the configured interval and asks for another pass; a failed
    write is logged. *)
Lemma heartbeat_body_quiet st :
  let id := AgentType.value (agent_id (self st)) in
  exists w',
    heartbeat_body settings quiet quiet st =
      (Return Continue,
       mk_st (self st) w'
         (trace st ++ [Await_update_agent_heartbeat id; Await_sleep interval])) /\
    match update_agent_heartbeat id (world st) with
    | (Return _, w1) => w' = w1
    | (Raise e, w1) =>
        w' = set_log (log w1 ++ [mk_log id LOG_ERROR
                                   [Str "Heartbeat error: "; Str (exc_str e)]]) w1
    end.
Proof.
  intros id. unfold heartbeat_body, try_except2. rewrite bind_unfold. simpl.
  rewrite bind_unfold, await_in_unfold. simpl. fold id.
  destruct (update_agent_heartbeat id (world st)) as [[[]|e] w1] eqn:Hw; simpl.
  - rewrite <- app_assoc. by eexists.
  - rewrite (Exception_not_CancelledError e), (soft_update_agent_heartbeat _ _ _ _ Hw);
      [|by apply (soft_update_agent_heartbeat _ _ _ _ Hw)].
    run_monad. rewrite <- app_assoc. by eexists.
Qed.

(** Undisturbed, the loop goes on whatever the broker does. *)
Lemma heartbeat_loop_quiet schedule st :
  is_running (self st) = true ->
  forallb (fun p => negb (pass_interfered p)) schedule = true ->
  exists w',
    _heartbeat_loop settings schedule st =
      (Return Looping,
       mk_st (self st) w'
         (trace st ++ heartbeat_awaits (AgentType.value (agent_id (self st)))
                        interval (length schedule))).
Proof.
  revert st. induction schedule as [|[s1 s2] schedule IH]; intros st Hrun Hq.
  - simpl. rewrite bind_unfold. simpl. rewrite Hrun, app_nil_r.
    exists (world st). by destruct st.
  - simpl in Hq. apply andb_prop in Hq as [Hp Hq].
    assert (s1 = quiet /\ s2 = quiet) as [-> ->].
    { unfold pass_interfered, interferes in Hp. simpl in Hp.
      destruct s1 as [[] []], s2 as [[] []]; done. }
    simpl. rewrite bind_unfold. simpl. rewrite Hrun. rewrite bind_unfold.
    destruct (heartbeat_body_quiet st) as (w1 & -> & _).
    destruct (IH (mk_st (self st) w1
                    (trace st ++ [Await_update_agent_heartbeat
                                    (AgentType.value (agent_id (self st)));
                                  Await_sleep interval])) Hrun Hq) as (w' & ->).
    exists w'. simpl. by rewrite <- app_assoc.
Qed.

(** A pass during which the task is cancelled ends the loop, having
    written at most what it had written before the cancellation. *)
Lemma heartbeat_body_cancelled s1 s2 st :
  cancel s1 = true \/ cancel s2 = true ->
  exists o st',
    heartbeat_body settings s1 s2 st = (o, st') /\
    (o = Return Break \/ exists e, o = Raise e /\ is_CancelledError e = true) /\
    (cancel s1 = true -> world st' = world st) /\
    (cancel s1 = false ->
     db (world st') =
     db (snd (update_agent_heartbeat (AgentType.value (agent_id (self st))) (world st)))).
Proof.
  intros Hc. unfold heartbeat_body, try_except2. rewrite bind_unfold. simpl.
  rewrite bind_unfold, await_in_unfold. simpl.
  destruct (cancel s1) eqn:Hc1; simpl.
  - eexists _, _. split; [reflexivity|]. split; [by left|]. done.
  - destruct Hc as [|Hc2]; [done|].
    destruct (update_agent_heartbeat _ (world st)) as [[[]|e] w1] eqn:Hw; simpl.
    + run_monad. rewrite Hc2. simpl.
      eexists _, _. split; [reflexivity|]. split; [by left|]. done.
    + rewrite (Exception_not_CancelledError e), (soft_update_agent_heartbeat _ _ _ _ Hw);
        [|by apply (soft_update_agent_heartbeat _ _ _ _ Hw)].
      run_monad. rewrite Hc2. simpl.
      eexists _, _. split; [reflexivity|]. split; [right; by eexists|]. done.
Qed.
End Heartbeat.

Section HeartbeatLoop.
Context {pydantic : Pydantic} (settings : Settings) {handler : TaskHandler}.

(** C7.  From a state where [is_running] is set:
    - along any schedule during which nothing clears the flag or cancels
      the task, the loop is still iterating at the end of the schedule,
      whatever the broker did to the writes, and it has awaited, pass
      after pass, one heartbeat write and one sleep of the configured
      interval;
    - a pass whose write raises logs the error, sleeps the configured
      interval and asks for the next pass;
    - so a loop that is no longer iterating has met a suspension that
      cleared the flag or cancelled the task;
    - a pass during which the task is cancelled ends the loop (by [break],
      or by the [CancelledError] itself when it arrives in the sleep of
      the error branch); the rest of the schedule is not run; the world is
      untouched when the cancellation arrives at the write, and holds
      nothing more than this pass's own write when it arrives in the
      sleep. *)
Theorem heartbeat_loop_ends_only_when_cancelled st :
  is_running (self st) = true ->
  let id := AgentType.value (agent_id (self st)) in
  let interval := inject_Z (heartbeat_interval_seconds settings) in
  (forall schedule,
     forallb (fun p => negb (pass_interfered p)) schedule = true ->
     exists w',
       _heartbeat_loop settings schedule st =
         (Return Looping,
          mk_st (self st) w'
            (trace st ++ heartbeat_awaits id interval (length schedule)))) /\
  (forall e w1,
     update_agent_heartbeat id (world st) = (Raise e, w1) ->
     heartbeat_body settings quiet quiet st =
       (Return Continue,
        mk_st (self st)
          (set_log (log w1 ++ [mk_log id LOG_ERROR
                                 [Str "Heartbeat error: "; Str (exc_str e)]]) w1)
          (trace st ++ [Await_update_agent_heartbeat id; Await_sleep interval]))) /\
  (forall schedule o st',
     _heartbeat_loop settings schedule st = (o, st') ->
     o <> Return Looping ->
     existsb pass_interfered schedule = true) /\
  (forall s1 s2 rest,
     cancel s1 = true \/ cancel s2 = true ->
     exists o st',
       _heartbeat_loop settings ((s1, s2) :: rest) st = (o, st') /\
       (o = Return Exited \/ exists e, o = Raise e /\ is_CancelledError e = true) /\
       (cancel s1 = true -> world st' = world st) /\
       (cancel s1 = false ->
        db (world st') = db (snd (update_agent_heartbeat id (world st))))).
Proof.
  intros Hrun id interval. split; [|split; [|split]].
  - intros schedule Hq. by apply heartbeat_loop_quiet.
  - intros e w1 Hw. destruct (heartbeat_body_quiet settings st) as (w' & Hbody & Hw').
    fold id in Hw'. rewrite Hw in Hw'. by rewrite Hbody, Hw'.
  - intros schedule o st' Hloop Hne.
    destruct (existsb pass_interfered schedule) eqn:Hex; [done|].
    destruct (heartbeat_loop_quiet settings schedule st Hrun) as (w' & Hq).
    + clear -Hex. induction schedule as [|p l IH]; [done|].
      simpl in *. apply orb_false_elim in Hex as [-> Hl]. simpl. by apply IH.
    + rewrite Hq in Hloop. injection Hloop as <- _. done.
  - intros s1 s2 rest Hc.
    destruct (heartbeat_body_cancelled settings s1 s2 st Hc)
      as (o & st' & Hbody & Ho & Hw1 & Hw2).
    simpl. rewrite bind_unfold. simpl. rewrite Hrun, bind_unfold, Hbody.
    destruct Ho as [->|(e & -> & He)].
    + eexists _, _. split; [reflexivity|]. split; [by left|]. done.
    + eexists _, _. split; [reflexivity|]. split; [right; by exists e|]. done.
Qed.
End HeartbeatLoop.

Section Start.
Context {pydantic : Pydantic} (settings : Settings) {handler : TaskHandler}.

(** C2, as the code has it.  When [initialize] raises, [start] raises the
    same exception and the main loop is not entered: whatever the fuel,
    the state is the one in which [initialize] was awaited, with the world
    as [initialize] left it and a history that ends with that await.  But
    in that state [is_running] is set and the heartbeat task is pending,
    and nothing clears them: followed from there along any undisturbed
    schedule, the heartbeat loop is still iterating. *)
Theorem start_initialize_failure fuel st e w1 :
  initialize (start_world st) = (Raise e, w1) ->
  let st' := mk_st (started st) w1 (trace st ++ [Await_initialize]) in
  start settings fuel st = (Raise e, st') /\
  is_running (self st') = true /\
  _heartbeat_task (self st') = Some TaskPending /\
  (forall schedule,
     forallb (fun p => negb (pass_interfered p)) schedule = true ->
     exists st'',
       _heartbeat_loop settings schedule st' = (Return Looping, st'')).
Proof.
  intros Hinit st'. split; [|split; [done|split; [done|]]].
  - unfold start. run_monad. unfold start_world in Hinit. simpl in Hinit.
    unfold await. run_monad. unfold set_ticks, set_log in *. simpl in *.
    rewrite Hinit. done.
  - intros schedule Hq.
    destruct (heartbeat_loop_quiet settings schedule st' eq_refl Hq) as (w' & ->).
    by eexists.
Qed.
End Start.

Section ClockSteppedBack.
Context {pydantic : Pydantic} (settings : Settings) {handler : TaskHandler}.

(** The limit of the failure path: when the wall clock has stepped back
    while the handler ran, the constructor of the [FAILED] result rejects
    the negative duration, and [_execute_task] raises [ValidationError]
    from its [except] block, the failure counted and nothing published.
    The main loop catches it (see [run_loop_body_balance]). *)
Lemma execute_task_raised_clock_stepped_back task st e w1 :
  handle_task task (entry_world task st) = (Raise e, w1) ->
  is_Exception e = true ->
  current_time w1 < current_time (world st) ->
  exists st',
    _execute_task settings task st =
      (Raise (mk_exn Exception_ "ValidationError"), st') /\
    self st' = set_tasks_failed (tasks_failed (self st) + 1) (self st) /\
    trace st' = trace st ++ [Await_handle_task task] /\
    db (world st') = db w1.
Proof.
  intros Hh He Hclock. unfold _execute_task. rewrite bind_unfold, lift_unfold. simpl.
  rewrite bind_unfold. simpl. unfold try_except. rewrite bind_unfold, await_unfold.
  simpl. unfold entry_world in Hh. rewrite Hh. simpl. rewrite He.
  rewrite bind_unfold. simpl. rewrite bind_unfold. simpl.
  rewrite bind_unfold, lift_unfold. simpl. rewrite bind_unfold. simpl.
  rewrite bind_unfold, lift_unfold. unfold AgentResult_new. simpl.
  rewrite bind_unfold. simpl. unfold AgentResult.schema_ok. simpl.
  change (clock w1 (ticks w1)) with (current_time w1).
  destruct (Qle_bool 0 (total_seconds (current_time w1) (current_time (world st))))
    eqn:Hd.
  - apply total_seconds_ge0 in Hd. lia.
  - simpl. eexists. split; [reflexivity|]. done.
Qed.
End ClockSteppedBack.

(** ** The claims on concrete runs *)

Lemma failed_task_result_then_alert_witness :
  exists r st',
    @_execute_task default_settings DataQualityAgent.handler unknown_task dq_idle =
      (Return tt, st') /\
    AgentResult.status r = TaskStatus.FAILED /\
    AgentResult.task_id r = AgentTask.task_id unknown_task /\
    ((AgentTask.priority unknown_task = TaskPriority.CRITICAL /\
      exists a,
        trace st' = trace dq_idle ++ [Await_handle_task unknown_task;
                                      Await_publish_result r;
                                      Await_publish_alert a] /\
        AgentAlert.severity a = AlertSeverity.CRITICAL /\
        AgentAlert.related_task_id a = Some (AgentTask.task_id unknown_task)) \/
     (AgentTask.priority unknown_task <> TaskPriority.CRITICAL /\
      trace st' = trace dq_idle ++ [Await_handle_task unknown_task;
                                    Await_publish_result r])).
Proof.
  apply (@failed_task_result_then_alert default_settings DataQualityAgent.handler
           unknown_task dq_idle unknown_task_error (entry_world unknown_task dq_idle)).
  - reflexivity.
  - reflexivity.
  - vm_compute. discriminate.
Defined.

(** C2 as stated fails: [initialize] raises, [start] raises with it, and
    the running flag is set and the heartbeat task pending all the same. *)
Lemma start_failure_leaves_agent_running :
  fst (@start strict_pydantic default_settings (failing_initialize missing_model) 3 dq_idle) =
    Raise missing_model /\
  is_running (self (snd (@start strict_pydantic default_settings
                           (failing_initialize missing_model) 3 dq_idle))) = true /\
  _heartbeat_task (self (snd (@start strict_pydantic default_settings
                                (failing_initialize missing_model) 3 dq_idle))) =
    Some TaskPending.
Proof. vm_compute. done. Qed.

Lemma start_initialize_failure_witness :
  @start strict_pydantic default_settings (failing_initialize missing_model) 3 dq_idle =
    (Raise missing_model,
     mk_st (started dq_idle) (start_world dq_idle) (trace dq_idle ++ [Await_initialize])) /\
  is_running (started dq_idle) = true /\
  _heartbeat_task (started dq_idle) = Some TaskPending /\
  (forall schedule,
     forallb (fun p => negb (pass_interfered p)) schedule = true ->
     exists st'',
       @_heartbeat_loop default_settings schedule
         (mk_st (started dq_idle) (start_world dq_idle)
            (trace dq_idle ++ [Await_initialize])) =
       (Return Looping, st'')).
Proof.
  apply (@start_initialize_failure strict_pydantic default_settings
           (failing_initialize missing_model) 3 dq_idle missing_model
           (start_world dq_idle)).
  reflexivity.
Defined.

Lemma mismatched_task_discarded_witness :
  @run_loop_body strict_pydantic default_settings DataQualityAgent.handler
    (dq_running (with_tasks [task_json monitor_task] (fresh_world []))) =
    (Return tt,
     mk_st (set_is_running true (BaseAgent_init AgentType.DATA_QUALITY))
       (snd (consume_task default_settings 5
               (with_tasks [task_json monitor_task] (fresh_world []))))
       [Await_consume_task 5; Await_sleep (1 # 10)]) /\
  exists front entry,
    db (with_tasks [task_json monitor_task] (fresh_world [])) !! "diamond_mind:tasks" =
      Some (RList (front ++ [entry])) /\
    queue "diamond_mind:tasks"
      (snd (consume_task default_settings 5
              (with_tasks [task_json monitor_task] (fresh_world [])))) = front /\
    (forall k, k <> "diamond_mind:tasks" ->
       db (snd (consume_task default_settings 5
                  (with_tasks [task_json monitor_task] (fresh_world [])))) !! k =
       db (with_tasks [task_json monitor_task] (fresh_world [])) !! k).
Proof.
  apply (@mismatched_task_discarded strict_pydantic default_settings
           DataQualityAgent.handler
           (dq_running (with_tasks [task_json monitor_task] (fresh_world [])))
           monitor_task).
  - vm_compute. reflexivity.
  - vm_compute. discriminate.
Defined.

(** C4 as stated fails, on both paths: a handler that raises an exception
    whose text is empty gets a [FAILED] result published whose
    [error_message] is the empty text; a handler that returns a completed
    result carrying an error message gets it published as it is. *)
Lemma error_message_not_tied_to_status :
  (exists r,
     trace (snd (@_execute_task default_settings (failing_handler bare_error)
                   unknown_task dq_idle)) =
       [Await_handle_task unknown_task; Await_publish_result r;
        Await_publish_alert
          (AgentAlert.mk "uuid-0" AgentType.DATA_QUALITY AlertSeverity.CRITICAL
             "Critical task T1 failed: " ∅ 4000000 false [] (Some "T1"))] /\
     AgentResult.status r = TaskStatus.FAILED /\
     AgentResult.error_message r = Some "") /\
  (exists r,
     trace (snd (@_execute_task default_settings (returning_handler odd_result)
                   unknown_task dq_idle)) =
       [Await_handle_task unknown_task; Await_publish_result r] /\
     AgentResult.status r = TaskStatus.COMPLETED /\
     AgentResult.error_message r = Some "partial data").
Proof.
  split.
  - eexists. split; [vm_compute; reflexivity|]. done.
  - eexists. split; [vm_compute; reflexivity|]. done.
Qed.

Lemma published_error_message_witness :
  exists r rest st',
    @_execute_task default_settings (failing_handler bare_error) unknown_task dq_idle =
      (Return tt, st') /\
    trace st' = trace dq_idle ++
                Await_handle_task unknown_task :: Await_publish_result r :: rest /\
    AgentResult.status r = TaskStatus.FAILED /\
    AgentResult.error_message r = Some (exc_str bare_error).
Proof.
  apply (@published_error_message default_settings (failing_handler bare_error)
           unknown_task dq_idle (Raise bare_error) (entry_world unknown_task dq_idle)).
  - reflexivity.
  - intros e [= <-]. split; [reflexivity|]. vm_compute. discriminate.
Defined.

Lemma transport_error_soft_failure_witness :
  total (consume_task default_settings 5) /\
  total (publish_result default_settings example_result) /\
  (faults (fresh_world [Some "Connection refused"]) = Some "Connection refused" :: [] ->
     (exists w', consume_task default_settings 5 (fresh_world [Some "Connection refused"]) =
                   (Return None, w') /\
                 db w' = db (fresh_world [Some "Connection refused"])) /\
     (forall w0, connected w0 = true -> next_command_passes w0 ->
                 db w0 !! task_queue_name default_settings = None ->
                 exists w0', consume_task default_settings 5 w0 = (Return None, w0') /\
                             db w0' = db w0) /\
     (exists w', publish_result default_settings example_result
                   (fresh_world [Some "Connection refused"]) = (Return false, w') /\
                 db w' = db (fresh_world [Some "Connection refused"]))) /\
  (faults (fresh_world [Some "Connection refused"]) =
     None :: Some "Connection refused" :: [] ->
   (forall h, db (fresh_world [Some "Connection refused"]) !!
                result_queue_name default_settings <> Some (RHash h)) ->
   exists w', publish_result default_settings example_result
                (fresh_world [Some "Connection refused"]) = (Return false, w') /\
     queue (result_queue_name default_settings) w' =
       result_json example_result ::
       queue (result_queue_name default_settings) (fresh_world [Some "Connection refused"]) /\
     (forall k, k <> result_queue_name default_settings ->
        db w' !! k = db (fresh_world [Some "Connection refused"]) !! k)).
Proof.
  apply (@transport_error_soft_failure strict_pydantic default_settings example_result 5
           (fresh_world [Some "Connection refused"]) "Connection refused" []).
  reflexivity.
Defined.

Lemma publish_result_then_get_result_witness :
  exists w'',
    get_result (AgentResult.task_id example_result)
      (snd (publish_result default_settings example_result (fresh_world []))) =
    (Return (Some example_result), w'').
Proof.
  destruct (@publish_result_then_get_result strict_pydantic default_settings example_result
              (fresh_world [])
              (snd (publish_result default_settings example_result (fresh_world []))))
    as (_ & _ & Hget & _).
  - reflexivity.
  - vm_compute. reflexivity.
  - apply Hget. intros err rest. vm_compute. discriminate.
Defined.

Lemma heartbeat_loop_ends_only_when_cancelled_witness :
  exists w',
    @_heartbeat_loop default_settings [(quiet, quiet); (quiet, quiet)]
      (dq_running (fresh_world [Some "Connection refused"])) =
    (Return Looping,
     mk_st (set_is_running true (BaseAgent_init AgentType.DATA_QUALITY)) w'
       [Await_update_agent_heartbeat "data_quality"; Await_sleep (inject_Z 60);
        Await_update_agent_heartbeat "data_quality"; Await_sleep (inject_Z 60)]).
Proof.
  destruct (heartbeat_loop_ends_only_when_cancelled default_settings
              (dq_running (fresh_world [Some "Connection refused"])) eq_refl)
    as (Hquiet & _).
  exact (Hquiet [(quiet, quiet); (quiet, quiet)] eq_refl).
Defined.

Lemma DataQualityAgent_soft task : soft (DataQualityAgent.handle_task task).
Proof.
  unfold DataQualityAgent.handle_task.
  repeat match goal with |- context [if ?b then _ else _] => destruct b end;
    try (apply soft_bind; [apply total_soft, total_logger_log|intros _];
         apply soft_AgentResult_new).
  by apply soft_raise.
Qed.

Lemma counters_move_without_delivery :
  tasks_completed (self (snd (@run_loop_while strict_pydantic default_settings
                                DataQualityAgent.handler 2 (dq_running lossy_world)))) = 1 /\
  tasks_failed (self (snd (@run_loop_while strict_pydantic default_settings
                             DataQualityAgent.handler 2 (dq_running lossy_world)))) = 1 /\
  queue "diamond_mind:results"
    (world (snd (@run_loop_while strict_pydantic default_settings
                   DataQualityAgent.handler 2 (dq_running lossy_world)))) = [] /\
  queue "diamond_mind:tasks"
    (world (snd (@run_loop_while strict_pydantic default_settings
                   DataQualityAgent.handler 2 (dq_running lossy_world)))) = [].
Proof. vm_compute. done. Qed.

Lemma counters_count_executed_tasks_witness :
  exists status st',
    @run_loop_while strict_pydantic default_settings DataQualityAgent.handler 2
      (dq_running lossy_world) = (Return status, st') /\
    tasks_completed (self st') + tasks_failed (self st') =
      tasks_completed (self (dq_running lossy_world)) +
      tasks_failed (self (dq_running lossy_world)) +
      (executed (trace st') - executed (trace (dq_running lossy_world))).
Proof.
  destruct (@counters_count_executed_tasks strict_pydantic default_settings
              DataQualityAgent.handler DataQualityAgent_soft) as (_ & _ & Hloop).
  exact (Hloop 2%nat (dq_running lossy_world)).
Defined.

Lemma consume_task_malformed_entry_witness :
  total (consume_task default_settings 5) /\
  exists w',
    consume_task default_settings 5
      (with_tasks [task_json check_task; NotJson "{task_id: T9"] (fresh_world [])) =
      (Return None, w') /\
    queue (task_queue_name default_settings) w' = [task_json check_task] /\
    (forall k, k <> task_queue_name default_settings ->
       db w' !! k =
       db (with_tasks [task_json check_task; NotJson "{task_id: T9"] (fresh_world [])) !! k).
Proof.
  apply (@consume_task_malformed_entry strict_pydantic default_settings 5
           (with_tasks [task_json check_task; NotJson "{task_id: T9"] (fresh_world []))
           [task_json check_task] (NotJson "{task_id: T9")).
  - reflexivity.
  - intros err rest. vm_compute. discriminate.
  - vm_compute. reflexivity.
  - intros d. simpl. discriminate.
Defined.

(** A document that is JSON but no task (no [task_type]) is dropped the
    same way. *)
Lemma consume_task_drops_schema_violation :
  fst (consume_task default_settings 5
         (with_tasks [Doc (JObj {["task_id" := JStr "T9"]})] (fresh_world []))) =
    Return None /\
  queue "diamond_mind:tasks"
    (snd (consume_task default_settings 5
            (with_tasks [Doc (JObj {["task_id" := JStr "T9"]})] (fresh_world [])))) = [].
Proof. vm_compute. done. Qed.

Lemma success_publishes_handler_result_witness :
  exists r' st',
    @_execute_task default_settings DataQualityAgent.handler check_task dq_idle =
      (Return tt, st') /\
    trace st' = trace dq_idle ++ [Await_handle_task check_task; Await_publish_result r'] /\
    AgentResult.duration_seconds r' =
      total_seconds
        (current_time (snd (DataQualityAgent.handle_task check_task
                              (entry_world check_task dq_idle))))
        (current_time (world dq_idle)) /\
    (current_time (world dq_idle) <=
       current_time (snd (DataQualityAgent.handle_task check_task
                            (entry_world check_task dq_idle))) ->
     (0 <= AgentResult.duration_seconds r')%Q) /\
    AgentResult.task_id r' = AgentResult.task_id check_task_result /\
    AgentResult.agent_id r' = AgentResult.agent_id check_task_result /\
    AgentResult.status r' = AgentResult.status check_task_result /\
    AgentResult.result_data r' = AgentResult.result_data check_task_result /\
    AgentResult.metrics r' = AgentResult.metrics check_task_result /\
    AgentResult.artifacts r' = AgentResult.artifacts check_task_result /\
    AgentResult.completed_at r' = AgentResult.completed_at check_task_result /\
    AgentResult.error_message r' = AgentResult.error_message check_task_result.
Proof.
  apply (@success_publishes_handler_result default_settings DataQualityAgent.handler
           check_task dq_idle check_task_result
           (snd (DataQualityAgent.handle_task check_task (entry_world check_task dq_idle)))).
  vm_compute. reflexivity.
Defined.

(** The heartbeat task is cancelled while the loop sleeps after its first
    write: the loop has left, the rest of the schedule is not run, and the
    heartbeat store holds the one write that preceded. *)
Lemma heartbeat_stops_on_cancel :
  fst (@_heartbeat_loop default_settings [(quiet, stopping); (quiet, quiet)]
         (dq_running (fresh_world []))) = Return Exited /\
  db (world (snd (@_heartbeat_loop default_settings [(quiet, stopping); (quiet, quiet)]
                    (dq_running (fresh_world []))))) !! "agent_heartbeats" =
    Some (RHash {["data_quality" := IsoTime 0]}) /\
  trace (snd (@_heartbeat_loop default_settings [(quiet, stopping); (quiet, quiet)]
                (dq_running (fresh_world [])))) =
    [Await_update_agent_heartbeat "data_quality"; Await_sleep (inject_Z 60)].
Proof. vm_compute. done. Qed.

(** On a broker that works, the awaits of the failure path reach it: the
    failed result is on the result queue and in the result store, and the
    alert of a critical task is on the alert queue and on the [alerts]
    channel; a task of another priority leaves the alert queue empty. *)
Lemma critical_failure_reaches_broker :
  queue "diamond_mind:results"
    (world (snd (@_execute_task default_settings DataQualityAgent.handler
                   unknown_task dq_idle))) =
    [result_json (failure_result unknown_task dq_idle unknown_task_error
                    (entry_world unknown_task dq_idle))] /\
  fst (get_result "T1"
         (world (snd (@_execute_task default_settings DataQualityAgent.handler
                        unknown_task dq_idle)))) =
    Return (Some (failure_result unknown_task dq_idle unknown_task_error
                    (entry_world unknown_task dq_idle))) /\
  length (queue "diamond_mind:alerts"
            (world (snd (@_execute_task default_settings DataQualityAgent.handler
                           unknown_task dq_idle)))) = 1%nat /\
  fst <$> channels (world (snd (@_execute_task default_settings DataQualityAgent.handler
                                  unknown_task dq_idle))) = ["alerts"] /\
  queue "diamond_mind:alerts"
    (world (snd (@_execute_task default_settings DataQualityAgent.handler
                   (example_task "T1" AgentType.DATA_QUALITY "nope" TaskPriority.HIGH)
                   dq_idle))) = [].
Proof. vm_compute. done. Qed.

(** * Further properties of the message queue *)

Lemma next_command_passes_nil w : faults w = [] -> next_command_passes w.
Proof. intros Hf err rest. by rewrite Hf. Qed.

Lemma two_commands_pass_nil w : faults w = [] -> two_commands_pass w.
Proof. intros Hf. split; [by apply next_command_passes_nil|]. intros o err rest. by rewrite Hf. Qed.

Lemma two_commands_pass_tail w :
  two_commands_pass w -> next_command_passes (set_faults (tail (faults w)) w).
Proof.
  intros [H1 H2] err rest. simpl. destruct (faults w) as [|o l] eqn:E; simpl; [done|].
  intros ->. by apply (H2 o err rest).
Qed.

Section TaskQueue.
Context (settings : Settings).

Lemma publish_task_passes task w :
  connected w = true -> next_command_passes w ->
  (forall h, db w !! task_queue_name settings <> Some (RHash h)) ->
  exists w',
    publish_task settings task w = (Return true, w') /\
    db w' = <[task_queue_name settings :=
                RList (task_json task :: queue (task_queue_name settings) w)]> (db w) /\
    connected w' = true /\ faults w' = tail (faults w) /\
    current_time w' = current_time w.
Proof.
  intros Hc Hf Hq. unfold publish_task, try_except. rewrite bind_unfold.
  rewrite (redis_call_passes _ _ Hc Hf). simpl. unfold LPUSH, queue, task_json.
  destruct (db w !! task_queue_name settings) as [[l|h]|] eqn:E;
    [|by destruct (Hq h)|]; simpl; by eexists.
Qed.

Lemma consume_task_valid {pydantic : Pydantic} timeout w front t :
  connected w = true -> next_command_passes w ->
  db w !! task_queue_name settings = Some (RList (front ++ [task_json t])) ->
  AgentTask_validate (current_time w) (AgentTask.model_dump_json t) = Some t ->
  exists w',
    consume_task settings timeout w = (Return (Some t), w') /\
    queue (task_queue_name settings) w' = front /\
    (forall k, k <> task_queue_name settings -> db w' !! k = db w !! k) /\
    connected w' = true /\ faults w' = tail (faults w) /\
    current_time w' = current_time w /\ log w' = log w.
Proof.
  intros Hc Hf Hq Hval.
  destruct (BRPOP_snoc _ timeout _ _ _ Hq) as (d' & Hpop & Hother & Hfront).
  unfold consume_task, try_except. rewrite bind_unfold.
  rewrite (redis_call_passes _ _ Hc Hf). simpl. rewrite Hpop.
  rewrite bind_unfold. simpl. rewrite bind_unfold. unfold AgentTask_init.
  change (current_time (set_db _ _)) with (current_time w). rewrite Hval. simpl.
  eexists. split; [reflexivity|]. simpl. done.
Qed.

(** X1.  The task queue is first in, first out.  On a connection that
    works, [publish_task] returns [True] and puts the task at the head of
    the queue; the [consume_task] that follows returns the task that has
    waited longest and leaves the others: the task just published when the
    queue was empty, the oldest one otherwise, the new task staying behind
    the rest. *)
Theorem task_queue_first_in_first_out task timeout w :
  connected w = true ->
  faults w = [] ->
  (forall h, db w !! task_queue_name settings <> Some (RHash h)) ->
  0 <= AgentTask.retry_count task -> 0 <= AgentTask.max_retries task ->
  exists w1,
    publish_task settings task w = (Return true, w1) /\
    queue (task_queue_name settings) w1 =
      task_json task :: queue (task_queue_name settings) w /\
    (queue (task_queue_name settings) w = [] ->
     exists w2,
       @consume_task strict_pydantic settings timeout w1 = (Return (Some task), w2) /\
       queue (task_queue_name settings) w2 = []) /\
    (forall front oldest,
       queue (task_queue_name settings) w = front ++ [task_json oldest] ->
       0 <= AgentTask.retry_count oldest -> 0 <= AgentTask.max_retries oldest ->
       exists w2,
         @consume_task strict_pydantic settings timeout w1 = (Return (Some oldest), w2) /\
         queue (task_queue_name settings) w2 = task_json task :: front).
Proof.
  intros Hc Hf Hq Hrc Hmr.
  destruct (publish_task_passes task w Hc (next_command_passes_nil _ Hf) Hq)
    as (w1 & Hpub & Hdb & Hc1 & Hf1 & Ht1).
  assert (Hpass1 : next_command_passes w1).
  { apply next_command_passes_nil. by rewrite Hf1, Hf. }
  exists w1. split; [exact Hpub|]. split.
  { unfold queue at 1. by rewrite Hdb, lookup_insert_eq. }
  split.
  - intros Hempty.
    destruct (@consume_task_valid strict_pydantic timeout w1 [] task Hc1 Hpass1)
      as (w2 & Hpop & Hfront & _).
    + by rewrite Hdb, lookup_insert_eq, Hempty.
    + by apply Strict.task_validate_dump.
    + by exists w2.
  - intros front oldest Hold Hrc0 Hmr0.
    destruct (@consume_task_valid strict_pydantic timeout w1 (task_json task :: front)
                oldest Hc1 Hpass1) as (w2 & Hpop & Hfront & _).
    + by rewrite Hdb, lookup_insert_eq, Hold.
    + by apply Strict.task_validate_dump.
    + by exists w2.
Qed.
End TaskQueue.

Section PublishResultSucceeds.
Context (settings : Settings).

(** X2.  [publish_result] returns [True] exactly when the client is
    there, the transport lets its two commands through, the result queue
    key holds no hash, and the key [results:<task_id>] holds no list and
    is not the key of the result queue; in every other case it returns
    [False]. *)
Theorem publish_result_succeeds_iff r w :
  (exists w', publish_result settings r w = (Return true, w')) <->
  (connected w = true /\ two_commands_pass w /\
   (forall h, db w !! result_queue_name settings <> Some (RHash h)) /\
   (forall l, db w !! result_key (AgentResult.task_id r) <> Some (RList l)) /\
   result_key (AgentResult.task_id r) <> result_queue_name settings).
Proof.
  split.
  - intros (w' & Hpub). revert Hpub.
    unfold publish_result, try_except. rewrite bind_unfold.
    destruct (redis_call _ w) as [[n1|e1] w1] eqn:E1.
    2:{ by rewrite (soft_redis_call _ _ _ _ E1). }
    apply redis_call_Return in E1 as (Hc & Hf & d1 & Hpush & ->).
    assert (Hq : forall h, db w !! result_queue_name settings <> Some (RHash h)).
    { intros h Hh. unfold LPUSH in Hpush. by rewrite Hh in Hpush. }
    apply LPUSH_ok in Hpush as ->.
    rewrite !bind_unfold. simpl. rewrite bind_unfold.
    match goal with |- context [redis_call ?c ?x] =>
      destruct (redis_call c x) as [[n2|e2] w2] eqn:E2 end.
    2:{ by rewrite (soft_redis_call _ _ _ _ E2). }
    apply redis_call_Return in E2 as (_ & Hf2 & d2 & Hset & ->).
    simpl in Hset. apply HSET_ok in Hset as (Hnot & h & ->). intros _.
    assert (Hne : result_key (AgentResult.task_id r) <> result_queue_name settings).
    { intros Heq. rewrite Heq, lookup_insert_eq in Hnot. by eapply Hnot. }
    split; [done|]. split; [|split; [done|split; [|done]]].
    + split; [done|]. intros o err rest Hfw.
      apply (Hf2 err rest). simpl. by rewrite Hfw.
    + intros l Hl. apply (Hnot l). by rewrite lookup_insert_ne.
  - intros (Hc & Hpass & Hq & Hk & Hne).
    unfold publish_result, try_except. rewrite bind_unfold.
    rewrite (redis_call_passes _ _ Hc (proj1 Hpass)). simpl.
    assert (Hpush : exists n, LPUSH (result_queue_name settings) (result_json r) (db w) =
              inr (n, <[result_queue_name settings :=
                 RList (result_json r :: queue (result_queue_name settings) w)]> (db w))).
    { unfold LPUSH, queue.
      destruct (db w !! result_queue_name settings) as [[l|h]|] eqn:E;
        [by eexists|by destruct (Hq h)|by eexists]. }
    destruct Hpush as (n & Hpush). unfold result_json in Hpush. rewrite Hpush.
    rewrite !bind_unfold. simpl. rewrite bind_unfold.
    erewrite redis_call_passes; [|exact Hc|].
    2:{ intros err rest Hfw. simpl in Hfw.
        destruct (faults w) as [|o l] eqn:E; [done|]. simpl in Hfw. subst l.
        by apply (proj2 Hpass o err rest). }
    simpl. unfold HSET. rewrite lookup_insert_ne; [|done].
    destruct (db w !! result_key (AgentResult.task_id r)) as [[l|h]|] eqn:E;
      [by destruct (Hk l)| |]; simpl; by eexists.
Qed.
End PublishResultSucceeds.

Section PublishAlert.
Context (settings : Settings).

(** X3.  [publish_alert] on a client that is there, the alert queue key
    holding no hash.  When the transport lets both commands through it
    returns [True], the alert is at the head of the alert queue and is the
    last message published on the channel [alerts].  When the transport
    fails on the [PUBLISH] it returns [False] although the alert is on the
    queue; the subscribers of the channel get nothing.  When the transport
    fails on the [LPUSH] it returns [False] and nothing has changed.  No
    other key changes in any case. *)
Theorem publish_alert_queue_and_channel alert w :
  connected w = true ->
  (forall h, db w !! alert_queue_name settings <> Some (RHash h)) ->
  exists b w',
    publish_alert settings alert w = (Return b, w') /\
    (forall k, k <> alert_queue_name settings -> db w' !! k = db w !! k) /\
    (two_commands_pass w ->
       b = true /\
       queue (alert_queue_name settings) w' =
         alert_json alert :: queue (alert_queue_name settings) w /\
       channels w' = channels w ++ [("alerts", alert_json alert)]) /\
    (forall err rest, faults w = None :: Some err :: rest ->
       b = false /\
       queue (alert_queue_name settings) w' =
         alert_json alert :: queue (alert_queue_name settings) w /\
       channels w' = channels w) /\
    (forall err rest, faults w = Some err :: rest ->
       b = false /\ db w' = db w /\ channels w' = channels w).
Proof.
  intros Hc Hq.
  assert (Hpush : exists n, LPUSH (alert_queue_name settings) (alert_json alert) (db w) =
            inr (n, <[alert_queue_name settings :=
               RList (alert_json alert :: queue (alert_queue_name settings) w)]> (db w))).
  { unfold LPUSH, queue.
    destruct (db w !! alert_queue_name settings) as [[l|h]|] eqn:E;
      [by eexists|by destruct (Hq h)|by eexists]. }
  destruct Hpush as (n & Hpush). unfold alert_json in Hpush.
  unfold publish_alert, try_except. rewrite bind_unfold.
  unfold redis_call at 1. rewrite Hc.
  destruct (faults w) as [|[err|] rest] eqn:Hf.
  - (* no fault scheduled at all *)
    simpl. rewrite Hpush. rewrite bind_unfold. unfold redis_publish.
    rewrite bind_unfold. unfold redis_call. simpl. rewrite Hc. simpl.
    eexists _, _. split; [reflexivity|]. simpl. split.
    { intros k Hk. by rewrite lookup_insert_ne. }
    split; [|split; [done|done]].
    intros _. split; [done|]. split; [|done].
    unfold queue at 1. simpl. by rewrite lookup_insert_eq.
  - (* the LPUSH meets an error *)
    simpl. eexists _, _. split; [reflexivity|]. simpl. split; [done|].
    split; [|split; [done|]].
    + intros [Hp _]. by destruct (Hp err rest).
    + intros err' rest' [= <- <-]. done.
  - (* the LPUSH passes *)
    simpl. rewrite Hpush. rewrite bind_unfold. unfold redis_publish.
    rewrite bind_unfold. unfold redis_call. simpl. rewrite Hc.
    destruct rest as [|[err|] rest]; simpl.
    + eexists _, _. split; [reflexivity|]. simpl. split.
      { intros k Hk. by rewrite lookup_insert_ne. }
      split; [|split; [done|done]].
      intros _. split; [done|]. split; [|done].
      unfold queue at 1. simpl. by rewrite lookup_insert_eq.
    + eexists _, _. split; [reflexivity|]. simpl. split.
      { intros k Hk. by rewrite lookup_insert_ne. }
      split; [|split; [|done]].
      * intros [_ Hp]. by destruct (Hp None err rest).
      * intros err' rest' [= <- <-]. split; [done|]. split; [|done].
        unfold queue at 1. simpl. by rewrite lookup_insert_eq.
    + eexists _, _. split; [reflexivity|]. simpl. split.
      { intros k Hk. by rewrite lookup_insert_ne. }
      split; [|split; [done|done]].
      intros _. split; [done|]. split; [|done].
      unfold queue at 1. simpl. by rewrite lookup_insert_eq.
Qed.
End PublishAlert.

Section ReadOnly.
Context {pydantic : Pydantic}.

(** X4.  [get_result] never raises and never changes the broker: the key
    space and the channels are as they were.  For a task id under which
    nothing is stored it returns [None]. *)
Theorem get_result_reads_only task_id w :
  exists o w',
    get_result task_id w = (Return o, w') /\
    db w' = db w /\ channels w' = channels w /\
    (db w !! result_key task_id = None -> o = None).
Proof.
  unfold get_result, try_except. rewrite bind_unfold.
  destruct (redis_call _ w) as [[res|e] w0] eqn:E.
  2:{ rewrite (soft_redis_call _ _ _ _ E). simpl.
      unfold redis_call in E. destruct (connected w).
      - destruct (faults w) as [|[err|] rest]; simpl in E.
        + unfold HGET in E. destruct (db w !! result_key task_id) as [[l|h]|];
            simplify_eq; by eexists _, _.
        + simplify_eq. by eexists _, _.
        + unfold HGET in E. destruct (db w !! result_key task_id) as [[l|h]|];
            simplify_eq; by eexists _, _.
      - simplify_eq. by eexists _, _. }
  apply redis_call_Return in E as (Hc & Hf & d' & Hget & ->).
  assert (d' = db w /\ (db w !! result_key task_id = None -> res = None)) as [-> Hnone].
  { unfold HGET in Hget. destruct (db w !! result_key task_id) as [[l|h]|];
      simplify_eq; done. }
  destruct res as [s|]; [|by eexists _, _].
  destruct (text_truthy s); [|eexists _, _; split; [reflexivity|]; simpl; by auto].
  rewrite bind_unfold. unfold loads.
  destruct (json_loads s) as [d|]; simpl.
  2:{ eexists _, _. split; [reflexivity|]. simpl. by auto. }
  rewrite bind_unfold. unfold AgentResult_init.
  destruct (AgentResult_validate _ d); simpl.
  - eexists _, _. split; [reflexivity|]. simpl. split; [done|]. split; [done|].
    intros Hk. by specialize (Hnone Hk).
  - eexists _, _. split; [reflexivity|]. simpl. split; [done|]. split; [done|].
    intros Hk. by specialize (Hnone Hk).
Qed.
End ReadOnly.

(** X5.  A heartbeat that was written can be read back: after an
    [update_agent_heartbeat] that returned, a [get_agent_heartbeat] of the
    same agent, its command let through, returns the time the write read
    from the clock, and the heartbeat of every other agent is as it was. *)
Theorem heartbeat_write_then_read id w w1 :
  update_agent_heartbeat id w = (Return tt, w1) ->
  next_command_passes w1 ->
  (exists w2, get_agent_heartbeat id w1 = (Return (Some (current_time w)), w2)) /\
  exists h1,
    db w1 !! "agent_heartbeats" = Some (RHash h1) /\
    forall id', id' <> id ->
      h1 !! id' = match db w !! "agent_heartbeats" with
                  | Some (RHash h) => h !! id'
                  | _ => None
                  end.
Proof.
  unfold update_agent_heartbeat. rewrite bind_unfold. simpl. rewrite bind_unfold.
  match goal with |- context [redis_call ?c ?x] =>
    destruct (redis_call c x) as [[n|e] w0] eqn:E end; [|done].
  apply redis_call_Return in E as (Hc & Hf & d' & Hset & ->).
  simpl. intros [= <-] Hpass. simpl in Hset.
  assert (exists h1, d' = <["agent_heartbeats" := RHash h1]> (db w) /\
            h1 !! id = Some (IsoTime (current_time w)) /\
            forall id', id' <> id ->
              h1 !! id' = match db w !! "agent_heartbeats" with
                          | Some (RHash h) => h !! id'
                          | _ => None
                          end) as (h1 & -> & Hid & Hothers).
  { unfold HSET in Hset. destruct (db w !! "agent_heartbeats") as [[l|h]|] eqn:Ek;
      simplify_eq.
    - eexists. split; [reflexivity|]. split.
      + apply lookup_union_Some_l. by rewrite lookup_singleton_eq.
      + intros id' Hne. rewrite lookup_union_r; [done|].
        by rewrite lookup_singleton_ne.
    - eexists. split; [reflexivity|]. split.
      + by rewrite lookup_singleton_eq.
      + intros id' Hne. by rewrite lookup_singleton_ne. }
  split.
  - unfold get_agent_heartbeat. rewrite bind_unfold.
    rewrite redis_call_passes; [|done|done]. simpl. unfold HGET.
    rewrite lookup_insert_eq, Hid. simpl. by eexists.
  - exists h1. simpl. by rewrite lookup_insert_eq.
Qed.

Section QueueDepth.
Context {pydantic : Pydantic} (settings : Settings).

(** X6.  On a connection that works, [clear_queue] empties a queue
    whatever its key held: the depth read next is [0] and, for the task
    queue, the [consume_task] that follows returns [None]; no other key
    changes.  And [publish_task] raises the depth of the task queue by
    one. *)
Theorem clear_queue_then_depth name task w :
  connected w = true ->
  faults w = [] ->
  (exists w1,
     clear_queue name w = (Return tt, w1) /\
     (forall k, k <> name -> db w1 !! k = db w !! k) /\
     (exists w2, get_queue_depth name w1 = (Return 0, w2)) /\
     (name = task_queue_name settings ->
      exists w2, consume_task settings 5 w1 = (Return None, w2))) /\
  ((forall h, db w !! task_queue_name settings <> Some (RHash h)) ->
   exists d w1 w2 w3,
     get_queue_depth (task_queue_name settings) w = (Return d, w1) /\
     publish_task settings task w1 = (Return true, w2) /\
     get_queue_depth (task_queue_name settings) w2 = (Return (d + 1), w3)).
Proof.
  intros Hc Hf. pose proof (next_command_passes_nil _ Hf) as Hp. split.
  - unfold clear_queue. rewrite bind_unfold, (redis_call_passes _ _ Hc Hp). simpl.
    eexists. split; [reflexivity|]. simpl. split.
    { intros k Hk. by rewrite lookup_delete_ne. }
    split.
    + unfold get_queue_depth, redis_call. simpl. rewrite Hc, Hf. simpl.
      unfold LLEN. rewrite lookup_delete_eq. by eexists.
    + intros ->. unfold consume_task, try_except. rewrite bind_unfold.
      unfold redis_call. simpl. rewrite Hc, Hf. simpl. unfold BRPOP.
      rewrite lookup_delete_eq. simpl. by eexists.
  - intros Hq. unfold get_queue_depth at 1. rewrite (redis_call_passes _ _ Hc Hp).
    simpl. unfold LLEN.
    assert (exists d, match db w !! task_queue_name settings with
                      | Some (RList l) => inr (Z.of_nat (length l), db w)
                      | Some (RHash _) => inl WRONGTYPE
                      | None => inr (0, db w)
                      end = (inr (d, db w) : string + Z * gmap string rvalue) /\
                      d = Z.of_nat (length (queue (task_queue_name settings) w)))
      as (d & -> & Hd).
    { unfold queue. destruct (db w !! task_queue_name settings) as [[l|h]|] eqn:E;
        [by eexists|by destruct (Hq h)|by eexists]. }
    set (w1 := set_db (db w) (set_faults (tail (faults w)) w)).
    assert (Hc1 : connected w1 = true) by done.
    assert (Hf1 : faults w1 = []) by (simpl; by rewrite Hf).
    destruct (publish_task_passes settings task w1 Hc1 (next_command_passes_nil _ Hf1))
      as (w2 & Hpub & Hdb & Hc2 & Hf2 & _); [done|].
    exists d, w1, w2. unfold get_queue_depth, redis_call. rewrite Hc2, Hf2, Hf1.
    simpl. unfold LLEN. rewrite Hdb, lookup_insert_eq. simpl.
    eexists. split; [done|]. split; [done|]. do 2 f_equal.
    rewrite Hd. unfold queue, w1. simpl. lia.
Qed.
End QueueDepth.

(** X7.  Without a client ([connect] was never called) no command is sent:
    the operations that have a [try] return their failure value, the key
    space, the channels and the fault schedule untouched, and those that
    have none raise an [Exception]. *)
Theorem without_client_nothing_is_sent {pydantic : Pydantic} settings w :
  connected w = false ->
  (forall task, exists w',
     publish_task settings task w = (Return false, w') /\
     db w' = db w /\ channels w' = channels w /\ faults w' = faults w) /\
  (forall timeout, exists w',
     consume_task settings timeout w = (Return None, w') /\
     db w' = db w /\ channels w' = channels w /\ faults w' = faults w) /\
  (forall r, exists w',
     publish_result settings r w = (Return false, w') /\
     db w' = db w /\ channels w' = channels w /\ faults w' = faults w) /\
  (forall task_id, exists w',
     get_result task_id w = (Return None, w') /\
     db w' = db w /\ channels w' = channels w /\ faults w' = faults w) /\
  (forall alert, exists w',
     publish_alert settings alert w = (Return false, w') /\
     db w' = db w /\ channels w' = channels w /\ faults w' = faults w) /\
  (forall channel message, exists w',
     publish_message channel message w = (Return false, w') /\
     db w' = db w /\ channels w' = channels w /\ faults w' = faults w) /\
  (forall id, exists e w',
     update_agent_heartbeat id w = (Raise e, w') /\ is_Exception e = true /\
     db w' = db w /\ channels w' = channels w /\ faults w' = faults w) /\
  (forall name, exists e,
     get_queue_depth name w = (Raise e, w) /\ is_Exception e = true) /\
  (forall name, exists e,
     clear_queue name w = (Raise e, w) /\ is_Exception e = true).
Proof.
  intros Hc.
  assert (Hcall : forall A (cmd : command A),
            redis_call cmd w =
            (Raise (mk_exn Exception_ "'NoneType' object has no attribute"), w)).
  { intros A cmd. unfold redis_call. by rewrite Hc. }
  repeat split.
  - intros task. unfold publish_task, try_except. rewrite bind_unfold, Hcall.
    simpl. by eexists.
  - intros timeout. unfold consume_task, try_except. rewrite bind_unfold, Hcall.
    simpl. by eexists.
  - intros r. unfold publish_result, try_except. rewrite bind_unfold, Hcall.
    simpl. by eexists.
  - intros task_id. unfold get_result, try_except. rewrite bind_unfold, Hcall.
    simpl. by eexists.
  - intros alert. unfold publish_alert, try_except. rewrite bind_unfold, Hcall.
    simpl. by eexists.
  - intros channel message. unfold publish_message, try_except, redis_publish.
    rewrite !bind_unfold, Hcall. simpl. by eexists.
  - intros id. unfold update_agent_heartbeat. rewrite bind_unfold. simpl.
    rewrite bind_unfold. unfold redis_call. simpl. rewrite Hc. by eexists _, _.
  - intros name. unfold get_queue_depth. rewrite Hcall. by eexists.
  - intros name. unfold clear_queue. rewrite bind_unfold, Hcall. by eexists.
Qed.

(** X8.  [connect] does not swallow: when the transport fails on the
    [ping] it logs the error and raises it again, the error reaching the
    caller unchanged; when the [ping] passes it returns with the client in
    place and the "Connected" record logged.  The key space is untouched
    in both cases. *)
Theorem connect_raises_ping_error w :
  (next_command_passes w ->
   exists w', connect w = (Return tt, w') /\ connected w' = true /\ db w' = db w /\
     log w' = log w ++ [mk_log "messaging" LOG_INFO [Str "Connected to Redis"]]) /\
  (forall err rest, faults w = Some err :: rest ->
   exists w', connect w = (Raise (mk_exn Exception_ err), w') /\ db w' = db w /\
     log w' = log w ++ [mk_log "messaging" LOG_ERROR
                          [Str "Failed to connect to Redis: "; Str err]]).
Proof.
  split.
  - intros Hp. unfold connect, try_except. rewrite bind_unfold. simpl.
    rewrite bind_unfold. rewrite redis_call_passes; [|done|exact Hp]. simpl.
    by eexists.
  - intros err rest Hf. unfold connect, try_except. rewrite bind_unfold. simpl.
    rewrite bind_unfold. erewrite redis_call_fault; [|done|exact Hf]. simpl.
    by eexists.
Qed.

(** ** Pub/sub *)

Lemma listen_raises_at (body : pubsub_message -> M World unit) pre bad rest w :
  (forall w0, exists e w1, body bad w0 = (Raise e, w1)) ->
  listen body (pre ++ bad :: rest) w = listen body (pre ++ [bad]) w /\
  exists e w', listen body (pre ++ bad :: rest) w = (Raise e, w').
Proof.
  intros Hbad. revert w. induction pre as [|m pre IH]; intros w; simpl.
  - rewrite !bind_unfold. destruct (Hbad w) as (e & w1 & ->). split; [done|].
    by eexists _, _.
  - rewrite !bind_unfold. destruct (body m w) as [[[]|e] w1].
    + apply IH.
    + split; [done|]. by eexists _, _.
Qed.

(** X9.  A subscription does not survive a message it cannot decode: once
    a message of type "message" whose data is no JSON has arrived,
    [subscribe] has stopped listening, and what arrives afterwards changes
    nothing: the callback is never called for it. *)
Theorem subscribe_ends_at_undecodable_message channel callback pre bad rest w :
  message_type bad = "message" ->
  json_loads (message_data bad) = None ->
  subscribe channel callback (pre ++ bad :: rest) w =
    subscribe channel callback (pre ++ [bad]) w /\
  fst (subscribe channel callback (pre ++ bad :: rest) w) <> Return Looping.
Proof.
  intros Hty Hdata. unfold subscribe, try_except. rewrite !bind_unfold.
  destruct (redis_call (SUBSCRIBE channel) w) as [[[]|e] w0] eqn:E.
  2:{ rewrite (soft_redis_call _ _ _ _ E). done. }
  match goal with |- context [listen ?b _ w0] =>
    destruct (listen_raises_at b pre bad rest w0) as (Heq & e & w' & Hraise) end.
  { intros w1. rewrite Hty. simpl. rewrite bind_unfold. unfold loads.
    rewrite Hdata. by eexists _, _. }
  rewrite <- Heq, Hraise. split; [done|]. by destruct (is_Exception e).
Qed.

(** X10.  What [publish_message] has published reaches the subscribers of
    its channel and no others: after a [publish_message] that returned
    [True] the channel has carried one more message, the dict that was
    published, and the other channels have carried nothing new; a
    subscriber that receives it has its callback called on that dict and
    goes on listening when the callback returns. *)
Theorem publish_message_reaches_subscriber channel message w w1 :
  publish_message channel message w = (Return true, w1) ->
  delivered_to channel (channels w1) =
    delivered_to channel (channels w) ++ [as_message (Doc (JObj message))] /\
  (forall other, other <> channel ->
     delivered_to other (channels w1) = delivered_to other (channels w)) /\
  db w1 = db w /\
  (forall callback w0 w2,
     connected w0 = true -> next_command_passes w0 ->
     callback (JObj message) (let_through w0) = (Return tt, w2) ->
     subscribe channel callback [as_message (Doc (JObj message))] w0 =
       (Return Looping, w2)).
Proof.
  unfold publish_message, try_except, redis_publish. rewrite !bind_unfold.
  destruct (redis_call _ w) as [[[]|e] w0] eqn:E.
  2:{ by rewrite (soft_redis_call _ _ _ _ E). }
  apply redis_call_Return in E as (Hc & Hf & d' & [= <-] & ->).
  simpl. intros [= <-]. simpl.
  assert (Hdel : forall ch, delivered_to ch (channels w ++ [(channel, Doc (JObj message))]) =
            delivered_to ch (channels w) ++
            (if String.eqb channel ch then [as_message (Doc (JObj message))] else [])).
  { intros ch. unfold delivered_to. rewrite List.filter_app, !fmap_app. simpl.
    by destruct (String.eqb channel ch). }
  split; [|split; [|split; [done|]]].
  - by rewrite Hdel, String.eqb_refl.
  - intros other Hne. rewrite Hdel.
    destruct (String.eqb_spec channel other) as [->|_]; [done|]. by rewrite app_nil_r.
  - intros callback w0 w2 Hc0 Hf0 Hcb. unfold subscribe, try_except.
    rewrite bind_unfold, (redis_call_passes _ _ Hc0 Hf0). simpl.
    fold (let_through w0). run_monad. by rewrite Hcb.
Qed.

Lemma AlertSeverity_of_value_value a :
  AlertSeverity_of_value (AlertSeverity.value a) = Some a.
Proof. by destruct a. Qed.

Lemma alert_validate_dump now a :
  alert_validate now (AgentAlert.model_dump_json a) = Some a.
Proof.
  destruct a as [aid ag sev msg det ts ra sa rel]. simpl.
  unfold Strict.required, Strict.defaulted. simplify_map_eq.
  rewrite Strict.AgentType_of_value_value, AlertSeverity_of_value_value.
  simpl.
  match goal with |- (?m ≫= _) = _ =>
    change m with (Strict.as_str_list (JArr (JStr <$> sa))) end.
  rewrite Strict.as_str_list_dump. simpl. by destruct rel.
Qed.

Lemma delivered_to_published channel (texts : list text) :
  delivered_to channel ((fun data => (channel, data)) <$> texts) = as_message <$> texts.
Proof.
  unfold delivered_to. induction texts as [|x l IH]; [done|].
  rewrite !fmap_cons. simpl. rewrite String.eqb_refl. simpl.
  by rewrite <- IH.
Qed.

Lemma alert_message_decodes (callback : AgentAlert.t -> M World unit) a w0 :
  (loads (alert_json a) ≫= fun alert_dict =>
   AgentAlert_init alert_validate alert_dict ≫= fun alert => callback alert) w0 =
  callback a w0.
Proof.
  rewrite bind_unfold. simpl. rewrite bind_unfold. unfold AgentAlert_init.
  rewrite alert_validate_dump. by destruct (callback a w0) as [[[]|e] w1].
Qed.

(** X11.  Alerts reach a subscriber as they were published and in the
    order of their publication: fed the messages of the channel [alerts]
    for a list of published alerts, [consume_alerts] calls the callback on
    each alert in turn, every alert decoded equal to the one published,
    and is still listening afterwards, provided the callback returns each
    time. *)
Theorem alerts_reach_callback_in_order alerts callback w w2 :
  connected w = true ->
  next_command_passes w ->
  for_each callback alerts (let_through w) = (Return tt, w2) ->
  consume_alerts alert_validate callback
    (delivered_to "alerts" ((fun data => ("alerts", data)) <$> (alert_json <$> alerts))) w =
  (Return Looping, w2).
Proof.
  intros Hc Hf Hcb. rewrite delivered_to_published.
  unfold consume_alerts, try_except.
  rewrite bind_unfold, (redis_call_passes _ _ Hc Hf). simpl. fold (let_through w).
  revert Hcb. generalize (let_through w). clear Hc Hf.
  induction alerts as [|a alerts IH]; intros w0 Hcb.
  - simpl in *. by injection Hcb as <-.
  - simpl in Hcb. rewrite bind_unfold in Hcb.
    destruct (callback a w0) as [[[]|e] w1] eqn:Ha; [|done].
    rewrite !fmap_cons. cbn [listen]. rewrite bind_unfold.
    cbn [as_message alert_json message_type message_data String.eqb Ascii.eqb
         Bool.eqb].
    rewrite alert_message_decodes, Ha. exact (IH w1 Hcb).
Qed.

(** * Further properties of the runtime *)

Lemma grown_refl a : grown a a.
Proof. unfold grown. repeat split; lia. Qed.

Lemma grown_trans a b c : grown a b -> grown b c -> grown a c.
Proof. unfold grown. intros (?&?&?&?&?&?) (?&?&?&?&?&?). repeat split; try congruence; lia. Qed.

Section MainLoopFrame.
Context {pydantic : Pydantic} (settings : Settings) {handler : TaskHandler}.
Hypothesis handler_soft : forall task, soft (handle_task task).

Lemma execute_task_grown task st :
  exists o st',
    _execute_task settings task st = (o, st') /\
    (forall e, o = Raise e -> is_Exception e = true) /\
    grown (self st) (self st').
Proof.
  destruct (handle_task task (entry_world task st)) as [[r|e] w1] eqn:Hh.
  - destruct (execute_task_returned settings task st r w1 Hh)
      as (b & w2 & w3 & _ & _ & Hrun).
    eexists _, _. split; [exact Hrun|]. split; [done|].
    unfold grown. simpl. repeat split; lia.
  - pose proof (handler_soft task _ _ _ Hh) as He.
    destruct (execute_task_raised_counters settings task st e w1 Hh He)
      as (o & st' & Hrun & Hsoft & Hself & _).
    exists o, st'. split; [exact Hrun|]. split; [exact Hsoft|].
    rewrite Hself. unfold grown. simpl. repeat split; lia.
Qed.

Lemma run_loop_body_grown st :
  exists st', run_loop_body settings st = (Return tt, st') /\ grown (self st) (self st').
Proof.
  unfold run_loop_body, try_except. rewrite bind_unfold, await_unfold.
  destruct (total_consume_task settings 5 (world st)) as (task & w1 & Hpop).
  rewrite Hpop. simpl. rewrite bind_unfold. simpl.
  set (st1 := mk_st (self st) w1 (trace st ++ [Await_consume_task 5])).
  assert (Hidle : forall s : St, grown (self st) (self s) ->
            exists st', sleep (1 # 10) s = (Return tt, st') /\ grown (self st) (self st')).
  { intros s Hs. rewrite sleep_unfold. by eexists. }
  destruct task as [t|].
  2:{ rewrite bind_unfold. unfold mret, M_ret, ret.
      destruct (Hidle st1 (grown_refl _)) as (st' & -> & ?). by exists st'. }
  destruct (decide (AgentTask.agent_id t = agent_id (self st))) as [Heq|Hne].
  2:{ rewrite bind_unfold. unfold mret, M_ret, ret.
      destruct (Hidle st1 (grown_refl _)) as (st' & -> & ?). by exists st'. }
  rewrite bind_unfold.
  destruct (execute_task_grown t st1) as (o & st2 & Hrun & Hsoft & Hg).
  fold st1. rewrite Hrun. destruct o as [[]|e].
  - destruct (Hidle st2 Hg) as (st' & -> & ?). by exists st'.
  - rewrite (Hsoft e eq_refl). rewrite bind_unfold. simpl. rewrite sleep_unfold.
    eexists. split; [reflexivity|]. exact Hg.
Qed.

Lemma run_loop_while_grown fuel st :
  exists status st',
    run_loop_while settings fuel st = (Return status, st') /\
    grown (self st) (self st') /\
    (is_running (self st) = true -> status = Looping) /\
    (is_running (self st) = false -> status = Exited /\ st' = st).
Proof.
  revert st. induction fuel as [|fuel IH]; intros st.
  - simpl. rewrite bind_unfold. simpl. destruct (is_running (self st)) eqn:Hr.
    + eexists _, _. split; [reflexivity|]. split; [apply grown_refl|]. done.
    + eexists _, _. split; [reflexivity|]. split; [apply grown_refl|]. done.
  - simpl. rewrite bind_unfold. simpl. destruct (is_running (self st)) eqn:Hr.
    + rewrite bind_unfold.
      destruct (run_loop_body_grown st) as (st1 & -> & Hg1).
      destruct (IH st1) as (status & st' & -> & Hg2 & Hloop & _).
      exists status, st'. split; [done|]. split; [by eapply grown_trans|].
      split; [|done]. intros _. apply Hloop.
      destruct Hg1 as (_ & -> & _). exact Hr.
    + eexists _, _. split; [reflexivity|]. split; [apply grown_refl|]. done.
Qed.

(** X12.  The main loop does not end by itself and touches nothing of the
    agent but the counters.  With a handler that fails with [Exception]s
    only, whatever the broker and the handler do: followed for any number
    of passes from a state where [is_running] is set, the loop has
    returned from every pass and is still iterating; the identity, the
    flag, the start time and the heartbeat task are as they were; neither
    counter has gone down.  From a state where the flag is clear it leaves
    at once, the state untouched. *)
Theorem main_loop_runs_until_flag_cleared fuel st :
  exists status st',
    run_loop_while settings fuel st = (Return status, st') /\
    grown (self st) (self st') /\
    (is_running (self st) = true -> status = Looping) /\
    (is_running (self st) = false -> status = Exited /\ st' = st).
Proof.
  destruct (run_loop_while_grown fuel st) as (status & st' & Hrun & Hg & Hon & Hoff).
  exists status, st'. split; [exact Hrun|]. split; [exact Hg|].
  split; [exact Hon|exact Hoff].
Qed.

(** X13.  When [initialize] returns, [start] goes into the main loop and
    stays there: followed for any number of passes it has neither returned
    nor raised, and the agent is as [start] set it up (flag set, start
    time read before [initialize], heartbeat task pending) but for the
    counters, which have not gone down. *)
Theorem start_enters_the_main_loop fuel st w1 :
  initialize (start_world st) = (Return tt, w1) ->
  exists st',
    start settings fuel st = (Return Looping, st') /\
    grown (started st) (self st') /\
    is_running (self st') = true /\
    start_time (self st') = Some (current_time (world st)) /\
    _heartbeat_task (self st') = Some TaskPending.
Proof.
  intros Hinit. unfold start. run_monad. unfold start_world in Hinit. simpl in Hinit.
  unfold await. run_monad. unfold set_ticks, set_log in *. simpl in *.
  rewrite Hinit. simpl. unfold _run_loop. run_monad.
  match goal with |- context [run_loop_while settings fuel ?s] =>
    destruct (run_loop_while_grown fuel s) as (status & st' & Hrun & Hg & Hon & _) end.
  rewrite Hrun, (Hon eq_refl). exists st'. split; [done|]. split; [exact Hg|].
  destruct Hg as (_ & Hr & Hs & Hh & _). by rewrite Hr, Hs, Hh.
Qed.

(** X14.  The error rate stays a rate: with a handler that fails with
    [Exception]s only and counters that start non-negative, after any
    number of passes of the main loop [get_error_rate] is between 0 and 1;
    it is 0 as long as no task has failed. *)
Theorem error_rate_between_0_and_1 fuel st :
  0 <= tasks_completed (self st) -> 0 <= tasks_failed (self st) ->
  exists status st',
    run_loop_while settings fuel st = (Return status, st') /\
    (0 <= get_error_rate (self st'))%Q /\
    (get_error_rate (self st') <= 1)%Q /\
    (tasks_failed (self st') = 0 -> (get_error_rate (self st') == 0)%Q).
Proof.
  intros Hc Hf.
  destruct (run_loop_while_grown fuel st) as (status & st' & Hrun & Hg & _).
  exists status, st'. split; [exact Hrun|].
  destruct Hg as (_ & _ & _ & _ & Hc' & Hf').
  unfold get_error_rate.
  destruct (decide (tasks_completed (self st') + tasks_failed (self st') = 0)) as [Hz|Hnz].
  - repeat split; try done. 
  - assert (Hpos : 0 < tasks_completed (self st') + tasks_failed (self st')) by lia.
    assert (HposQ : (0 < Qmake (tasks_completed (self st') + tasks_failed (self st')) 1)%Q).
    { unfold Qlt. simpl. lia. }
    split; [|split].
    + apply Qle_shift_div_l; [exact HposQ|]. unfold Qle. simpl. lia.
    + apply Qle_shift_div_r; [exact HposQ|]. unfold Qle. simpl. lia.
    + intros ->. unfold Qdiv. by rewrite Qmult_0_l.
Qed.
End MainLoopFrame.

Section Stop.
Context {pydantic : Pydantic} (settings : Settings) {handler : TaskHandler}.

(** X15.  [stop] ends both loops, also when [cleanup] fails.  Whatever
    [cleanup] does, [stop] ends as [cleanup] ended, and by then the
    running flag is clear and a pending heartbeat task is cancelled; from
    the state it leaves, the main loop leaves at its next test without
    popping a task, and the heartbeat loop leaves without a write. *)
Theorem stop_ends_both_loops st o w1 :
  cleanup (stop_world st) = (o, w1) ->
  let st' := mk_st (stopped (self st)) w1 (trace st ++ [Await_cleanup]) in
  stop st = (o, st') /\
  is_running (self st') = false /\
  _heartbeat_task (self st') <> Some TaskPending /\
  (forall fuel, run_loop_while settings fuel st' = (Return Exited, st')) /\
  (forall schedule, _heartbeat_loop settings schedule st' = (Return Exited, st')).
Proof.
  intros Hclean st'.
  assert (Hoff : is_running (self st') = false).
  { unfold st', stopped. simpl. by destruct (_heartbeat_task (self st)) as [[]|]. }
  subst st'. simpl in Hoff.
  split; [|split; [exact Hoff|split]].
  - unfold stop. run_monad. unfold stop_world in Hclean. simpl in Hclean.
    unfold stopped.
    destruct (_heartbeat_task (self st)) as [[]|] eqn:Hhb; run_monad;
      unfold await; run_monad; unfold set_log in *; simpl in *;
      rewrite Hclean; by destruct o as [[]|e].
  - unfold stopped. simpl.
    destruct (_heartbeat_task (self st)) as [[]|] eqn:Hhb; simpl; rewrite ?Hhb; done.
  - split.
    + intros fuel. destruct fuel; simpl; rewrite bind_unfold; simpl; by rewrite Hoff.
    + intros schedule. destruct schedule as [|[s1 s2] l]; simpl; rewrite bind_unfold;
        simpl; by rewrite Hoff.
Qed.

(** X16.  A pass of the main loop on an empty task queue is silent: on a
    connection that works, nothing is logged, no key and no channel
    changes, the agent is as it was, and the pass has awaited the pop and
    the short sleep only. *)
Theorem idle_pass_changes_nothing st :
  connected (world st) = true ->
  next_command_passes (world st) ->
  db (world st) !! task_queue_name settings = None ->
  exists w1,
    run_loop_body settings st =
      (Return tt,
       mk_st (self st) w1 (trace st ++ [Await_consume_task 5; Await_sleep (1 # 10)])) /\
    db w1 = db (world st) /\ channels w1 = channels (world st) /\
    log w1 = log (world st).
Proof.
  intros Hc Hf Hq. unfold run_loop_body, try_except. rewrite bind_unfold, await_unfold.
  unfold consume_task at 1 2, try_except. rewrite !bind_unfold.
  rewrite (redis_call_passes _ _ Hc Hf). simpl. unfold BRPOP. rewrite Hq. simpl.
  rewrite <- app_assoc. by eexists.
Qed.
End Stop.

(** X17.  [BaseAgent.publish_task] is fire and forget: it always returns
    the id it drew, a fresh uuid, whether or not the task reached the
    broker.  On a connection that works the task at the head of the task
    queue has that id, the target, type, priority and parameters given,
    the creation time read from the clock, no timeout, no retry so far and
    three retries allowed; when the transport fails the key space is
    unchanged and the id is returned all the same. *)
Theorem publish_task_returns_its_id settings target task_type parameters priority w :
  connected w = true ->
  exists w',
    BaseAgent_publish_task settings target task_type parameters priority w =
      (Return (uuids w (drawn w)), w') /\
    drawn w' = S (drawn w) /\
    (next_command_passes w ->
     (forall h, db w !! task_queue_name settings <> Some (RHash h)) ->
     queue (task_queue_name settings) w' =
       task_json (AgentTask.mk (uuids w (drawn w)) target task_type priority
                    parameters (current_time w) None 0 3)
       :: queue (task_queue_name settings) w) /\
    (forall err rest, faults w = Some err :: rest -> db w' = db w).
Proof.
  intros Hc. unfold BaseAgent_publish_task, AgentTask_new. run_monad.
  unfold publish_task, try_except. rewrite bind_unfold.
  unfold redis_call. simpl. rewrite Hc.
  destruct (faults w) as [|[err|] rest] eqn:Hf; simpl.
  - unfold LPUSH, queue. simpl.
    destruct (db w !! task_queue_name settings) as [[l|h]|] eqn:Hq; simpl.
    + eexists. split; [reflexivity|]. simpl. split; [done|]. split; [|done].
      intros _ _. by rewrite lookup_insert_eq.
    + eexists. split; [reflexivity|]. simpl. split; [done|]. split; [|done].
      intros _ Hh. by destruct (Hh h).
    + eexists. split; [reflexivity|]. simpl. split; [done|]. split; [|done].
      intros _ _. by rewrite lookup_insert_eq.
  - eexists. split; [reflexivity|]. simpl. split; [done|]. split; [|done].
    intros Hp. by destruct (Hp err rest).
  - unfold LPUSH, queue. simpl.
    destruct (db w !! task_queue_name settings) as [[l|h]|] eqn:Hq; simpl.
    + eexists. split; [reflexivity|]. simpl. split; [done|]. split; [|done].
      intros _ _. by rewrite lookup_insert_eq.
    + eexists. split; [reflexivity|]. simpl. split; [done|]. split; [|done].
      intros _ Hh. by destruct (Hh h).
    + eexists. split; [reflexivity|]. simpl. split; [done|]. split; [|done].
      intros _ _. by rewrite lookup_insert_eq.
Qed.

(** X18.  [task_context] logs the completion whether the body returned or
    raised, with the time elapsed since it was entered, and then ends as
    the body ended: an exception of the body reaches the caller after the
    record "completed" has been logged.  It touches nothing but the log
    and the clock. *)
Theorem task_context_logs_completion_either_way {A} a task_id (body : M World A) w o w1 :
  body (context_world a task_id w) = (o, w1) ->
  exists w2,
    task_context a task_id body w = (o, w2) /\
    log w2 = log w1 ++ [mk_log (AgentType.value (agent_id a)) LOG_INFO
                          [Str "Task "; Str task_id; Str " completed in ";
                           Fixed2 (total_seconds (current_time w1) (current_time w));
                           Str "s"]] /\
    db w2 = db w1 /\ channels w2 = channels w1 /\ faults w2 = faults w1.
Proof.
  intros Hbody. unfold task_context. rewrite bind_unfold. simpl.
  rewrite bind_unfold. simpl. unfold try_finally.
  unfold context_world in Hbody. rewrite Hbody. rewrite bind_unfold. simpl.
  by eexists.
Qed.

(** * The agents of the package *)

Lemma AgentResult_new_zero tid aid st rd w :
  AgentResult_new tid aid st rd None 0%Q w =
  (Return (AgentResult.mk tid aid st rd ∅ [] 0%Q (current_time w) None),
   set_ticks (S (ticks w)) w).
Proof. reflexivity. Qed.

Lemma DataQualityAgent_answers :
  answers_as DataQualityAgent.agent_id DataQualityAgent.handler.
Proof.
  intros task w. simpl. unfold DataQualityAgent.handle_task.
  repeat match goal with |- context [String.eqb ?a ?b] => destruct (String.eqb a b) end;
    try done;
    unfold DataQualityAgent._check_data_quality, DataQualityAgent._detect_anomalies,
      DataQualityAgent._validate_schema, DataQualityAgent._repair_data;
    rewrite bind_unfold; simpl; by rewrite AgentResult_new_zero.
Qed.

Lemma ModelMonitorAgent_answers :
  answers_as ModelMonitorAgent.agent_id ModelMonitorAgent.handler.
Proof.
  intros task w. simpl. unfold ModelMonitorAgent.handle_task.
  repeat match goal with |- context [String.eqb ?a ?b] => destruct (String.eqb a b) end;
    try done;
    unfold ModelMonitorAgent._check_drift, ModelMonitorAgent._evaluate_performance,
      ModelMonitorAgent._trigger_retraining;
    rewrite bind_unfold; simpl; by rewrite AgentResult_new_zero.
Qed.

Lemma stub_answers id message initialize cleanup :
  answers_as id (Build_TaskHandler initialize cleanup (stub_handle_task id message)).
Proof. intros task w. simpl. repeat split. Qed.

(** X19.  Each of the five agents of the package answers for the task it
    is given: its [handle_task] either returns a result that carries the
    id of the task and the agent's own identity, status [COMPLETED], no
    error message and a duration the schema accepts, leaving key space,
    channels and fault schedule as they were, or (data quality and model
    monitor, on a task type they do not know) raises an [Exception] whose
    text is "Unknown task type: " followed by the type, the world
    untouched. *)
Theorem shipped_agents_answer_for_their_task :
  Forall (fun p => answers_as (fst p) (snd p)) shipped_agents.
Proof.
  unfold shipped_agents.
  repeat (apply List.Forall_cons; [simpl|]); [| | | | |apply List.Forall_nil].
  - apply DataQualityAgent_answers.
  - apply ModelMonitorAgent_answers.
  - apply stub_answers.
  - apply stub_answers.
  - apply stub_answers.
Qed.

(** X20.  The data quality agent and the model monitor accept exactly the
    task types they list: [handle_task] returns when the type of the task
    is one of them and raises otherwise. *)
Theorem known_task_types_are_handled task w :
  ((exists r w', DataQualityAgent.handle_task task w = (Return r, w')) <->
   In (AgentTask.task_type task) data_quality_task_types) /\
  ((exists r w', ModelMonitorAgent.handle_task task w = (Return r, w')) <->
   In (AgentTask.task_type task) model_monitor_task_types).
Proof.
  split.
  - unfold DataQualityAgent.handle_task, data_quality_task_types. simpl.
    repeat match goal with |- context [String.eqb ?a ?b] =>
      destruct (String.eqb_spec a b) end;
      try (split; [intros _; match goal with H : AgentTask.task_type task = _ |- _ => rewrite H end; auto 10|intros _];
           unfold DataQualityAgent._check_data_quality, DataQualityAgent._detect_anomalies,
             DataQualityAgent._validate_schema, DataQualityAgent._repair_data;
           rewrite bind_unfold; simpl; rewrite AgentResult_new_zero; by eexists _, _).
    split; [by intros (r & w' & ?)|]. intros [?|[?|[?|[?|[]]]]]; congruence.
  - unfold ModelMonitorAgent.handle_task, model_monitor_task_types. simpl.
    repeat match goal with |- context [String.eqb ?a ?b] =>
      destruct (String.eqb_spec a b) end;
      try (split; [intros _; match goal with H : AgentTask.task_type task = _ |- _ => rewrite H end; auto 10|intros _];
           unfold ModelMonitorAgent._check_drift, ModelMonitorAgent._evaluate_performance,
             ModelMonitorAgent._trigger_retraining;
           rewrite bind_unfold; simpl; rewrite AgentResult_new_zero; by eexists _, _).
    split; [by intros (r & w' & ?)|]. intros [?|[?|[?|[]]]]; congruence.
Qed.

Section WellBehavedHandler.
Context (settings : Settings) {handler : TaskHandler} (id : AgentType.t).
Hypothesis handler_answers : answers_as id handler.

(** X21.  For a handler that behaves as the agents of the package do, what
    C4 asks of the results holds.  Provided the clock does not step back
    while the task is executed, the result [_execute_task] publishes
    carries the id of the task, and its [error_message] is set, and then
    not empty, exactly when its status is [FAILED]; otherwise the status
    is [COMPLETED] and there is no error message. *)
Theorem well_behaved_handler_error_message_iff_failed task st :
  current_time (world st) <= current_time (entry_world task st) ->
  exists r rest st',
    _execute_task settings task st = (Return tt, st') /\
    trace st' = trace st ++ Await_handle_task task :: Await_publish_result r :: rest /\
    AgentResult.task_id r = AgentTask.task_id task /\
    (AgentResult.status r = TaskStatus.FAILED <->
     exists m, AgentResult.error_message r = Some m /\ m <> "") /\
    (AgentResult.status r <> TaskStatus.FAILED ->
     AgentResult.status r = TaskStatus.COMPLETED /\ AgentResult.error_message r = None).
Proof.
  intros Hclock. pose proof (handler_answers task (entry_world task st)) as Hans.
  destruct (handle_task task (entry_world task st)) as [[r0|e] w1] eqn:Hh.
  - destruct Hans as (Hid & _ & Hst & Hem & _).
    destruct (execute_task_returned settings task st r0 w1 Hh)
      as (b & w2 & w3 & _ & _ & Hrun).
    eexists _, [], _. split; [exact Hrun|]. split; [reflexivity|].
    destruct r0 as [tid aid sta rd ms ars dur cat em]. simpl in *. subst.
    split; [done|]. split; [|done]. split; [done|]. by intros (m & ? & _).
  - destruct Hans as (He & Hstr & ->).
    destruct (execute_task_raised settings task st e _ Hh He Hclock)
      as (st' & Hrun & _ & Htrace).
    assert (Hfacts :
      AgentResult.task_id (failure_result task st e (entry_world task st)) =
        AgentTask.task_id task /\
      (AgentResult.status (failure_result task st e (entry_world task st)) =
         TaskStatus.FAILED <->
       exists m, AgentResult.error_message
                   (failure_result task st e (entry_world task st)) = Some m /\ m <> "") /\
      (AgentResult.status (failure_result task st e (entry_world task st)) <>
         TaskStatus.FAILED ->
       AgentResult.status (failure_result task st e (entry_world task st)) =
         TaskStatus.COMPLETED /\
       AgentResult.error_message (failure_result task st e (entry_world task st)) = None)).
    { simpl. split; [done|]. split; [|done]. split; [|done].
      intros _. exists (exc_str e). split; [done|]. by rewrite Hstr. }
    destruct (decide (AgentTask.priority task = TaskPriority.CRITICAL)) as [Hp|Hp].
    + destruct Htrace as (a & Htr & _).
      exists (failure_result task st e (entry_world task st)), [Await_publish_alert a], st'.
      split; [exact Hrun|]. split; [exact Htr|]. exact Hfacts.
    + exists (failure_result task st e (entry_world task st)), [], st'.
      split; [exact Hrun|]. split; [exact Htrace|]. exact Hfacts.
Qed.
End WellBehavedHandler.

(** * A task from the queue to the result store *)

Lemma publish_result_passes settings r w :
  connected w = true -> faults w = [] ->
  (forall h, db w !! result_queue_name settings <> Some (RHash h)) ->
  (forall l, db w !! result_key (AgentResult.task_id r) <> Some (RList l)) ->
  result_key (AgentResult.task_id r) <> result_queue_name settings ->
  exists w' h,
    publish_result settings r w = (Return true, w') /\
    connected w' = true /\ faults w' = [] /\
    db w' !! result_key (AgentResult.task_id r) = Some (RHash h) /\
    h !! "data" = Some (result_json r) /\
    (forall k, k <> result_queue_name settings ->
               k <> result_key (AgentResult.task_id r) -> db w' !! k = db w !! k).
Proof.
  intros Hc Hf Hq Hk Hne. unfold publish_result, try_except. rewrite bind_unfold.
  unfold redis_call at 1. rewrite Hc, Hf. simpl.
  assert (Hpush : exists n, LPUSH (result_queue_name settings) (result_json r) (db w) =
            inr (n, <[result_queue_name settings :=
               RList (result_json r :: queue (result_queue_name settings) w)]> (db w))).
  { unfold LPUSH, queue.
    destruct (db w !! result_queue_name settings) as [[l|h]|] eqn:E;
      [by eexists|by destruct (Hq h)|by eexists]. }
  destruct Hpush as (n & Hpush). unfold result_json in Hpush. rewrite Hpush.
  rewrite !bind_unfold. simpl. rewrite bind_unfold. unfold redis_call. simpl.
  rewrite Hc. simpl. unfold HSET. rewrite lookup_insert_ne; [|done].
  destruct (db w !! result_key (AgentResult.task_id r)) as [[l|h]|] eqn:E;
    [by destruct (Hk l)| |]; simpl.
  - eexists _, _. split; [reflexivity|]. simpl. split; [done|]. split; [done|].
    rewrite lookup_insert_eq. split; [reflexivity|]. split.
    + apply lookup_union_Some_l. by rewrite lookup_insert_eq.
    + intros k Hk1 Hk2. by rewrite !lookup_insert_ne.
  - eexists _, _. split; [reflexivity|]. simpl. split; [done|]. split; [done|].
    rewrite lookup_insert_eq. split; [reflexivity|]. split.
    + by rewrite lookup_insert_eq.
    + intros k Hk1 Hk2. by rewrite !lookup_insert_ne.
Qed.

Lemma publish_alert_keeps_store settings alert w :
  exists b w', publish_alert settings alert w = (Return b, w') /\
               keeps_store (alert_queue_name settings) w w'.
Proof.
  unfold publish_alert, try_except. rewrite bind_unfold.
  unfold redis_call at 1. destruct (connected w) eqn:Hc.
  2:{ simpl. eexists _, _. split; [reflexivity|]. by repeat split. }
  assert (Hhash : forall n d',
            LPUSH (alert_queue_name settings) (alert_json alert) (db w) = inr (n, d') ->
            (forall k h, db w !! k = Some (RHash h) -> d' !! k = Some (RHash h)) /\
            (forall k, k <> alert_queue_name settings -> d' !! k = db w !! k)).
  { intros n d' Hpush. split.
    - intros k h Hk.
      destruct (decide (k = alert_queue_name settings)) as [->|Hne].
      + unfold LPUSH in Hpush. by rewrite Hk in Hpush.
      + apply LPUSH_ok in Hpush as ->. by rewrite lookup_insert_ne.
    - intros k Hne. apply LPUSH_ok in Hpush as ->. by rewrite lookup_insert_ne. }
  unfold alert_json in Hhash.
  destruct (faults w) as [|[err|] rest] eqn:Hf; simpl.
  - destruct (LPUSH _ _ (db w)) as [err|[n d']] eqn:Hpush; simpl.
    + eexists _, _. split; [reflexivity|]. by repeat split.
    + rewrite bind_unfold. unfold redis_publish. rewrite bind_unfold.
      unfold redis_call. simpl. rewrite Hc. simpl.
      eexists _, _. split; [reflexivity|].
      split; [done|]. split; [done|]. simpl. by apply (Hhash n).
  - eexists _, _. split; [reflexivity|].
    split; [done|]. split; [by rewrite Hf|done].
  - destruct (LPUSH _ _ (db w)) as [err|[n d']] eqn:Hpush; simpl.
    + eexists _, _. split; [reflexivity|].
      split; [done|]. split; [by rewrite Hf|done].
    + rewrite bind_unfold. unfold redis_publish. rewrite bind_unfold.
      unfold redis_call. simpl. rewrite Hc.
      destruct rest as [|[err|] rest]; simpl;
        (eexists _, _; split; [reflexivity|];
         split; [done|]; split; [by rewrite Hf|]; simpl; by apply (Hhash n)).
Qed.

Section TaskToResult.
Context {pydantic : Pydantic} (settings : Settings) {handler : TaskHandler}.
Context (id : AgentType.t).
Hypothesis handler_answers : answers_as id handler.
Hypothesis handler_alone : leaves_broker_alone handler.

Lemma BaseAgent_publish_alert_keeps_store severity message related st :
  exists st',
    BaseAgent_publish_alert settings severity message related st = (Return tt, st') /\
    self st' = self st /\
    keeps_store (alert_queue_name settings) (world st) (world st').
Proof.
  unfold BaseAgent_publish_alert. rewrite bind_unfold, lift_unfold. simpl.
  rewrite bind_unfold. simpl. rewrite bind_unfold, lift_unfold. simpl.
  rewrite bind_unfold, await_unfold. simpl.
  match goal with |- context [publish_alert settings ?a ?w] =>
    destruct (publish_alert_keeps_store settings a w) as (b & w' & Hpub & Hk);
    rewrite Hpub end.
  eexists. split; [reflexivity|]. simpl. split; [done|]. exact Hk.
Qed.

Lemma execute_task_stores_result task st :
  connected (world st) = true -> faults (world st) = [] ->
  clock_monotone (world st) ->
  (forall h, db (world st) !! result_queue_name settings <> Some (RHash h)) ->
  (forall l, db (world st) !! result_key (AgentTask.task_id task) <> Some (RList l)) ->
  result_key (AgentTask.task_id task) <> result_queue_name settings ->
  exists r st' h,
    _execute_task settings task st = (Return tt, st') /\
    AgentResult.task_id r = AgentTask.task_id task /\
    AgentResult.schema_ok r = true /\
    (AgentResult.status r = TaskStatus.COMPLETED /\ AgentResult.agent_id r = id /\
     self st' = set_tasks_completed (tasks_completed (self st) + 1) (self st) \/
     AgentResult.status r = TaskStatus.FAILED /\
     AgentResult.agent_id r = agent_id (self st) /\
     self st' = set_tasks_failed (tasks_failed (self st) + 1) (self st)) /\
    connected (world st') = true /\ faults (world st') = [] /\
    db (world st') !! result_key (AgentTask.task_id task) = Some (RHash h) /\
    h !! "data" = Some (result_json r) /\
    (forall k, k <> result_queue_name settings ->
               k <> result_key (AgentTask.task_id task) ->
               k <> alert_queue_name settings ->
               db (world st') !! k = db (world st) !! k).
Proof.
  intros Hc Hf Hmono Hq Hk Hne.
  destruct (handle_task task (entry_world task st)) as [[r|e] w1] eqn:Hh.
  - pose proof (handler_answers task (entry_world task st)) as Ha. rewrite Hh in Ha.
    destruct Ha as (Hid & Hag & Hst & _ & _).
    destruct (handler_alone _ _ _ _ Hh) as (Hc1 & Hf1 & Hd1 & Hclk & Htk & _).
    unfold entry_world in Hc1, Hf1, Hd1, Hclk, Htk. simpl in Hc1, Hf1, Hd1, Hclk, Htk.
    set (r' := AgentResult.set_duration_seconds
                 (total_seconds (current_time w1) (current_time (world st))) r).
    destruct (publish_result_passes settings r' (set_ticks (S (ticks w1)) w1))
      as (w2 & h & Hpub & Hc2 & Hf2 & Hk2 & Hdata & Hother); simpl;
      rewrite ?Hid, ?Hc1, ?Hf1, ?Hd1; try done.
    simpl in Hk2, Hother. rewrite Hid in Hk2, Hother.
    exists r', (mk_st (set_tasks_completed (tasks_completed (self st) + 1) (self st))
                  (set_log (log w2 ++
                     [mk_log (AgentType.value (agent_id (self st))) LOG_INFO
                        [Str "Task "; Str (AgentTask.task_id task);
                         Str " completed successfully in ";
                         Fixed2 (total_seconds (current_time w1) (current_time (world st)));
                         Str "s"]]) w2)
                  (trace st ++ [Await_handle_task task; Await_publish_result r'])), h.
    split.
    { unfold _execute_task. rewrite bind_unfold, lift_unfold. simpl.
      rewrite bind_unfold. simpl. unfold try_except. rewrite bind_unfold, await_unfold.
      simpl. unfold entry_world in Hh. rewrite Hh. simpl.
      rewrite bind_unfold, lift_unfold. simpl.
      rewrite bind_unfold, await_unfold. simpl. fold r'.
      rewrite Hpub. simpl. rewrite <- app_assoc. reflexivity. }
    simpl. split; [done|]. split.
    { change (Qle_bool 0 (total_seconds (current_time w1) (current_time (world st)))
              = true).
      apply total_seconds_ge0.
      unfold current_time. rewrite Hclk. apply Hmono. lia. }
    split; [left; done|]. split; [done|]. split; [done|]. split; [done|].
    split; [done|]. intros k Hk1 Hk3 _. rewrite (Hother k Hk1 Hk3). simpl.
    by rewrite Hd1.
  - destruct (handler_alone _ _ _ _ Hh) as (Hc1 & Hf1 & Hd1 & Hclk & Htk & He).
    specialize (He e eq_refl).
    unfold entry_world in Hc1, Hf1, Hd1, Hclk, Htk. simpl in Hc1, Hf1, Hd1, Hclk, Htk.
    assert (Hclock : current_time (world st) <= current_time w1).
    { unfold current_time. rewrite Hclk. apply Hmono. lia. }
    set (r := failure_result task st e w1).
    unfold _execute_task. rewrite bind_unfold, lift_unfold. simpl.
    rewrite bind_unfold. simpl. unfold try_except. rewrite bind_unfold, await_unfold.
    simpl. unfold entry_world in Hh. rewrite Hh. simpl. rewrite He.
    rewrite bind_unfold. simpl. rewrite bind_unfold. simpl.
    rewrite bind_unfold, lift_unfold. simpl. rewrite bind_unfold. simpl.
    rewrite bind_unfold, lift_unfold. unfold AgentResult_new. simpl.
    rewrite bind_unfold. simpl. unfold AgentResult.schema_ok. simpl.
    change (clock w1 (ticks w1)) with (current_time w1).
    rewrite (proj2 (total_seconds_ge0 _ _) Hclock). simpl.
    rewrite bind_unfold, await_unfold. simpl. fold (failure_result task st e w1). fold r.
    match goal with |- context [publish_result settings r ?w] =>
      destruct (publish_result_passes settings r w)
        as (w2 & h & Hpub & Hc2 & Hf2 & Hk2 & Hdata & Hother); simpl;
        rewrite ?Hc1, ?Hf1, ?Hd1; try done;
      rewrite Hpub end.
    simpl in Hk2, Hother. simpl. rewrite <- app_assoc. simpl.
    assert (Hok : AgentResult.schema_ok r = true).
    { change (Qle_bool 0 (total_seconds (current_time w1) (current_time (world st)))
              = true).
      by apply total_seconds_ge0. }
    destruct (decide (AgentTask.priority task = TaskPriority.CRITICAL)) as [Hp|Hp].
    + match goal with |- context [BaseAgent_publish_alert settings ?s ?m ?rel ?x] =>
        destruct (BaseAgent_publish_alert_keeps_store s m rel x)
          as (st' & Hal & Hself & Hc3 & Hf3 & Hh3 & Ho3) end.
      rewrite Hal. simpl in Hself, Hc3, Hf3, Hh3, Ho3.
      exists r, st', h. split; [reflexivity|]. split; [done|]. split; [exact Hok|].
      split; [right; by rewrite Hself|]. split; [by rewrite Hc3|].
      split; [by apply Hf3|]. split; [by apply Hh3|]. split; [exact Hdata|].
      intros k Hk1 Hk3 Hk4. rewrite (Ho3 k Hk4), (Hother k Hk1 Hk3). simpl.
      by rewrite Hd1.
    + simpl. eexists r, _, h. split; [reflexivity|]. simpl.
      split; [done|]. split; [exact Hok|]. split; [right; done|].
      repeat (split; [done|]). intros k Hk1 Hk3 _. rewrite (Hother k Hk1 Hk3). simpl.
      by rewrite Hd1.
Qed.
End TaskToResult.

Section QueuedTask.
Context (settings : Settings) {handler : TaskHandler} (id : AgentType.t).
Hypothesis handler_answers : answers_as id handler.
Hypothesis handler_alone : leaves_broker_alone handler.

Lemma consume_task_head timeout w front t :
  connected w = true -> faults w = [] ->
  db w !! task_queue_name settings = Some (RList (front ++ [task_json t])) ->
  0 <= AgentTask.retry_count t -> 0 <= AgentTask.max_retries t ->
  exists w',
    @consume_task strict_pydantic settings timeout w = (Return (Some t), w') /\
    queue (task_queue_name settings) w' = front /\
    (forall k, k <> task_queue_name settings -> db w' !! k = db w !! k) /\
    connected w' = true /\ faults w' = [] /\
    clock w' = clock w /\ ticks w' = ticks w.
Proof.
  intros Hc Hf Hq Hrc Hmr.
  destruct (BRPOP_snoc _ timeout _ _ _ Hq) as (d' & Hpop & Hother & Hfront).
  unfold consume_task, try_except. rewrite bind_unfold.
  rewrite (redis_call_passes _ _ Hc (next_command_passes_nil _ Hf)). simpl. rewrite Hpop.
  rewrite bind_unfold. simpl. rewrite bind_unfold. unfold AgentTask_init.
  change (current_time (set_db _ _)) with (current_time w).
  change (@AgentTask_validate strict_pydantic) with Strict.task_validate.
  rewrite (Strict.task_validate_dump _ _ Hrc Hmr). simpl.
  eexists. split; [reflexivity|]. simpl. rewrite Hf. done.
Qed.

(** X22.  A task at the tail of the queue is executed by the next pass of
    the main loop of the agent it is addressed to, and its result can be
    fetched by its task id.  With a handler that behaves as the agents of
    the package do and leaves the broker alone, a connection that works, a
    wall clock that never steps back and the four keys involved distinct:
    the pass returns, the task has left the queue and the others stay,
    [get_result] of the task id returns a result for that task with a
    duration that is not negative, and either that result is [COMPLETED]
    and [tasks_completed] went up by one, or it is [FAILED] under the
    identity of the agent and [tasks_failed] went up by one. *)
Theorem queued_task_result_can_be_fetched task front st :
  AgentTask.agent_id task = agent_id (self st) ->
  connected (world st) = true ->
  faults (world st) = [] ->
  clock_monotone (world st) ->
  db (world st) !! task_queue_name settings = Some (RList (front ++ [task_json task])) ->
  0 <= AgentTask.retry_count task -> 0 <= AgentTask.max_retries task ->
  NoDup [task_queue_name settings; result_queue_name settings;
         alert_queue_name settings; result_key (AgentTask.task_id task)] ->
  (forall h, db (world st) !! result_queue_name settings <> Some (RHash h)) ->
  (forall l, db (world st) !! result_key (AgentTask.task_id task) <> Some (RList l)) ->
  exists r st' w',
    @run_loop_body strict_pydantic settings handler st = (Return tt, st') /\
    queue (task_queue_name settings) (world st') = front /\
    @get_result strict_pydantic (AgentTask.task_id task) (world st') =
      (Return (Some r), w') /\
    AgentResult.task_id r = AgentTask.task_id task /\
    (0 <= AgentResult.duration_seconds r)%Q /\
    (AgentResult.status r = TaskStatus.COMPLETED /\ AgentResult.agent_id r = id /\
     self st' = set_tasks_completed (tasks_completed (self st) + 1) (self st) \/
     AgentResult.status r = TaskStatus.FAILED /\
     AgentResult.agent_id r = agent_id (self st) /\
     self st' = set_tasks_failed (tasks_failed (self st) + 1) (self st)).
Proof.
  intros Hme Hc Hf Hmono Hq Hrc Hmr Hkeys Hrq Hrk.
  assert (Hd : task_queue_name settings <> result_queue_name settings /\
               task_queue_name settings <> alert_queue_name settings /\
               task_queue_name settings <> result_key (AgentTask.task_id task) /\
               result_key (AgentTask.task_id task) <> result_queue_name settings).
  { destruct (proj1 (NoDup_cons _ _) Hkeys) as (H1 & Hkeys1).
    destruct (proj1 (NoDup_cons _ _) Hkeys1) as (H2 & _).
    rewrite !not_elem_of_cons in H1. rewrite !not_elem_of_cons in H2.
    destruct H1 as (? & ? & ? & _).
    destruct H2 as (_ & ? & _). repeat split; congruence. }
  destruct Hd as (Htr & Hta & Htk & Hkr).
  destruct (consume_task_head 5 (world st) front task Hc Hf Hq Hrc Hmr)
    as (w1 & Hpop & Hfront & Hother & Hc1 & Hf1 & Hclk & Htick).
  set (st1 := mk_st (self st) w1 (trace st ++ [Await_consume_task 5])).
  destruct (execute_task_stores_result settings id handler_answers handler_alone task st1)
    as (r & st2 & h & Hrun & Hid & Hok & Hcase & Hc2 & Hf2 & Hk2 & Hdata & Hkeep);
    simpl; try done.
  { intros n m Hnm. rewrite Hclk. by apply Hmono. }
  { intros h. rewrite Hother; [apply Hrq|congruence]. }
  { intros l. rewrite Hother; [apply Hrk|congruence]. }
  destruct (@get_result_stored strict_pydantic r (world st2) h Hok Hc2
              (next_command_passes_nil _ Hf2)) as (w' & Hget).
  { by rewrite Hid. }
  { exact Hdata. }
  exists r, (mk_st (self st2) (world st2) (trace st2 ++ [Await_sleep (1 # 10)])), w'.
  split.
  { unfold run_loop_body, try_except. rewrite bind_unfold, await_unfold.
    rewrite Hpop. simpl. rewrite bind_unfold. simpl.
    rewrite decide_True by exact Hme. rewrite bind_unfold. fold st1. rewrite Hrun.
    by rewrite sleep_unfold. }
  simpl. split.
  { unfold queue in *. rewrite Hkeep; [exact Hfront|congruence..]. }
  split; [by rewrite <- Hid|]. split; [exact Hid|]. split.
  { by apply Qle_bool_iff. }
  exact Hcase.
Qed.
End QueuedTask.

(** * The agents of the package and the broker *)

Ltac broker_untouched :=
  intros [= <- <-]; simpl;
  repeat split; try done; try lia; try (intros e' [= <-]; done).

Lemma DataQualityAgent_leaves_broker_alone :
  leaves_broker_alone DataQualityAgent.handler.
Proof.
  intros task w o w'. simpl. unfold DataQualityAgent.handle_task.
  repeat match goal with |- context [String.eqb ?a ?b] => destruct (String.eqb a b) end;
    unfold DataQualityAgent._check_data_quality, DataQualityAgent._detect_anomalies,
      DataQualityAgent._validate_schema, DataQualityAgent._repair_data;
    try (rewrite bind_unfold; simpl; rewrite AgentResult_new_zero);
    broker_untouched.
Qed.

Lemma ModelMonitorAgent_leaves_broker_alone :
  leaves_broker_alone ModelMonitorAgent.handler.
Proof.
  intros task w o w'. simpl. unfold ModelMonitorAgent.handle_task.
  repeat match goal with |- context [String.eqb ?a ?b] => destruct (String.eqb a b) end;
    unfold ModelMonitorAgent._check_drift, ModelMonitorAgent._evaluate_performance,
      ModelMonitorAgent._trigger_retraining;
    try (rewrite bind_unfold; simpl; rewrite AgentResult_new_zero);
    broker_untouched.
Qed.

Lemma stub_leaves_broker_alone id message initialize cleanup :
  leaves_broker_alone
    (Build_TaskHandler initialize cleanup (stub_handle_task id message)).
Proof.
  intros task w o w'. simpl. unfold stub_handle_task. rewrite AgentResult_new_zero.
  broker_untouched.
Qed.

(** X23.  No agent of the package touches the broker from its handler:
    whatever the task and whether [handle_task] returns or raises, the
    client, the fault schedule and the key space are as they were, the
    clock is the same and has been read at most forwards, and what is
    raised is an [Exception].  Everything that reaches Redis while a task
    is executed is therefore sent by the runtime. *)
Theorem shipped_agents_leave_broker_alone :
  Forall (fun p => leaves_broker_alone (snd p)) shipped_agents.
Proof.
  unfold shipped_agents.
  repeat (apply List.Forall_cons; [simpl|]); [| | | | |apply List.Forall_nil].
  - apply DataQualityAgent_leaves_broker_alone.
  - apply ModelMonitorAgent_leaves_broker_alone.
  - apply stub_leaves_broker_alone.
  - apply stub_leaves_broker_alone.
  - apply stub_leaves_broker_alone.
Qed.

(** * The schemas at the boundary of the queue *)

Section SchemaBoundary.
Context (settings : Settings).

#[local] Arguments Strict.as_float_dict : simpl never.
#[local] Arguments Strict.as_str_list : simpl never.

Lemma result_validate_negative_duration now r :
  AgentResult.schema_ok r = false ->
  Strict.result_validate now (AgentResult.model_dump_json r) = None.
Proof.
  destruct r as [tid aid st rd ms ars dur cat em].
  unfold AgentResult.schema_ok. simpl. intros Hdur.
  unfold Strict.required, Strict.defaulted. simplify_map_eq.
  rewrite Strict.AgentType_of_value_value, Strict.TaskStatus_of_value_value.
  rewrite Strict.as_float_dict_dump, Strict.as_str_list_dump.
  unfold Strict.as_float_ge0. simpl. rewrite Hdur.
  by destruct rd.
Qed.

Lemma task_validate_minimal now tid a ty :
  Strict.task_validate now
    (JObj (<["task_id" := JStr tid]>
             (<["agent_id" := JStr (AgentType.value a)]> {["task_type" := JStr ty]}))) =
  Some (AgentTask.mk tid a ty TaskPriority.MEDIUM ∅ now None 0 3).
Proof.
  unfold Strict.task_validate, Strict.required, Strict.defaulted. simplify_map_eq.
  by rewrite Strict.AgentType_of_value_value.
Qed.

(** X24.  A producer may leave out every field of a task that has a
    default.  When the entry at the tail of the task queue is a document
    with just [task_id], [agent_id] and [task_type], [consume_task] returns
    the task with priority [MEDIUM], no parameters, no timeout,
    [retry_count] 0, [max_retries] 3 and the time of consumption as
    [created_at], and the entry has left the queue. *)
Theorem minimal_task_document_takes_defaults timeout tid a ty front w :
  connected w = true ->
  next_command_passes w ->
  db w !! task_queue_name settings =
    Some (RList (front ++
      [Doc (JObj (<["task_id" := JStr tid]>
                    (<["agent_id" := JStr (AgentType.value a)]>
                       {["task_type" := JStr ty]})))])) ->
  exists w',
    @consume_task strict_pydantic settings timeout w =
      (Return (Some (AgentTask.mk tid a ty TaskPriority.MEDIUM ∅ (current_time w)
                       None 0 3)), w') /\
    queue (task_queue_name settings) w' = front.
Proof.
  intros Hc Hf Hq.
  destruct (BRPOP_snoc _ timeout _ _ _ Hq) as (d' & Hpop & Hother & Hfront).
  unfold consume_task, try_except. rewrite bind_unfold.
  rewrite (redis_call_passes _ _ Hc Hf). simpl. rewrite Hpop.
  rewrite bind_unfold. simpl. rewrite bind_unfold. unfold AgentTask_init.
  change (current_time (set_db _ _)) with (current_time w).
  change (@AgentTask_validate strict_pydantic) with Strict.task_validate.
  rewrite task_validate_minimal.
  eexists. split; [reflexivity|]. exact Hfront.
Qed.

(** X25.  [publish_result] does not check the result it is given, and
    [get_result] does.  A result whose duration is negative is published
    like any other ([publish_result] returns [True], the document is at the
    head of the result queue and in the store), but it cannot be read
    back: [get_result] of its task id returns [None], changes no key and
    logs one error. *)
Theorem negative_duration_result_cannot_be_read_back r w w1 :
  AgentResult.schema_ok r = false ->
  publish_result settings r w = (Return true, w1) ->
  next_command_passes w1 ->
  queue (result_queue_name settings) w1 =
    result_json r :: queue (result_queue_name settings) w /\
  exists w2 record,
    @get_result strict_pydantic (AgentResult.task_id r) w1 = (Return None, w2) /\
    db w2 = db w1 /\
    log w2 = log w1 ++ [record] /\
    logger_name record = "messaging" /\ level record = LOG_ERROR.
Proof.
  intros Hbad Hpub Hf.
  destruct (publish_result_true settings r w w1 Hpub) as (Hc & _ & _ & Hne & h & Hdb).
  split.
  { unfold queue at 1. rewrite Hdb, lookup_insert_ne by done.
    by rewrite lookup_insert_eq. }
  unfold get_result, try_except. rewrite bind_unfold.
  rewrite (redis_call_passes _ _ Hc Hf). simpl. unfold HGET.
  rewrite Hdb, lookup_insert_eq.
  rewrite (lookup_union_Some_l _ _ _ (result_json r)) by by rewrite lookup_insert_eq.
  simpl. rewrite bind_unfold. simpl. rewrite bind_unfold. unfold AgentResult_init.
  change (@AgentResult_validate strict_pydantic) with Strict.result_validate.
  rewrite (result_validate_negative_duration _ r Hbad). simpl.
  eexists _, _. split; [reflexivity|]. done.
Qed.
End SchemaBoundary.

(** * The properties above at concrete inputs *)

Lemma task_queue_first_in_first_out_witness :
  exists w1, publish_task default_settings check_task (fresh_world []) = (Return true, w1).
Proof.
  destruct (task_queue_first_in_first_out default_settings check_task 5 (fresh_world []))
    as (w1 & Hpub & _).
  - reflexivity.
  - reflexivity.
  - intros h. vm_compute. discriminate.
  - vm_compute. discriminate.
  - vm_compute. discriminate.
  - by exists w1.
Defined.

Lemma publish_alert_queue_and_channel_witness :
  exists b w', publish_alert default_settings example_alert (fresh_world []) = (Return b, w').
Proof.
  destruct (publish_alert_queue_and_channel default_settings example_alert (fresh_world []))
    as (b & w' & Hpub & _).
  - reflexivity.
  - intros h. vm_compute. discriminate.
  - by exists b, w'.
Defined.

Lemma heartbeat_write_then_read_witness :
  exists w2,
    get_agent_heartbeat "data_quality"
      (snd (update_agent_heartbeat "data_quality" (fresh_world []))) =
    (Return (Some (current_time (fresh_world []))), w2).
Proof.
  apply (heartbeat_write_then_read "data_quality" (fresh_world [])
           (snd (update_agent_heartbeat "data_quality" (fresh_world [])))).
  - vm_compute. reflexivity.
  - intros err rest. vm_compute. discriminate.
Defined.

Lemma clear_queue_then_depth_witness :
  exists w1,
    clear_queue "diamond_mind:tasks" (with_tasks [task_json check_task] (fresh_world [])) =
    (Return tt, w1).
Proof.
  destruct (@clear_queue_then_depth strict_pydantic default_settings "diamond_mind:tasks"
              check_task (with_tasks [task_json check_task] (fresh_world [])))
    as ((w1 & Hclear & _) & _).
  - reflexivity.
  - reflexivity.
  - by exists w1.
Defined.

Lemma without_client_nothing_is_sent_witness :
  exists w',
    publish_task default_settings check_task offline_world = (Return false, w') /\
    db w' = db offline_world /\ channels w' = channels offline_world /\
    faults w' = faults offline_world.
Proof.
  apply (@without_client_nothing_is_sent strict_pydantic default_settings offline_world).
  reflexivity.
Defined.

Lemma subscribe_ends_at_undecodable_message_witness :
  subscribe "updates" (fun _ => mret tt)
    ([] ++ undecodable_message :: [as_message (Doc JNull)]) (fresh_world []) =
  subscribe "updates" (fun _ => mret tt) ([] ++ [undecodable_message]) (fresh_world []).
Proof.
  apply (subscribe_ends_at_undecodable_message "updates" (fun _ => mret tt) []
           undecodable_message [as_message (Doc JNull)] (fresh_world [])).
  - reflexivity.
  - reflexivity.
Defined.

Lemma publish_message_reaches_subscriber_witness :
  delivered_to "updates"
    (channels (snd (publish_message "updates" {["model" := JStr "v2"]} (fresh_world [])))) =
  delivered_to "updates" (channels (fresh_world [])) ++
    [as_message (Doc (JObj {["model" := JStr "v2"]}))].
Proof.
  apply (publish_message_reaches_subscriber "updates" {["model" := JStr "v2"]}
           (fresh_world [])
           (snd (publish_message "updates" {["model" := JStr "v2"]} (fresh_world [])))).
  vm_compute. reflexivity.
Defined.

Lemma alerts_reach_callback_in_order_witness :
  consume_alerts alert_validate (fun _ => mret tt)
    (delivered_to "alerts"
       ((fun data => ("alerts", data)) <$> (alert_json <$> [example_alert])))
    (fresh_world []) =
  (Return Looping, let_through (fresh_world [])).
Proof.
  apply (alerts_reach_callback_in_order [example_alert] (fun _ => mret tt)
           (fresh_world []) (let_through (fresh_world []))).
  - reflexivity.
  - intros err rest. vm_compute. discriminate.
  - vm_compute. reflexivity.
Defined.

Lemma main_loop_runs_until_flag_cleared_witness :
  exists status st',
    @run_loop_while strict_pydantic default_settings DataQualityAgent.handler 2
      (dq_running lossy_world) = (Return status, st') /\
    grown (self (dq_running lossy_world)) (self st') /\
    (is_running (self (dq_running lossy_world)) = true -> status = Looping) /\
    (is_running (self (dq_running lossy_world)) = false ->
     status = Exited /\ st' = dq_running lossy_world).
Proof.
  exact (@main_loop_runs_until_flag_cleared strict_pydantic default_settings
           DataQualityAgent.handler DataQualityAgent_soft 2 (dq_running lossy_world)).
Defined.

Lemma error_rate_between_0_and_1_witness :
  exists status st',
    @run_loop_while strict_pydantic default_settings DataQualityAgent.handler 2
      (dq_running lossy_world) = (Return status, st') /\
    (0 <= get_error_rate (self st'))%Q /\
    (get_error_rate (self st') <= 1)%Q /\
    (tasks_failed (self st') = 0 -> (get_error_rate (self st') == 0)%Q).
Proof.
  apply (@error_rate_between_0_and_1 strict_pydantic default_settings
           DataQualityAgent.handler DataQualityAgent_soft 2 (dq_running lossy_world)).
  - vm_compute. discriminate.
  - vm_compute. discriminate.
Defined.

Lemma start_enters_the_main_loop_witness :
  exists st',
    @start strict_pydantic default_settings DataQualityAgent.handler 1 dq_idle =
      (Return Looping, st') /\
    grown (started dq_idle) (self st') /\
    is_running (self st') = true /\
    start_time (self st') = Some (current_time (world dq_idle)) /\
    _heartbeat_task (self st') = Some TaskPending.
Proof.
  apply (@start_enters_the_main_loop strict_pydantic default_settings
           DataQualityAgent.handler DataQualityAgent_soft 1 dq_idle
           (snd (DataQualityAgent.initialize (start_world dq_idle)))).
  vm_compute. reflexivity.
Defined.

Lemma stop_ends_both_loops_witness :
  @stop DataQualityAgent.handler (dq_running (fresh_world [])) =
    (Return tt,
     mk_st (stopped (self (dq_running (fresh_world []))))
       (snd (DataQualityAgent.cleanup (stop_world (dq_running (fresh_world [])))))
       (trace (dq_running (fresh_world [])) ++ [Await_cleanup])).
Proof.
  apply (@stop_ends_both_loops strict_pydantic default_settings DataQualityAgent.handler
           (dq_running (fresh_world [])) (Return tt)
           (snd (DataQualityAgent.cleanup (stop_world (dq_running (fresh_world [])))))).
  vm_compute. reflexivity.
Defined.

Lemma idle_pass_changes_nothing_witness :
  exists w1,
    @run_loop_body strict_pydantic default_settings DataQualityAgent.handler dq_idle =
      (Return tt,
       mk_st (self dq_idle) w1
         (trace dq_idle ++ [Await_consume_task 5; Await_sleep (1 # 10)])) /\
    db w1 = db (world dq_idle) /\ channels w1 = channels (world dq_idle) /\
    log w1 = log (world dq_idle).
Proof.
  apply (@idle_pass_changes_nothing strict_pydantic default_settings
           DataQualityAgent.handler dq_idle).
  - reflexivity.
  - intros err rest. vm_compute. discriminate.
  - reflexivity.
Defined.

Lemma publish_task_returns_its_id_witness :
  exists w',
    BaseAgent_publish_task default_settings AgentType.MODEL_MONITOR "check_drift" ∅
      TaskPriority.HIGH (fresh_world []) = (Return "uuid-0", w').
Proof.
  destruct (publish_task_returns_its_id default_settings AgentType.MODEL_MONITOR
              "check_drift" ∅ TaskPriority.HIGH (fresh_world [])) as (w' & Hpub & _).
  - reflexivity.
  - by exists w'.
Defined.

Lemma task_context_logs_completion_either_way_witness :
  exists w2,
    task_context (BaseAgent_init AgentType.DATA_QUALITY) "T1"
      (raise missing_model : M World unit) (fresh_world []) = (Raise missing_model, w2).
Proof.
  destruct (task_context_logs_completion_either_way
              (BaseAgent_init AgentType.DATA_QUALITY) "T1"
              (raise missing_model : M World unit) (fresh_world []) (Raise missing_model)
              (context_world (BaseAgent_init AgentType.DATA_QUALITY) "T1" (fresh_world [])))
    as (w2 & Hrun & _).
  - reflexivity.
  - by exists w2.
Defined.

Lemma well_behaved_handler_error_message_iff_failed_witness :
  exists st',
    @_execute_task default_settings DataQualityAgent.handler unknown_task dq_idle =
      (Return tt, st').
Proof.
  destruct (@well_behaved_handler_error_message_iff_failed default_settings
              DataQualityAgent.handler DataQualityAgent.agent_id DataQualityAgent_answers
              unknown_task dq_idle) as (r & rest & st' & Hrun & _).
  - vm_compute. discriminate.
  - by exists st'.
Defined.

Lemma queued_task_result_can_be_fetched_witness :
  exists r st' w',
    @run_loop_body strict_pydantic default_settings DataQualityAgent.handler
      (dq_running (with_tasks [task_json unknown_task; task_json check_task]
                     (fresh_world []))) = (Return tt, st') /\
    queue "diamond_mind:tasks" (world st') = [task_json unknown_task] /\
    @get_result strict_pydantic "T2" (world st') = (Return (Some r), w').
Proof.
  destruct (@queued_task_result_can_be_fetched default_settings DataQualityAgent.handler
              DataQualityAgent.agent_id DataQualityAgent_answers
              DataQualityAgent_leaves_broker_alone check_task [task_json unknown_task]
              (dq_running (with_tasks [task_json unknown_task; task_json check_task]
                             (fresh_world []))))
    as (r & st' & w' & Hrun & Hq & Hget & _).
  - reflexivity.
  - reflexivity.
  - reflexivity.
  - intros n m Hnm. simpl. unfold steady_clock. lia.
  - vm_compute. reflexivity.
  - vm_compute. discriminate.
  - vm_compute. discriminate.
  - apply (bool_decide_unpack _). vm_compute. exact I.
  - intros h. vm_compute. discriminate.
  - intros l. vm_compute. discriminate.
  - by exists r, st', w'.
Defined.

Lemma minimal_task_document_takes_defaults_witness :
  exists w',
    @consume_task strict_pydantic default_settings 5
      (with_tasks [minimal_task_entry] (fresh_world [])) =
    (Return (Some (AgentTask.mk "T4" AgentType.EXPLAINER "explain" TaskPriority.MEDIUM ∅
                     (current_time (with_tasks [minimal_task_entry] (fresh_world [])))
                     None 0 3)), w') /\
    queue (task_queue_name default_settings) w' = [].
Proof.
  apply (minimal_task_document_takes_defaults default_settings 5 "T4" AgentType.EXPLAINER
           "explain" [] (with_tasks [minimal_task_entry] (fresh_world []))).
  - reflexivity.
  - intros err rest. vm_compute. discriminate.
  - vm_compute. reflexivity.
Defined.

Lemma negative_duration_result_cannot_be_read_back_witness :
  exists w2,
    @get_result strict_pydantic "T1"
      (snd (publish_result default_settings negative_result (fresh_world []))) =
    (Return None, w2).
Proof.
  destruct (negative_duration_result_cannot_be_read_back default_settings negative_result
              (fresh_world [])
              (snd (publish_result default_settings negative_result (fresh_world []))))
    as (_ & w2 & record & Hget & _).
  - reflexivity.
  - vm_compute. reflexivity.
  - intros err rest. vm_compute. discriminate.
  - by exists w2.
Defined.
